(** * data_helper.py: a shallow embedding and its verified properties

    The Python module [data_helper.py] holds stateless helpers over pandas
    objects: [split_data], [clean_data], [decompose_data] and
    [create_standard_multivariable_df].  This development embeds them as
    Rocq functions and proves the properties the specification states about
    them.

    Modelling conventions.
    - A Python [float] (and a numpy [float64]) is an IEEE 754 binary64
      number.  Its finite values are rationals, so [f64] is a rational or
      [NaN]; every arithmetic operation rounds its exact result to binary64
      with round-to-nearest-even ([fl64]).  Infinities and the sign of zero
      are outside the model: results are assumed below the overflow
      threshold.
    - A Python exception is a value [Raise cls msg] of the [result] type.
    - [print] and the calls to [plot_data] are recorded in an event log.
    - A function that mutates its argument in place returns the final state
      of that argument next to its result. *)

From Stdlib Require Import ZArith QArith Qpower Qround Qabs Qreduction Lqa Qminmax.
From Stdlib Require Import List String Ascii Bool Lia Arith Permutation Sorted.
From Stdlib Require Import DecimalString DecimalZ.
Import ListNotations.

Local Open Scope Z_scope.

(* ================================================================== *)
(** * Binary64 arithmetic on rationals *)
(* ================================================================== *)

Module Float.

(** Round half to even, from a rational to an integer. *)
Definition rne (q : Q) : Z :=
  let f := Qfloor q in
  match Qcompare (q - inject_Z f) (1 # 2) with
  | Lt => f
  | Gt => f + 1
  | Eq => if Z.even f then f else f + 1
  end.

(** [Qlog2_floor q] is [floor (log2 q)] for a positive rational. *)
Definition Qlog2_floor (q : Q) : Z :=
  let d := Z.log2 (Qnum q) - Z.log2 (Zpos (Qden q)) in
  if Qle_bool (Qpower 2 d) q then d else d - 1.

(** Rounding of an exact result to binary64: 53 significant bits, least
    exponent -1074 (subnormal range), ties to even. *)
Definition fl64 (q : Q) : Q :=
  let q := Qred q in
  if Qeq_bool q 0 then 0%Q
  else
    let e := Z.max (Qlog2_floor (Qabs q) - 52) (-1074) in
    Qred (inject_Z (rne (q / Qpower 2 e)) * Qpower 2 e).

Inductive f64 : Type :=
| Fin (q : Q)
| NaN.

Definition of_Z (z : Z) : f64 := Fin (fl64 (inject_Z z)).
Definition of_Q (q : Q) : f64 := Fin (fl64 q).

Definition lift2 (op : Q -> Q -> Q) (a b : f64) : f64 :=
  match a, b with
  | Fin x, Fin y => Fin (fl64 (op x y))
  | _, _ => NaN
  end.

Definition fadd : f64 -> f64 -> f64 := lift2 Qplus.
Definition fsub : f64 -> f64 -> f64 := lift2 Qminus.
Definition fmul : f64 -> f64 -> f64 := lift2 Qmult.

Definition Qlt_bool (x y : Q) : bool := negb (Qle_bool y x).

(** Comparisons: anything compared with NaN is false. *)
Definition flt (a b : f64) : bool :=
  match a, b with
  | Fin x, Fin y => Qlt_bool x y
  | _, _ => false
  end.

Definition fgt (a b : f64) : bool := flt b a.

Definition is_nan (a : f64) : bool :=
  match a with NaN => true | Fin _ => false end.

(** [round(x, 0)] of Python and [numpy.round]: the nearest integer, ties to
    even, as a float. *)
Definition fround (a : f64) : f64 :=
  match a with
  | Fin x => Fin (inject_Z (rne x))
  | NaN => NaN
  end.

End Float.
Import Float.

(* ================================================================== *)
(** * Python values, exceptions and effects *)
(* ================================================================== *)

Inductive exn_class : Type :=
| TypeError | ValueError | KeyError | AttributeError | IndexError.

Inductive result (A : Type) : Type :=
| Ok (a : A)
| Raise (cls : exn_class) (msg : string).
Arguments Ok {A} a.
Arguments Raise {A} cls msg.

Definition rbind {A B} (r : result A) (k : A -> result B) : result B :=
  match r with
  | Ok a => k a
  | Raise c m => Raise c m
  end.

Declare Scope py_scope.
Delimit Scope py_scope with py.
Notation "x <- c ;; k" := (rbind c (fun x => k))
  (at level 61, c at next level, right associativity) : py_scope.

(** The exception class behind a failure, [None] for a normal return. *)
Definition raised {A} (r : result A) : option exn_class :=
  match r with
  | Ok _ => None
  | Raise c _ => Some c
  end.

(** ** Series *)

Inductive index_kind : Type := DatetimeIndex | OtherIndex.

(** The rows of a Series, label first; the dtype is numeric (int64 or
    float64, its values the numbers they denote) or object. *)
Inductive series_data : Type :=
| NumericData (rows : list (Z * f64))
| ObjectData (rows : list (Z * string)).

Record Series : Type := mkSeries {
  s_name : string;
  s_index_kind : index_kind;
  s_data : series_data
}.

Definition series_len (s : Series) : nat :=
  match s_data s with
  | NumericData rows => List.length rows
  | ObjectData rows => List.length rows
  end.

Definition with_data (s : Series) (d : series_data) : Series :=
  mkSeries (s_name s) (s_index_kind s) d.

(** Python slicing [l[start:stop]] with step 1: negative bounds count from
    the end and every bound is clamped to the length. *)
Definition norm_index (n i : Z) : Z :=
  if i <? 0 then Z.max (i + n) 0 else Z.min i n.

Definition py_slice {A} (l : list A) (start stop : Z) : list A :=
  let n := Z.of_nat (List.length l) in
  let a := norm_index n start in
  let b := norm_index n stop in
  firstn (Z.to_nat (b - a)) (skipn (Z.to_nat a) l).

(** [data[start:stop]] on a Series is positional and keeps the labels. *)
Definition series_slice (s : Series) (start stop : Z) : Series :=
  with_data s
    match s_data s with
    | NumericData rows => NumericData (py_slice rows start stop)
    | ObjectData rows => ObjectData (py_slice rows start stop)
    end.

(** [pd.concat([a, b])]: the rows of [a] followed by those of [b]. *)
Definition series_concat (a b : Series) : Series :=
  with_data a
    match s_data a, s_data b with
    | NumericData r1, NumericData r2 => NumericData (r1 ++ r2)
    | ObjectData r1, ObjectData r2 => ObjectData (r1 ++ r2)
    | d, _ => d
    end.

(** ** Objects a caller can pass *)

Inductive PyObj : Type :=
| PyNone
| PyBool (b : bool)
| PyInt (z : Z)
| PyFloat (x : f64)
| PyStr (interned : bool) (s : string)
| PySeries (s : Series).

(** [isinstance(o, int)]: [bool] is a subclass of [int]. *)
Definition as_int (o : PyObj) : option Z :=
  match o with
  | PyInt z => Some z
  | PyBool b => Some (if b then 1 else 0)
  | _ => None
  end.

(** [isinstance(o, float)]. *)
Definition as_float (o : PyObj) : option f64 :=
  match o with
  | PyFloat x => Some x
  | _ => None
  end.

(** [o == lit] for a string literal: equality of contents. *)
Definition py_eq_str (o : PyObj) (lit : string) : bool :=
  match o with
  | PyStr _ s => String.eqb s lit
  | _ => false
  end.

(** [o is lit] for a string literal: identity.  The literal is an interned
    constant, so only the interned string of the same contents is that
    object. *)
Definition py_is_str (o : PyObj) (lit : string) : bool :=
  match o with
  | PyStr true s => String.eqb s lit
  | _ => false
  end.

(** [int(x)] of a float: truncation, [ValueError] on NaN. *)
Definition Qtrunc (q : Q) : Z :=
  if Qle_bool 0 q then Qfloor q else Qceiling q.

Definition py_int (x : f64) : result Z :=
  match x with
  | Fin q => Ok (Qtrunc q)
  | NaN => Raise ValueError "cannot convert float NaN to integer"
  end.

(** ** The event log: console output and plots *)

Inductive event : Type :=
| Print (line : string)
| PlotData (title : string) (hline_values : list f64).

Definition M (A : Type) : Type := list event -> result A * list event.

Definition ret {A} (a : A) : M A := fun log => (Ok a, log).
Definition throw {A} (c : exn_class) (msg : string) : M A :=
  fun log => (Raise c msg, log).
Definition emit (e : event) : M unit := fun log => (Ok tt, log ++ [e]).
Definition mbind {A B} (m : M A) (k : A -> M B) : M B :=
  fun log =>
    match m log with
    | (Ok a, log') => k a log'
    | (Raise c msg, log') => (Raise c msg, log')
    end.
Definition lift {A} (r : result A) : M A := fun log => (r, log).

Declare Scope io_scope.
Delimit Scope io_scope with io.
Notation "x <- c ;; k" := (mbind c (fun x => k))
  (at level 61, c at next level, right associativity) : io_scope.
Notation "c ;; k" := (mbind c (fun _ => k))
  (at level 61, right associativity) : io_scope.

(** ** Text *)

Definition str_of_Z (z : Z) : string := NilZero.string_of_int (Z.to_int z).

Fixpoint pad_zeros (width : nat) (s : string) : string :=
  match width with
  | O => s
  | S w => if (String.length s <? S w)%nat then pad_zeros w ("0" ++ s) else s
  end.

(** ["%f" % x]: six digits after the point, the exact value rounded half to
    even. *)
Definition format_f (x : f64) : string :=
  match x with
  | NaN => "nan"
  | Fin q =>
    let r := rne (Qabs q * inject_Z 1000000) in
    ((if Qlt_bool q 0 then "-" else "")
     ++ str_of_Z (r / 1000000) ++ "." ++ pad_zeros 6 (str_of_Z (r mod 1000000)))%string
  end.

(* ================================================================== *)
(** * split_data *)
(* ================================================================== *)

(** The split point [int(round(split * len(data), 0))]. *)
Definition split_point (split : f64) (n : nat) : result Z :=
  let length_training := fmul split (of_Z (Z.of_nat n)) in
  py_int (fround length_training).

Definition split_data (data split : PyObj) : result (Series * Series) :=
  match data with
  | PySeries s =>
    match as_float split with
    | Some x =>
      if negb (flt (Fin 0) x && flt x (Fin 1)) then
        Raise ValueError "Split value needs to be between 0.0 and 1.0"
      else
        (length_training <- split_point x (series_len s) ;;
         let training := series_slice s 0 length_training in
         let testing :=
           series_slice s length_training (Z.of_nat (series_len s)) in
         Ok (training, testing))%py
    | None => Raise TypeError "Your split value needs to be a float."
    end
  | _ => Raise TypeError "Your data needs to be in a Series format."
  end.

(* ================================================================== *)
(** * clean_data *)
(* ================================================================== *)

(** [data[mask]] with a boolean mask computed from the values: the rows
    whose value passes, labels kept. *)
Definition filter_rows (keep : f64 -> bool) (rows : list (Z * f64))
  : list (Z * f64) :=
  filter (fun r => keep (snd r)) rows.

(** Insertion sort of the finite values. *)
Fixpoint insert_sorted (x : Q) (l : list Q) : list Q :=
  match l with
  | [] => [x]
  | y :: l' => if Qle_bool x y then x :: l else y :: insert_sorted x l'
  end.

Definition sort_Q (l : list Q) : list Q := fold_right insert_sorted [] l.

Definition finite_values (rows : list (Z * f64)) : list Q :=
  flat_map (fun r => match snd r with Fin q => [q] | NaN => [] end) rows.

(** [Series.quantile(q)] with the default linear interpolation: NaN is
    skipped, the values are sorted, and the result is
    [i + (j - i) * fraction] around the virtual index [(n - 1) * q]; an
    empty Series gives NaN. *)
Definition quantile (rows : list (Z * f64)) (q : f64) : f64 :=
  let xs := sort_Q (finite_values rows) in
  match xs with
  | [] => NaN
  | x0 :: _ =>
    let n := Z.of_nat (List.length xs) in
    match fmul (of_Z (n - 1)) q with
    | NaN => NaN
    | Fin h =>
      let lo := Qfloor h in
      let fraction := fsub (Fin h) (of_Z lo) in
      let i := Fin (nth (Z.to_nat lo) xs x0) in
      let j := Fin (nth (Z.to_nat (Z.min (lo + 1) (n - 1))) xs x0) in
      fadd i (fmul (fsub j i) fraction)
    end
  end.

(** The number a threshold stands for in arithmetic, when it is an [int] or
    a [float]. *)
Definition as_number (o : PyObj) : option f64 :=
  match o with
  | PyInt z => Some (of_Z z)
  | PyBool b => Some (of_Z (if b then 1 else 0))
  | PyFloat x => Some x
  | _ => None
  end.

Record iqr_bounds : Type := mkBounds {
  b_q1 : f64; b_q3 : f64; b_iqr : f64;
  lower_bound : f64; upper_bound : f64
}.

Definition compute_bounds (rows : list (Z * f64)) (threshold : f64)
  : iqr_bounds :=
  let q1 := quantile rows (of_Q (25 # 100)) in
  let q3 := quantile rows (of_Q (75 # 100)) in
  let iqr := fsub q3 q1 in
  let lower_bound := fsub q1 (fmul threshold iqr) in
  let upper_bound := fadd q3 (fmul threshold iqr) in
  mkBounds q1 q3 iqr lower_bound upper_bound.

Definition bounds_line (b : iqr_bounds) : string :=
  ("lower_bound: " ++ format_f (lower_bound b) ++ " and "
   ++ "upper_bound: " ++ format_f (upper_bound b))%string.

Definition when (b : bool) (m : M unit) : M unit :=
  if b then m else ret tt.

(** [clean_data(data, threshold, clean_type, show_plot)].  The comparison
    of a value with an integer threshold is the comparison of the two
    numbers.  On a Series of dtype object the interquartile branch fails
    inside [data.quantile], with the [TypeError] of pandas. *)
Definition clean_data (data threshold clean_type : PyObj) (show_plot : bool)
  : M Series :=
  if py_eq_str clean_type "value" then
    match data with
    | PySeries s =>
      match s_data s with
      | NumericData rows =>
        match as_int threshold with
        | Some t =>
          (let cleaned_data :=
             with_data s
               (NumericData
                  (filter_rows (fun v => fgt v (Fin (inject_Z t))) rows)) in
           when show_plot (emit (PlotData (s_name s) [Fin (inject_Z t)])) ;;
           ret cleaned_data)%io
        | None => throw TypeError "Your passed threshold needs to be an int."
        end
      | ObjectData _ => throw TypeError "Your Series data needs to be numeric."
      end
    | _ => throw TypeError "Your data needs to be in a Series format."
    end
  else
    match data with
    | PySeries s =>
      match as_number threshold with
      | Some m =>
        match s_data s with
        | NumericData rows =>
          (let b := compute_bounds rows m in
           emit (Print (bounds_line b)) ;;
           let cleaned_data :=
             with_data s
               (NumericData
                  (filter_rows
                     (fun v => fgt v (lower_bound b) && flt v (upper_bound b))
                     rows)) in
           when show_plot
             (emit (PlotData (s_name s) [upper_bound b; lower_bound b])) ;;
           ret cleaned_data)%io
        | ObjectData _ =>
          throw TypeError "unsupported operand type(s) for -: 'str' and 'str'"
        end
      | None => throw TypeError "'threshold' needs to be of type 'float' or 'int'"
      end
    | _ => throw TypeError "'data' must be a Pandas 'Series'"
    end.

(* ================================================================== *)
(** * DataFrame *)
(* ================================================================== *)

(** A cell holds a float (NaN is the missing value) or an integer. *)
Inductive cell : Type :=
| CFloat (x : f64)
| CInt (z : Z).

Definition cell_isna (c : cell) : bool :=
  match c with
  | CFloat NaN => true
  | _ => false
  end.

Definition to_f64 (c : cell) : f64 :=
  match c with
  | CFloat x => x
  | CInt z => of_Z z
  end.

(** [c == k] for an integer literal [k]. *)
Definition cell_eq_int (c : cell) (k : Z) : bool :=
  match c with
  | CInt z => z =? k
  | CFloat (Fin q) => Qeq_bool q (inject_Z k)
  | CFloat NaN => false
  end.

(** [Series.round(0)]. *)
Definition cell_round (c : cell) : cell :=
  match c with
  | CFloat x => CFloat (fround x)
  | CInt z => CInt z
  end.

Definition column : Type := list cell.

(** A DataFrame: a DatetimeIndex (nanoseconds since 1970-01-01T00:00) and
    the columns in their order, label first. *)
Record DataFrame : Type := mkFrame {
  df_index : list Z;
  df_columns : list (string * column)
}.

Definition nrows (df : DataFrame) : nat := List.length (df_index df).
Definition labels (df : DataFrame) : list string := map fst (df_columns df).

(** ** Calendar fields of a timestamp (proleptic Gregorian calendar) *)

Module Calendar.

Definition ns_per_hour : Z := 3600000000000.
Definition ns_per_day : Z := 86400000000000.

Definition days (t : Z) : Z := t / ns_per_day.

Definition hour (t : Z) : Z := (t / ns_per_hour) mod 24.

(** Monday is 0; 1970-01-01 was a Thursday. *)
Definition weekday (t : Z) : Z := (days t + 3) mod 7.

(** The month of a day of the 400-year era that starts on 0000-03-01. *)
Definition month_of_day_of_era (doe : Z) : Z :=
  let yoe := (doe - doe / 1460 + doe / 36524 - doe / 146096) / 365 in
  let doy := doe - (365 * yoe + yoe / 4 - yoe / 100) in
  let mp := (5 * doy + 2) / 153 in
  if mp <? 10 then mp + 3 else mp - 9.

Definition month (t : Z) : Z :=
  month_of_day_of_era ((days t + 719468) mod 146097).

End Calendar.

(** ** Column access *)

Fixpoint lookup (name : string) (cols : list (string * column))
  : option column :=
  match cols with
  | [] => None
  | (n, c) :: rest => if String.eqb n name then Some c else lookup name rest
  end.

(** [df[name] = vals]: an existing column is replaced in place, a new one is
    appended. *)
Fixpoint set_col (name : string) (vals : column) (cols : list (string * column))
  : list (string * column) :=
  match cols with
  | [] => [(name, vals)]
  | (n, c) :: rest =>
    if String.eqb n name then (n, vals) :: rest
    else (n, c) :: set_col name vals rest
  end.

(** [df.name] on a frame. *)
Definition frame_getattr (df : DataFrame) (name : string) : result column :=
  match lookup name (df_columns df) with
  | Some c => Ok c
  | None =>
    Raise AttributeError
      ("'DataFrame' object has no attribute '" ++ name ++ "'")
  end.

Definition frame_setitem (name : string) (vals : column) (df : DataFrame)
  : DataFrame :=
  mkFrame (df_index df) (set_col name vals (df_columns df)).

(** [df.rename(columns={old: new})]. *)
Definition rename_columns (old new : string) (df : DataFrame) : DataFrame :=
  mkFrame (df_index df)
    (map (fun nc => (if String.eqb (fst nc) old then new else fst nc, snd nc))
       (df_columns df)).

Fixpoint zip_with {A B C} (f : A -> B -> C) (l : list A) (l' : list B)
  : list C :=
  match l, l' with
  | a :: t, b :: t' => f a b :: zip_with f t t'
  | _, _ => []
  end.

(** [df.loc[mask, name] = v]. *)
Definition frame_loc_set (mask : list bool) (name : string) (v : cell)
    (df : DataFrame) : DataFrame :=
  let old :=
    match lookup name (df_columns df) with
    | Some c => c
    | None => repeat (CFloat NaN) (nrows df)
    end in
  frame_setitem name (zip_with (fun b c => if b : bool then v else c) mask old) df.

(** [df.iloc[:, k]]. *)
Definition frame_iloc (df : DataFrame) (k : Z) : result column :=
  let n := Z.of_nat (List.length (df_columns df)) in
  if (- n <=? k) && (k <? n) then
    Ok (snd (nth (Z.to_nat (if k <? 0 then k + n else k)) (df_columns df)
               (EmptyString, [])))
  else Raise IndexError "single positional indexer is out-of-bounds".

(** [Series.shift(k)] for [k >= 0]: the values move [k] rows down, the first
    [k] rows become NaN, and the column becomes float. *)
Definition shift_cells (k : nat) (col : column) : column :=
  firstn (List.length col)
    (repeat (CFloat NaN) k ++ map (fun c => CFloat (to_f64 c)) col).

(** ** One-hot encoding *)

Fixpoint insert_Z (x : Z) (l : list Z) : list Z :=
  match l with
  | [] => [x]
  | y :: l' => if x <=? y then x :: l else y :: insert_Z x l'
  end.

Definition sort_Z (l : list Z) : list Z := fold_right insert_Z [] l.

(** The category of a cell of an encoded column; the encoded columns of this
    module hold integers. *)
Definition cat_key (c : cell) : option Z :=
  match c with
  | CInt z => Some z
  | CFloat _ => None
  end.

Definition categories (col : column) : list Z :=
  sort_Z (nodup Z.eq_dec
            (flat_map (fun c => match cat_key c with
                                | Some z => [z]
                                | None => []
                                end) col)).

Definition indicator (b : bool) : cell := CInt (if b then 1 else 0).

Definition dummy_column (col : column) (k : Z) : column :=
  map (fun c => indicator match cat_key c with
                          | Some z => z =? k
                          | None => false
                          end) col.

Definition remove_label (name : string) (cols : list (string * column))
  : list (string * column) :=
  filter (fun nc => negb (String.eqb (fst nc) name)) cols.

(** [pd.get_dummies(data=df, columns=[name])]: the other columns, then one
    indicator column [name_k] per category [k] in increasing order. *)
Definition get_dummies (df : DataFrame) (name : string) : result DataFrame :=
  match lookup name (df_columns df) with
  | None => Raise KeyError name
  | Some col =>
    Ok (mkFrame (df_index df)
          (remove_label name (df_columns df)
           ++ map (fun k => (((name ++ "_") ++ str_of_Z k)%string,
                             dummy_column col k))
                (categories col)))
  end.

Fixpoint has_dup (l : list string) : bool :=
  match l with
  | [] => false
  | x :: t => existsb (String.eqb x) t || has_dup t
  end.

(** [df.T.reindex(names).T]: the columns named, in that order; a name the
    frame lacks gives a column of NaN; duplicate labels in the frame are an
    error. *)
Definition reindex_columns (names : list string) (df : DataFrame)
  : result DataFrame :=
  if has_dup (labels df) then
    Raise ValueError "cannot reindex on an axis with duplicate labels"
  else
    Ok (mkFrame (df_index df)
          (map (fun n => (n, match lookup n (df_columns df) with
                             | Some c => c
                             | None => repeat (CFloat NaN) (nrows df)
                             end)) names)).

(** [df.fillna(0)]. *)
Definition fillna0 (df : DataFrame) : DataFrame :=
  mkFrame (df_index df)
    (map (fun nc => (fst nc,
                     map (fun c => if cell_isna c then CInt 0 else c) (snd nc)))
       (df_columns df)).

(** [df.drop(df.columns[0], axis=1)]. *)
Definition drop_first_column (df : DataFrame) : result DataFrame :=
  match df_columns df with
  | [] => Raise IndexError "index 0 is out of bounds for axis 0 with size 0"
  | (n, _) :: _ => Ok (mkFrame (df_index df) (remove_label n (df_columns df)))
  end.

(** [df.drop(names, axis=1)]. *)
Fixpoint drop_labels (names : list string) (df : DataFrame)
  : result DataFrame :=
  match names with
  | [] => Ok df
  | n :: rest =>
    match lookup n (df_columns df) with
    | None => Raise KeyError (n ++ " not found in axis")
    | Some _ =>
      drop_labels rest (mkFrame (df_index df) (remove_label n (df_columns df)))
    end
  end.

(** [pd.concat(frames, axis=1)] of frames over one index. *)
Definition concat_columns (df : DataFrame) (others : list DataFrame)
  : DataFrame :=
  mkFrame (df_index df)
    (df_columns df ++ flat_map df_columns others).

(** [df.dropna()]: the rows without a missing cell. *)
Definition row_complete (cols : list (string * column)) (i : nat) : bool :=
  forallb (fun nc => negb (cell_isna (nth i (snd nc) (CInt 0)))) cols.

Definition keep_rows {A} (mask : list bool) (l : list A) : list A :=
  map snd (filter fst (combine mask l)).

Definition dropna_rows (df : DataFrame) : DataFrame :=
  let mask := map (row_complete (df_columns df)) (seq 0 (nrows df)) in
  mkFrame (keep_rows mask (df_index df))
    (map (fun nc => (fst nc, keep_rows mask (snd nc))) (df_columns df)).

(** The dummy frame of one calendar group, as the source builds it:
    [get_dummies], reindex to the full list of names, [fillna(0)], and drop
    of the first column. *)
Definition group_names (prefix : string) (first count : nat) : list string :=
  map (fun x => (prefix ++ str_of_Z (Z.of_nat x))%string) (seq first count).

Definition dummy_frame (df : DataFrame) (name : string) (names : list string)
  : result DataFrame :=
  (d <- get_dummies df name ;;
   d <- reindex_columns names d ;;
   drop_first_column (fillna0 d))%py.

(** ** A function that mutates the frame it is given *)

Definition ST (A : Type) : Type := DataFrame -> result A * DataFrame.

Definition sret {A} (a : A) : ST A := fun df => (Ok a, df).
Definition sbind {A B} (m : ST A) (k : A -> ST B) : ST B :=
  fun df =>
    match m df with
    | (Ok a, df') => k a df'
    | (Raise c msg, df') => (Raise c msg, df')
    end.
Definition slift {A} (r : result A) : ST A := fun df => (r, df).
Definition sget : ST DataFrame := fun df => (Ok df, df).
Definition modify (f : DataFrame -> DataFrame) : ST unit :=
  fun df => (Ok tt, f df).

Declare Scope st_scope.
Delimit Scope st_scope with st.
Notation "x <- c ;; k" := (sbind c (fun x => k))
  (at level 61, c at next level, right associativity) : st_scope.
Notation "c ;; k" := (sbind c (fun _ => k))
  (at level 61, right associativity) : st_scope.

Definition getattr (name : string) : ST column :=
  fun df => (frame_getattr df name, df).
Definition setitem (name : string) (vals : column) : ST unit :=
  modify (frame_setitem name vals).
Definition loc_set (mask : list bool) (name : string) (v : cell) : ST unit :=
  modify (frame_loc_set mask name v).
Definition index_field (f : Z -> Z) : ST column :=
  fun df => (Ok (map (fun t => CInt (f t)) (df_index df)), df).

Fixpoint sfor {A} (l : list A) (body : A -> ST unit) : ST unit :=
  match l with
  | [] => sret tt
  | a :: t => (body a ;; sfor t body)%st
  end.

(* ================================================================== *)
(** * create_standard_multivariable_df *)
(* ================================================================== *)

Definition month_names : list string := group_names "MONTH_" 1 12.
Definition tod_names : list string := group_names "TOD_" 0 24.
Definition dow_names : list string := group_names "DOW_" 0 7.

(** The result is paired with the final state of the caller's frame, which
    the function modifies in place until it rebinds [df] to the
    concatenated frame. *)
Definition create_standard_multivariable_df
    (point_location shift : Z) (rename_OAT dropna : bool) : ST DataFrame :=
  ((if rename_OAT then modify (rename_columns "aiTIT4045" "OAT")
    else sret tt) ;;
   oat <- getattr "OAT" ;;
   setitem "CDD" (map (fun c => CFloat (fsub (to_f64 c) (Fin 65))) oat) ;;
   cdd <- getattr "CDD" ;;
   loc_set (map (fun c => flt (to_f64 c) (Fin 0)) cdd) "CDD" (CFloat (Fin 0)) ;;
   oat <- getattr "OAT" ;;
   setitem "HDD" (map (fun c => CFloat (fsub (Fin 65) (to_f64 c))) oat) ;;
   hdd <- getattr "HDD" ;;
   loc_set (map (fun c => flt (to_f64 c) (Fin 0)) hdd) "HDD" (CFloat (Fin 0)) ;;
   cdd <- getattr "CDD" ;;
   setitem "CDD2" (map (fun c => CFloat (fmul (to_f64 c) (to_f64 c))) cdd) ;;
   hdd <- getattr "HDD" ;;
   setitem "HDD2" (map (fun c => CFloat (fmul (to_f64 c) (to_f64 c))) hdd) ;;
   oat <- getattr "OAT" ;;
   setitem "OAT" (map cell_round oat) ;;
   cdd <- getattr "CDD" ;;
   setitem "CDD" (map cell_round cdd) ;;
   hdd <- getattr "HDD" ;;
   setitem "HDD" (map cell_round hdd) ;;
   cdd2 <- getattr "CDD2" ;;
   setitem "CDD2" (map cell_round cdd2) ;;
   hdd2 <- getattr "HDD2" ;;
   setitem "HDD2" (map cell_round hdd2) ;;

   month <- index_field Calendar.month ;;
   setitem "MONTH" month ;;
   month <- getattr "MONTH" ;;
   setitem "MONTH" month ;;
   df <- sget ;;
   month_df <- slift (dummy_frame df "MONTH" month_names) ;;

   tod <- index_field Calendar.hour ;;
   setitem "TOD" tod ;;
   tod <- getattr "TOD" ;;
   setitem "TOD" tod ;;
   df <- sget ;;
   tod_df <- slift (dummy_frame df "TOD" tod_names) ;;

   dow <- index_field Calendar.weekday ;;
   setitem "DOW" dow ;;
   dow <- getattr "DOW" ;;
   setitem "DOW" dow ;;
   df <- sget ;;
   dow_df <- slift (dummy_frame df "DOW" dow_names) ;;

   df <- sget ;;
   setitem "WEEKEND" (repeat (CInt 0) (nrows df)) ;;
   dow_5 <- slift (frame_getattr dow_df "DOW_5") ;;
   dow_6 <- slift (frame_getattr dow_df "DOW_6") ;;
   loc_set (zip_with orb (map (fun c => cell_eq_int c 1) dow_5)
                         (map (fun c => cell_eq_int c 1) dow_6))
           "WEEKEND" (CInt 1) ;;

   sfor (seq 0 (Z.to_nat shift))
     (fun i =>
        let shift_col := ("SHIFT_" ++ str_of_Z (Z.of_nat i + 1))%string in
        df <- sget ;;
        base <- slift (frame_iloc df point_location) ;;
        setitem shift_col (shift_cells (S i) base)) ;;

   df <- sget ;;
   let df := concat_columns df [month_df; tod_df; dow_df] in
   df <- slift (drop_labels ["MONTH"; "TOD"; "DOW"]%string df) ;;
   let df := if dropna then dropna_rows df else df in
   sret df)%st.

(* ================================================================== *)
(** * decompose_data *)
(* ================================================================== *)

Section Decompose.

(** The library pipeline of the accepted case: [fillna], [asfreq] to the
    hourly cadence, [seasonal_decompose] and the assembly of the frame
    with the columns Data, Trend, Seasonality and Noise. *)
Variable hourly_decomposition : Series -> PyObj -> result DataFrame.

Definition decompose_data (data method : PyObj) : result DataFrame :=
  match data with
  | PySeries s =>
    match s_index_kind s with
    | DatetimeIndex =>
      if negb (py_is_str method "bfill") && negb (py_is_str method "ffill")
      then Raise TypeError "Method needs to be of type either bfill or ffill."
      else hourly_decomposition s method
    | OtherIndex => Raise TypeError "Series index needs to be in DateTime format."
    end
  | _ => Raise TypeError "Your data needs to be in a Series format."
  end.

End Decompose.

(* ================================================================== *)
(** * check_kwargs *)
(* ================================================================== *)

(** A [kwargs] dictionary: its entries, key first. *)
Definition kwargs : Type := list (string * PyObj).

Fixpoint kw_lookup (key : string) (kw : kwargs) : option PyObj :=
  match kw with
  | [] => None
  | (k, v) :: rest => if String.eqb k key then Some v else kw_lookup key rest
  end.

(** [kwargs[key]]. *)
Definition kw_get (kw : kwargs) (key : string) : result PyObj :=
  match kw_lookup key kw with
  | Some v => Ok v
  | None => Raise KeyError key
  end.

Definition type_name (o : PyObj) : string :=
  match o with
  | PyNone => "NoneType"
  | PyBool _ => "bool"
  | PyInt _ => "int"
  | PyFloat _ => "float"
  | PyStr _ _ => "str"
  | PySeries _ => "Series"
  end.

Definition ambiguous_truth : string :=
  "The truth value of a Series is ambiguous. Use a.empty, a.bool(), a.item(), a.any() or a.all().".

Definition not_supported (op left : string) : string :=
  "'" ++ op ++ "' not supported between instances of '" ++ left
  ++ "' and 'float'".

(** The truth value of [o > c] and of [o < c] for a float literal [c]: an
    [int] or [bool] compares by its exact value; a Series compares
    elementwise, which fails on a string, and the Series of the answers has
    no truth value; any other object does not compare with a float. *)
Definition py_compare_float (op : string) (cmp : f64 -> f64 -> bool)
    (o : PyObj) (c : Q) : result bool :=
  match o with
  | PyFloat x => Ok (cmp x (Fin c))
  | PyInt z => Ok (cmp (Fin (inject_Z z)) (Fin c))
  | PyBool b => Ok (cmp (Fin (if b then 1 else 0)) (Fin c))
  | PySeries s =>
    match s_data s with
    | ObjectData (_ :: _) => Raise TypeError (not_supported op "str")
    | _ => Raise ValueError ambiguous_truth
    end
  | _ => Raise TypeError (not_supported op (type_name o))
  end.

(** The truth value of [o == lit] for a string literal. *)
Definition py_eq_truth (o : PyObj) (lit : string) : result bool :=
  match o with
  | PySeries _ => Raise ValueError ambiguous_truth
  | _ => Ok (py_eq_str o lit)
  end.

(** [a and b], [a or b] on truth values: the right operand is evaluated only
    when the left one does not decide. *)
Definition py_and (a : result bool) (b : result bool) : result bool :=
  (x <- a ;; if x then b else Ok false)%py.
Definition py_or (a : result bool) (b : result bool) : result bool :=
  (x <- a ;; if x then Ok true else b)%py.

Definition is_str (o : PyObj) : bool :=
  match o with PyStr _ _ => true | _ => false end.
Definition is_bool (o : PyObj) : bool :=
  match o with PyBool _ => true | _ => false end.
Definition is_int_or_float (o : PyObj) : bool :=
  match as_number o with Some _ => true | None => false end.

Definition check_kwargs (kw : kwargs) : result string :=
  (point <- kw_get kw "point" ;;
   if negb (is_str point)
   then Raise TypeError "'point' must be of  type 'str'"
   else
   training_percent <- kw_get kw "training_percent" ;;
   inside <- py_and (py_compare_float ">" fgt training_percent 0)
                    (py_compare_float "<" flt training_percent 1) ;;
   if negb inside
   then Raise ValueError
          "'training_percent' must be value between 0.0 and 1.0 exclusive"
   else
   clean_type <- kw_get kw "clean_type" ;;
   known <- py_or (py_eq_truth clean_type "value")
                  (py_eq_truth clean_type "iqr") ;;
   if negb known
   then Raise ValueError "'clean_type' must be either 'value' or 'iqr'"
   else
   threshold <- kw_get kw "threshold" ;;
   if negb (is_int_or_float threshold)
   then Raise TypeError "'threshold' must be of type 'int' or 'float'"
   else
   model_type <- kw_get kw "model_type" ;;
   known <- py_or (py_eq_truth model_type "LSTM")
                  (py_eq_truth model_type "Random Forest") ;;
   if negb known
   then Raise ValueError
          "'model_type' must be either 'LSTM' or 'Random Forest'"
   else
   train_on_residuals <- kw_get kw "train_on_residuals" ;;
   if negb (is_bool train_on_residuals)
   then Raise TypeError "'train_on_residuals' must be of type 'bool'"
   else
   method <- kw_get kw "method" ;;
   known <- py_or (py_eq_truth method "bfill") (py_eq_truth method "ffill") ;;
   if negb known
   then Raise TypeError "'method' must be either 'bfill' or 'ffill'"
   else Ok "Good values!"%string)%py.

(* ================================================================== *)
(** * split_and_clean *)
(* ================================================================== *)

(** A number: a Python [int] or [float]. *)
Inductive number : Type :=
| NInt (z : Z)
| NFloat (x : f64).

(** The entries of [kwargs] that [split_and_clean] reads: the column name,
    the training share as a number, and the flags as truth values; the
    threshold and the policy tag go to [clean_data] as they are. *)
Record split_kwargs : Type := mkSplitKwargs {
  kw_point : string;
  kw_training_percent : number;
  kw_clean_data : bool;
  kw_threshold : PyObj;
  kw_clean_type : PyObj;
  kw_show_cutoff_plot : bool;
  kw_show_cleaned_plot : bool
}.

(** [int(trng_per * n)] for the row count [n]: exact on an [int], the float
    product truncated on a [float]. *)
Definition scaled_length (trng_per : number) (n : nat) : result Z :=
  match trng_per with
  | NInt z => Ok (z * Z.of_nat n)
  | NFloat x => py_int (fmul x (of_Z (Z.of_nat n)))
  end.

(** The rows [start:stop] of a frame, by position. *)
Definition frame_slice (df : DataFrame) (start stop : Z) : DataFrame :=
  mkFrame (py_slice (df_index df) start stop)
    (map (fun nc => (fst nc, py_slice (snd nc) start stop)) (df_columns df)).

(** [df[name]]: the column as a Series over the index of the frame, its
    values the numbers the cells denote. *)
Definition frame_getitem (df : DataFrame) (name : string) : result Series :=
  match lookup name (df_columns df) with
  | Some c =>
    Ok (mkSeries name DatetimeIndex
          (NumericData (combine (df_index df) (map to_f64 c))))
  | None => Raise KeyError name
  end.

(** [Series.to_frame()].  The cells of a frame are numbers: an object
    Series, which [split_and_clean] never builds, has no cell to give. *)
Definition to_frame (s : Series) : DataFrame :=
  match s_data s with
  | NumericData rows =>
    mkFrame (map fst rows) [(s_name s, map (fun r => CFloat (snd r)) rows)]
  | ObjectData rows => mkFrame (map fst rows) [(s_name s, [])]
  end.

(** The events of [split_and_clean]: those of [clean_data], and the plot of
    the combined series with the two row counts of its title. *)
Inductive split_event : Type :=
| Cleaning (e : event)
| CombinedPlot (column : string) (training testing : nat).

Definition split_and_clean (df : DataFrame) (kw : split_kwargs)
  : result DataFrame * list split_event :=
  let trng_per := kw_training_percent kw in
  match scaled_length trng_per (nrows df) with
  | Raise c m => (Raise c m, [])
  | Ok k =>
    let training := frame_slice df 0 k in
    let testing := frame_slice df k (Z.of_nat (nrows df)) in
    match frame_getitem training (kw_point kw) with
    | Raise c m => (Raise c m, [])
    | Ok training =>
      match frame_getitem testing (kw_point kw) with
      | Raise c m => (Raise c m, [])
      | Ok testing =>
        let cleaned :=
          if kw_clean_data kw
          then clean_data (PySeries training) (kw_threshold kw)
                 (kw_clean_type kw) (kw_show_cutoff_plot kw) []
          else (Ok training, []) in
        match cleaned with
        | (Raise c m, log) => (Raise c m, map Cleaning log)
        | (Ok training, log) =>
          let combined := to_frame (series_concat training testing) in
          (Ok combined,
           map Cleaning log
           ++ (if kw_show_cleaned_plot kw
               then [CombinedPlot (kw_point kw) (series_len training)
                       (series_len testing)]
               else []))
        end
      end
    end
  end.

(* ================================================================== *)
(** * add_variable_to_df *)
(* ================================================================== *)

(** [df[name] = values] for a list of values: the lengths have to agree,
    except that a frame without rows takes the positions of the values as
    its index, its other columns filled with NaN. *)
Definition frame_assign (name : string) (values : column) : ST unit :=
  fun df =>
    let k := List.length values in
    if (nrows df =? 0)%nat && negb (k =? 0)%nat then
      (Ok tt,
       frame_setitem name values
         (mkFrame (map Z.of_nat (seq 0 k))
            (map (fun nc => (fst nc, repeat (CFloat NaN) k))
               (df_columns df))))
    else if (k =? nrows df)%nat then (Ok tt, frame_setitem name values df)
    else
      (Raise ValueError
         ("Length of values (" ++ str_of_Z (Z.of_nat k)
          ++ ") does not match length of index ("
          ++ str_of_Z (Z.of_nat (nrows df)) ++ ")"),
       df).

(** [fnc(df, **kwargs)] is a computation on the caller's frame that yields
    the values of the new column; the frame returned is the caller's frame
    itself. *)
Definition add_variable_to_df (fnc : ST column) (col_name : string)
  : ST DataFrame :=
  (values <- fnc ;;
   frame_assign col_name values ;;
   sget)%st.

(* ================================================================== *)
(** * clean_train_data *)
(* ================================================================== *)

Section CleanTrainData.

(** The values of [pd.eval], and its evaluation of one expression in the
    scope of the function, where the expression sees [df],
    [eval_expression] and the list [evaluated] so far. *)
Variable value : Type.
Variable pd_eval :
  DataFrame -> list string -> list value -> string -> result value.

Inductive evaluated_result : Type :=
| TheFrame (df : DataFrame)
| OneValue (v : value)
| ValueTuple (vs : list value).

(** The loop over the expressions: one console line before each
    evaluation. *)
Fixpoint evaluate_all (df : DataFrame) (eval_expression : list string)
    (evaluated : list value) (exps : list string) : M (list value) :=
  match exps with
  | [] => ret evaluated
  | exp :: rest =>
    (emit (Print ("Evaluating: " ++ exp)) ;;
     v <- lift (pd_eval df eval_expression evaluated exp) ;;
     evaluate_all df eval_expression (evaluated ++ [v]) rest)%io
  end.

(** [eval_expression] is [None] or a list of expressions; an empty list is
    as false as [None]. *)
Definition clean_train_data (df : DataFrame)
    (eval_expression : option (list string)) : M evaluated_result :=
  match eval_expression with
  | Some (exp :: rest) =>
    (evaluated <- evaluate_all df (exp :: rest) [] (exp :: rest) ;;
     if (1 <? List.length (exp :: rest))%nat
     then ret (ValueTuple evaluated)
     else
       match evaluated with
       | v :: _ => ret (OneValue v)
       | [] => throw IndexError "list index out of range"
       end)%io
  | _ =>
    (emit (Print "No expression passed") ;;
     ret (TheFrame df))%io
  end.

End CleanTrainData.

(* ================================================================== *)
(** * Specification vocabulary and fixtures *)
(* ================================================================== *)

(** [Subseq l1 l2]: [l1] is [l2] with some elements left out, the order
    kept. *)
Inductive Subseq {A : Type} : list A -> list A -> Prop :=
| Subseq_nil : Subseq [] []
| Subseq_skip x l1 l2 : Subseq l1 l2 -> Subseq l1 (x :: l2)
| Subseq_keep x l1 l2 : Subseq l1 l2 -> Subseq (x :: l1) (x :: l2).

(** Python's chained comparison [0.0 < o < 1.0] on a number. *)
Definition in_unit_interval (o : PyObj) : bool :=
  match o with
  | PyFloat x => flt (Fin 0) x && flt x (Fin 1)
  | PyInt z => (0 <? z) && (z <? 1)
  | PyBool b => false
  | _ => false
  end.

(** Hourly timestamps from 2020-01-01T00:00. *)
Definition hourly_index (n : nat) : list Z :=
  map (fun i => 1577836800000000000 + Z.of_nat i * Calendar.ns_per_hour)
    (seq 0 n).

(** The indicator column of one category of a calendar field. *)
Definition field_indicator (f : Z -> Z) (idx : list Z) (k : Z) : column :=
  map (fun t => indicator (f t =? k)) idx.

Definition indicator_columns (prefix : string) (f : Z -> Z) (idx : list Z)
    (keys : list Z) : list (string * column) :=
  map (fun k => ((prefix ++ str_of_Z k)%string, field_indicator f idx k)) keys.

Definition range (first count : nat) : list Z :=
  map Z.of_nat (seq first count).

Fixpoint has_prefix (p s : string) : bool :=
  match p, s with
  | EmptyString, _ => true
  | String a p', String b s' => Ascii.eqb a b && has_prefix p' s'
  | _, _ => false
  end.

(** The names the one-hot encoding uses for its columns. *)
Definition reserved_names : list string :=
  month_names ++ tod_names ++ dow_names.

Definition reserved (l : string) : bool :=
  existsb (String.eqb l) reserved_names.

(** No label is the name of an indicator column. *)
Definition Unreserved (C : list (string * column)) : Prop :=
  forall l, In l (map fst C) -> reserved l = false.

(** The frame the function works on after its optional rename. *)
Definition entry_frame (rename_OAT : bool) (df : DataFrame) : DataFrame :=
  if rename_OAT then rename_columns "aiTIT4045" "OAT" df else df.

(** A table the feature builder accepts: it has the column OAT (after the
    rename), its labels are distinct, and none of them is the name of an
    indicator column. *)
Definition features_ready (rename_OAT : bool) (df : DataFrame) : bool :=
  let e := entry_frame rename_OAT df in
  match lookup "OAT" (df_columns e) with Some _ => true | None => false end
  && negb (has_dup (labels e))
  && forallb (fun l => negb (reserved l)) (labels e).

(** [point_location] names a column of the table, or no lag is asked. *)
Definition lag_ready (point_location shift : Z) (df : DataFrame) : bool :=
  let n := Z.of_nat (List.length (df_columns df)) in
  (shift <=? 0) || ((- n <=? point_location) && (point_location <? n)).

(** The degree-day columns of a reading. *)
Definition clip0 (x : f64) : f64 := if flt x (Fin 0) then Fin 0 else x.

Definition cdd_of (c : cell) : cell :=
  CFloat (fround (clip0 (fsub (to_f64 c) (Fin 65)))).
Definition hdd_of (c : cell) : cell :=
  CFloat (fround (clip0 (fsub (Fin 65) (to_f64 c)))).
Definition cdd2_of (c : cell) : cell :=
  let x := clip0 (fsub (to_f64 c) (Fin 65)) in CFloat (fround (fmul x x)).
Definition hdd2_of (c : cell) : cell :=
  let x := clip0 (fsub (Fin 65) (to_f64 c)) in CFloat (fround (fmul x x)).

(** The rows a run keeps: all of them, or those a mask selects when
    incomplete rows are dropped. *)
Definition select_rows {A} (dropna : bool) (mask : list bool) (l : list A)
  : list A :=
  if dropna then keep_rows mask l else l.




(** The fixture of the specification: 48 hourly rows whose base column is
    constantly 70. *)
Definition fixture_table : DataFrame :=
  mkFrame (hourly_index 48) [("OAT"%string, repeat (CFloat (Fin 70)) 48)].

(** A numeric Series with the labels 0, 1, 2, ... *)
Definition series_of (name : string) (values : list Q) : Series :=
  mkSeries name OtherIndex
    (NumericData
       (combine (map Z.of_nat (seq 0 (List.length values))) (map Fin values))).

Definition rows_of (s : Series) : list (Z * f64) :=
  match s_data s with
  | NumericData rows => rows
  | ObjectData _ => []
  end.

(** The fixture of the specification: [1, 2, 3, 4, 5, 100]. *)
Definition fixture_S : Series := series_of "S" [1; 2; 3; 4; 5; 100]%Q.

(** A table whose only column is not the base column. *)
Definition table_without_base : DataFrame :=
  mkFrame (hourly_index 3) [("load"%string, repeat (CFloat (Fin 70)) 3)].

(** A table that already has a column named as an indicator column. *)
Definition table_with_reserved_label : DataFrame :=
  mkFrame (hourly_index 2)
    [("OAT"%string, repeat (CFloat (Fin 70)) 2);
     ("MONTH_3"%string, repeat (CFloat (Fin (15 # 2))) 2)].

(** A Series over a DatetimeIndex. *)
Definition fixture_hourly : Series :=
  mkSeries "load" DatetimeIndex
    (NumericData (combine (hourly_index 48) (repeat (Fin 70) 48))).

(** A stand-in for the library pipeline, for closed examples. *)
Definition no_decomposition (s : Series) (method : PyObj) : result DataFrame :=
  Ok (mkFrame [] []).

(** The entries [check_kwargs] accepts. *)
Definition accepted_tag (o : PyObj) (a b : string) : bool :=
  match o with
  | PyStr _ s => String.eqb s a || String.eqb s b
  | _ => false
  end.

Definition kwargs_valid (kw : kwargs) : bool :=
  match kw_lookup "point" kw, kw_lookup "training_percent" kw,
        kw_lookup "clean_type" kw, kw_lookup "threshold" kw,
        kw_lookup "model_type" kw, kw_lookup "train_on_residuals" kw,
        kw_lookup "method" kw with
  | Some point, Some training_percent, Some clean_type, Some threshold,
    Some model_type, Some train_on_residuals, Some method =>
    is_str point
    && in_unit_interval training_percent
    && accepted_tag clean_type "value" "iqr"
    && is_int_or_float threshold
    && accepted_tag model_type "LSTM" "Random Forest"
    && is_bool train_on_residuals
    && accepted_tag method "bfill" "ffill"
  | _, _, _, _, _, _, _ => false
  end.

(** A column of float cells. *)
Definition float_column (c : column) : bool :=
  forallb (fun x => match x with CFloat _ => true | CInt _ => false end) c.

(** A table of five hourly rows with an outlier and two missing values. *)
Definition five_rows : DataFrame :=
  mkFrame (hourly_index 5)
    [("load"%string,
      [CFloat (Fin 10); CFloat (Fin 2000); CFloat NaN; CFloat (Fin 40);
       CFloat NaN])].

(** The share 0.3 of its rows for training, and cleaning with the fixed
    threshold 1000. *)
Definition five_rows_kwargs (clean : bool) : split_kwargs :=
  mkSplitKwargs "load" (NFloat (of_Q (3 # 10))) clean (PyInt 1000)
    (PyStr true "value") false true.

(** The same column as a Series. *)
Definition five_rows_series : Series :=
  mkSeries "load" DatetimeIndex
    (NumericData
       (combine (hourly_index 5) [Fin 10; Fin 2000; NaN; Fin 40; NaN])).

(** A set of arguments that [check_kwargs] accepts: a float threshold with
    the fixed-threshold policy, and a fill method that is not the interned
    constant (as a string read from a file is not). *)
Definition fixture_kwargs : kwargs :=
  [("point", PyStr true "load");
   ("training_percent", PyFloat (of_Q (7 # 10)));
   ("clean_type", PyStr true "value");
   ("threshold", PyFloat (Fin (5 # 2)));
   ("model_type", PyStr true "LSTM");
   ("train_on_residuals", PyBool false);
   ("method", PyStr false "bfill")]%string.

(** A column function that reads the frame and leaves it as it is. *)
Definition doubled_load : ST column :=
  (load <- getattr "load" ;;
   sret (map (fun c => CFloat (fmul (Fin 2) (to_f64 c))) load))%st.

(** A column function that yields one value whatever the frame. *)
Definition one_value : ST column := sret [CInt 1].

(** A stand-in for [pd.eval]: the length of the expression. *)
Definition eval_length (df : DataFrame) (eval_expression : list string)
    (evaluated : list nat) (exp : string) : result nat :=
  if (String.length exp =? 0)%nat
  then Raise ValueError "expr cannot be an empty string"
  else Ok (String.length exp).

(** The console line [clean_train_data] prints before an expression. *)
Definition evaluating (exp : string) : event :=
  Print ("Evaluating: " ++ exp).

(** The weekend flag of a timestamp: 1 on Saturday and Sunday. *)
Definition weekend_of (t : Z) : cell :=
  CInt (if (Calendar.weekday t =? 5) || (Calendar.weekday t =? 6)
        then 1 else 0).

(** The columns the feature builder assigns before the lag columns. *)
Definition generated_names : list string :=
  ["OAT"; "CDD"; "HDD"; "CDD2"; "HDD2"; "MONTH"; "TOD"; "DOW"; "WEEKEND"]%string.

(** Four hourly rows from Friday 2020-01-03T23:00, with a load column and
    readings 70.5, 71.5, NaN and 72.6. *)
Definition weekend_table : DataFrame :=
  mkFrame
    (map (fun i => 1577836800000000000 + i * Calendar.ns_per_hour)
       [71; 72; 73; 74])
    [("load"%string,
      [CFloat (Fin 10); CFloat (Fin 11); CFloat (Fin 12); CFloat (Fin 13)]);
     ("OAT"%string,
      [CFloat (Fin (141 # 2)); CFloat (Fin (143 # 2)); CFloat NaN;
       CFloat (Fin (363 # 5))])].

(** The labels of a frame after an assignment to the column [n]. *)
Definition add_label (n : string) (L : list string) : list string :=
  if existsb (fun l => String.eqb l n) L then L else L ++ [n].

(** Labels that are neither a name the builder generates (OAT apart) nor
    the name of a lag column. *)
Definition plain_labels (L : list string) : bool :=
  forallb (fun l => negb (existsb (String.eqb l) (tl generated_names))
                    && negb (has_prefix "SHIFT_" l)) L.

(** A table without a missing value: every column has a cell for every
    row and none of them is NaN. *)
Definition complete_column (n : nat) (col : column) : bool :=
  (List.length col =? n)%nat && forallb (fun c => negb (cell_isna c)) col.

Definition complete_table (df : DataFrame) : bool :=
  forallb (fun nc => complete_column (nrows df) (snd nc)) (df_columns df).

(* ################################################################## *)
(** * Properties *)
(* ################################################################## *)

(** ** Rounding *)

Example rne_half_even :
  map rne [1 # 2; 3 # 2; 5 # 2; -(1 # 2); -(3 # 2); 7 # 4; -(7 # 4)]%Q
  = [0; 2; 2; 0; -2; 2; -2].
Proof. reflexivity. Qed.

(** The product [0.3 * 5] is exactly [1.5] in binary64, although the
    rational it rounds is below [3/2]. *)
Example fmul_03_5 : fmul (of_Q (3 # 10)) (of_Z 5) = Fin (3 # 2).
Proof. vm_compute. reflexivity. Qed.

Example of_Q_03 : of_Q (3 # 10) = Fin (5404319552844595 # 18014398509481984).
Proof. vm_compute. reflexivity. Qed.

(** Sample roundings: 1/3, 1/10, and the ties 2^53 + 1 and 2^53 + 3. *)
Example fl64_samples :
  map fl64 [1 # 3; 1 # 10; inject_Z (2 ^ 53 + 1); inject_Z (2 ^ 53 + 3);
            - (1 # 3)]%Q
  = [6004799503160661 # 18014398509481984;
     3602879701896397 # 36028797018963968;
     inject_Z (2 ^ 53); inject_Z (2 ^ 53 + 4);
     - (6004799503160661 # 18014398509481984)]%Q.
Proof. vm_compute. reflexivity. Qed.

Lemma rne_le (q : Q) (N : Z) : (q <= inject_Z N)%Q -> rne q <= N.
Proof.
  intros H. unfold rne.
  assert (Hf : Qfloor q <= N).
  { apply Qfloor_resp_le in H. now rewrite Qfloor_Z in H. }
  destruct (Qcompare_spec (q - inject_Z (Qfloor q)) (1 # 2)) as [E | E | E].
  - destruct (Z.even _); [lia|].
    destruct (Z.eq_dec (Qfloor q) N) as [EN | EN]; [|lia].
    rewrite EN in E. lra.
  - lia.
  - destruct (Z.eq_dec (Qfloor q) N) as [EN | EN]; [|lia].
    rewrite EN in E. lra.
Qed.

Lemma rne_ge (q : Q) (N : Z) : (inject_Z N <= q)%Q -> N <= rne q.
Proof.
  intros H. unfold rne.
  assert (Hf : N <= Qfloor q).
  { apply Qfloor_resp_le in H. now rewrite Qfloor_Z in H. }
  destruct (Qcompare _ _); [destruct (Z.even _) | | ]; lia.
Qed.

Lemma rne_inject_Z (z : Z) : rne (inject_Z z) = z.
Proof.
  apply Z.le_antisymm; [apply rne_le | apply rne_ge]; apply Qle_refl.
Qed.

Lemma Qpower2_pos (e : Z) : (0 < Qpower 2 e)%Q.
Proof. apply Qpower_0_lt. reflexivity. Qed.

Lemma Qpower2_inject (k : Z) : 0 <= k -> (Qpower 2 k == inject_Z (2 ^ k))%Q.
Proof.
  intros H. change 2%Q with (inject_Z 2). symmetry. now apply Zpower_Qpower.
Qed.

(** An exponent of the rounding grid is never positive below 2^53. *)
Lemma Qlog2_floor_le (q : Q) (k : Z) :
  (0 < q)%Q -> (q < Qpower 2 (k + 1))%Q -> 0 <= k + 1 -> Qlog2_floor q <= k.
Proof.
  intros Hpos Hlt Hk. unfold Qlog2_floor.
  set (d := Z.log2 (Qnum q) - Z.log2 (Z.pos (Qden q))).
  destruct (Qle_bool (Qpower 2 d) q) eqn:Hb.
  - apply Qle_bool_iff in Hb.
    assert (Hd : (Qpower 2 d < Qpower 2 (k + 1))%Q) by (eapply Qle_lt_trans; eauto).
    apply Qpower_lt_compat_l_inv in Hd; [lia | reflexivity].
  - assert (d <= k + 1); [|lia].
    subst d.
    assert (Hlt' : (q < inject_Z (2 ^ (k + 1)))%Q).
    { rewrite <- Qpower2_inject by lia. exact Hlt. }
    destruct q as [a b]. unfold Qlt in Hpos, Hlt'. cbn [Qnum Qden inject_Z] in *.
    assert (Ha : 0 < a) by lia.
    assert (Hl : Z.log2 a <= Z.log2 (2 ^ (k + 1) * Z.pos b)).
    { apply Z.log2_le_mono. lia. }
    rewrite Z.mul_comm, Z.log2_mul_pow2 in Hl by lia. lia.
Qed.

Lemma fl64_Qeq (p q : Q) : (p == q)%Q -> fl64 p = fl64 q.
Proof.
  intros H. unfold fl64. now rewrite (Qred_complete _ _ H).
Qed.

(** Rounding keeps a value between the integers that enclose it, as long as
    the upper one is below 2^53. *)
Lemma fl64_between (q : Q) (N : Z) :
  (0 <= q)%Q -> (q <= inject_Z N)%Q -> N < 2 ^ 53 ->
  (0 <= fl64 q)%Q /\ (fl64 q <= inject_Z N)%Q.
Proof.
  intros H0 HN Hb. unfold fl64.
  assert (Hr : (Qred q == q)%Q) by apply Qred_correct.
  destruct (Qeq_bool (Qred q) 0) eqn:Hz.
  - split; [apply Qle_refl | lra].
  - apply Qeq_bool_neq in Hz.
    set (e := Z.max (Qlog2_floor (Qabs (Qred q)) - 52) (-1074)).
    assert (He : e <= 0).
    { subst e. apply Z.max_lub; [|lia].
      assert (Qlog2_floor (Qabs (Qred q)) <= 52); [|lia].
      apply Qlog2_floor_le; [| |lia].
      - rewrite Hr. rewrite Qabs_pos by exact H0. lra.
      - rewrite Hr. rewrite Qabs_pos by exact H0.
        eapply Qle_lt_trans; [exact HN|].
        change (52 + 1) with 53.
        rewrite Qpower2_inject by lia.
        rewrite <- Zlt_Qlt. exact Hb. }
    pose proof (Qpower2_pos e) as Hp.
    assert (Hinv : (Qpower 2 e * Qpower 2 (- e) == 1)%Q).
    { rewrite <- Qpower_plus by (intro A; discriminate A).
      now replace (e + - e) with 0 by lia. }
    pose proof (Qpower2_pos (- e)) as Hp'.
    assert (Hme : (Qpower 2 (- e) == inject_Z (2 ^ (- e)))%Q).
    { apply Qpower2_inject. lia. }
    set (x := (Qred q / Qpower 2 e)%Q).
    assert (Hx : (x == q * Qpower 2 (- e))%Q).
    { subst x. rewrite Hr. rewrite Qpower_opp. reflexivity. }
    assert (Hlo : 0 <= rne x).
    { apply rne_ge. rewrite Hx. apply Qmult_le_0_compat; lra. }
    assert (Hhi : rne x <= N * 2 ^ (- e)).
    { apply rne_le. rewrite Hx, inject_Z_mult, <- Hme.
      apply Qmult_le_compat_r; lra. }
    rewrite Qred_correct. split.
    + apply Qmult_le_0_compat; [|lra].
      change 0%Q with (inject_Z 0). now rewrite <- Zle_Qle.
    + apply Qle_trans with (inject_Z (N * 2 ^ (- e)) * Qpower 2 e)%Q.
      * apply Qmult_le_compat_r; [|lra]. now rewrite <- Zle_Qle.
      * rewrite inject_Z_mult, <- Hme.
        rewrite <- Qmult_assoc, (Qmult_comm (Qpower 2 (- e))), Hinv. lra.
Qed.

Lemma fl64_inject_Z (n : Z) :
  0 <= n < 2 ^ 53 -> (fl64 (inject_Z n) == inject_Z n)%Q.
Proof.
  intros [H0 Hb]. unfold fl64.
  assert (Hr : (Qred (inject_Z n) == inject_Z n)%Q) by apply Qred_correct.
  destruct (Qeq_bool (Qred (inject_Z n)) 0) eqn:Hz.
  - apply Qeq_bool_eq in Hz. rewrite <- Hr, Hz. reflexivity.
  - set (e := Z.max (Qlog2_floor (Qabs (Qred (inject_Z n))) - 52) (-1074)).
    apply Qeq_bool_neq in Hz.
    assert (Hn : (0 < inject_Z n)%Q).
    { change 0%Q with (inject_Z 0). rewrite <- Zlt_Qlt.
      destruct (Z.eq_dec n 0) as [E | E]; [|lia].
      exfalso. apply Hz. now rewrite E. }
    assert (He : e <= 0).
    { subst e. apply Z.max_lub; [|lia].
      assert (Qlog2_floor (Qabs (Qred (inject_Z n))) <= 52); [|lia].
      apply Qlog2_floor_le; [| |lia].
      - rewrite Hr. rewrite Qabs_pos by lra. lra.
      - rewrite Hr. rewrite Qabs_pos by lra.
        change (52 + 1) with 53.
        rewrite Qpower2_inject by lia.
        rewrite <- Zlt_Qlt. exact Hb. }
    pose proof (Qpower2_pos e) as Hp.
    assert (Hinv : (Qpower 2 e * Qpower 2 (- e) == 1)%Q).
    { rewrite <- Qpower_plus by (intro A; discriminate A).
      now replace (e + - e) with 0 by lia. }
    assert (Hme : (Qpower 2 (- e) == inject_Z (2 ^ (- e)))%Q).
    { apply Qpower2_inject. lia. }
    assert (Hx : (Qred (inject_Z n) / Qpower 2 e == inject_Z (n * 2 ^ (- e)))%Q).
    { rewrite Hr, inject_Z_mult, <- Hme, Qpower_opp. reflexivity. }
    assert (Hrne : rne (Qred (inject_Z n) / Qpower 2 e) = n * 2 ^ (- e)).
    { apply Z.le_antisymm; [apply rne_le | apply rne_ge]; rewrite Hx; apply Qle_refl. }
    rewrite Hrne, Qred_correct, inject_Z_mult, <- Hme.
    rewrite <- Qmult_assoc, (Qmult_comm (Qpower 2 (- e))), Hinv. lra.
Qed.

(** ** Slices *)

Lemma norm_index_range (n i : Z) : 0 <= n -> 0 <= norm_index n i <= n.
Proof. unfold norm_index. destruct (i <? 0) eqn:E; lia. Qed.

Lemma py_slice_prefix {A} (l : list A) (k : Z) :
  py_slice l 0 k = firstn (Z.to_nat (norm_index (Z.of_nat (List.length l)) k)) l.
Proof.
  unfold py_slice.
  assert (E : norm_index (Z.of_nat (List.length l)) 0 = 0).
  { unfold norm_index. simpl. lia. }
  rewrite E. simpl. now rewrite Z.sub_0_r.
Qed.

Lemma py_slice_suffix {A} (l : list A) (k : Z) :
  py_slice l k (Z.of_nat (List.length l))
  = skipn (Z.to_nat (norm_index (Z.of_nat (List.length l)) k)) l.
Proof.
  unfold py_slice.
  set (n := Z.of_nat (List.length l)).
  assert (E : norm_index n n = n).
  { unfold norm_index. destruct (n <? 0) eqn:H; lia. }
  rewrite E.
  pose proof (norm_index_range n k ltac:(lia)) as R.
  apply firstn_all2. rewrite length_skipn. lia.
Qed.

(** Splitting a list at any bound and gluing the two slices gives the list
    back. *)
Lemma py_slice_split {A} (l : list A) (k : Z) :
  py_slice l 0 k ++ py_slice l k (Z.of_nat (List.length l)) = l.
Proof.
  rewrite py_slice_prefix, py_slice_suffix. apply firstn_skipn.
Qed.


(** ** Comparisons *)

Lemma Qlt_bool_iff (x y : Q) : Qlt_bool x y = true <-> (x < y)%Q.
Proof.
  unfold Qlt_bool. rewrite negb_true_iff. split; intros H.
  - apply Qnot_le_lt. intros L. apply Qle_bool_iff in L. congruence.
  - destruct (Qle_bool y x) eqn:E; [|reflexivity].
    apply Qle_bool_iff in E. lra.
Qed.

Lemma flt_Fin (x y : Q) : flt (Fin x) (Fin y) = true <-> (x < y)%Q.
Proof. apply Qlt_bool_iff. Qed.

(** [v > t] holds exactly for a number strictly above [t]; NaN never
    passes. *)
Lemma fgt_iff (v : f64) (t : Q) :
  fgt v (Fin t) = true <-> exists q, v = Fin q /\ (t < q)%Q.
Proof.
  destruct v as [q|]; simpl.
  - rewrite Qlt_bool_iff. split; [intros H; now exists q|].
    intros (q' & E & H). now inversion E; subst.
  - split; [discriminate|]. intros (q' & E & _). discriminate.
Qed.

Lemma Qtrunc_inject_Z (z : Z) : Qtrunc (inject_Z z) = z.
Proof.
  unfold Qtrunc. destruct (Qle_bool 0 (inject_Z z)).
  - apply Qfloor_Z.
  - apply Qceiling_Z.
Qed.

(* ================================================================== *)
(** ** split_data *)
(* ================================================================== *)

(** The split point always exists for a finite fraction. *)
Lemma split_point_Fin (f : Q) (n : nat) :
  split_point (Fin f) n
  = Ok (rne (fl64 (f * fl64 (inject_Z (Z.of_nat n))))).
Proof.
  unfold split_point. simpl. now rewrite Qtrunc_inject_Z.
Qed.

(** For a fraction inside the unit interval the split point lies inside the
    Series. *)
Lemma split_point_range (f : Q) (n : nat) :
  (0 < f)%Q -> (f < 1)%Q -> Z.of_nat n < 2 ^ 53 ->
  0 <= rne (fl64 (f * fl64 (inject_Z (Z.of_nat n)))) <= Z.of_nat n.
Proof.
  intros H0 H1 Hn.
  assert (Hz : (0 <= inject_Z (Z.of_nat n))%Q).
  { change 0%Q with (inject_Z 0). rewrite <- Zle_Qle. lia. }
  rewrite (fl64_Qeq (f * fl64 (inject_Z (Z.of_nat n)))
             (f * inject_Z (Z.of_nat n))).
  2:{ rewrite fl64_inject_Z by lia. reflexivity. }
  destruct (fl64_between (f * inject_Z (Z.of_nat n)) (Z.of_nat n)) as [Lo Hi].
  - apply Qmult_le_0_compat; lra.
  - rewrite <- (Qmult_1_l (inject_Z (Z.of_nat n))) at 2.
    apply Qmult_le_compat_r; lra.
  - exact Hn.
  - split; [apply rne_ge | apply rne_le]; assumption.
Qed.






Example split_point_03_5 : split_point (of_Q (3 # 10)) 5 = Ok 2.
Proof. vm_compute. reflexivity. Qed.

(** C9 (as amended).  [split_data] checks its arguments in this order: a
    [data] that is not a Series fails with [TypeError]; with a Series, a
    [split] that is not a [float] (the integers 0, 1 and 2 included) fails
    with [TypeError]; with a Series and a float, a [split] outside the open
    interval (0.0, 1.0), NaN included, fails with [ValueError].  A failure
    is an exception and carries no partial result. *)
Theorem split_data_validation (data split : PyObj) :
  ((forall s, data <> PySeries s) ->
   split_data data split
   = Raise TypeError "Your data needs to be in a Series format.") /\
  (forall s, data = PySeries s ->
     (as_float split = None ->
      split_data data split
      = Raise TypeError "Your split value needs to be a float.") /\
     (forall x, split = PyFloat x -> in_unit_interval split = false ->
      split_data data split
      = Raise ValueError "Split value needs to be between 0.0 and 1.0")).
Proof.
  split.
  - intros H. destruct data; try reflexivity. now elim (H s).
  - intros s ->. split.
    + intros E. unfold split_data. now rewrite E.
    + intros x -> E. unfold split_data. simpl in *. now rewrite E.
Qed.

Lemma split_data_validation_witness :
  split_data (PySeries fixture_S) (PyFloat (Fin 2))
  = Raise ValueError "Split value needs to be between 0.0 and 1.0" /\
  split_data (PySeries fixture_S) (PyInt 1)
  = Raise TypeError "Your split value needs to be a float." /\
  split_data PyNone (PyFloat (Fin (1 # 2)))
  = Raise TypeError "Your data needs to be in a Series format.".
Proof.
  split; [|split].
  - apply (proj2 (proj2 (split_data_validation (PySeries fixture_S)
                           (PyFloat (Fin 2)))
                    fixture_S eq_refl) (Fin 2)); reflexivity.
  - apply (proj1 (proj2 (split_data_validation (PySeries fixture_S) (PyInt 1))
                    fixture_S eq_refl)); reflexivity.
  - apply (proj1 (split_data_validation PyNone (PyFloat (Fin (1 # 2))))).
    discriminate.
Defined.

(** C9, the divergence: the integer 2 is not strictly between 0.0 and 1.0,
    and the call fails with [TypeError], not with [ValueError]. *)
Lemma split_data_int_fraction_TypeError :
  in_unit_interval (PyInt 2) = false /\
  raised (split_data (PySeries fixture_S) (PyInt 2)) = Some TypeError /\
  raised (split_data (PySeries fixture_S) (PyInt 2)) <> Some ValueError.
Proof. split; [reflexivity | split; [reflexivity | discriminate]]. Qed.

(* ================================================================== *)
(** ** clean_data *)
(* ================================================================== *)

Lemma filter_Subseq {A} (p : A -> bool) (l : list A) : Subseq (filter p l) l.
Proof.
  induction l as [|a l IH]; simpl.
  - constructor.
  - destruct (p a); now constructor.
Qed.

(** The run of the fixed-threshold policy on a numeric Series. *)
Lemma clean_data_value_run (s : Series) (rows : list (Z * f64))
    (threshold : PyObj) (t : Z) (interned show_plot : bool) (log : list event) :
  s_data s = NumericData rows -> as_int threshold = Some t ->
  clean_data (PySeries s) threshold (PyStr interned "value") show_plot log
  = (Ok (with_data s
           (NumericData
              (filter_rows (fun v => fgt v (Fin (inject_Z t))) rows))),
     if show_plot then log ++ [PlotData (s_name s) [Fin (inject_Z t)]]
     else log).
Proof.
  intros Hd Ht. unfold clean_data. simpl py_eq_str. cbv iota.
  rewrite Hd, Ht. destruct show_plot; reflexivity.
Qed.

(** The run of the interquartile policy on a numeric Series. *)
Lemma clean_data_iqr_run (s : Series) (rows : list (Z * f64))
    (threshold clean_type : PyObj) (m : f64) (show_plot : bool)
    (log : list event) :
  py_eq_str clean_type "value" = false ->
  s_data s = NumericData rows -> as_number threshold = Some m ->
  clean_data (PySeries s) threshold clean_type show_plot log
  = (let b := compute_bounds rows m in
     (Ok (with_data s
            (NumericData
               (filter_rows
                  (fun v => fgt v (lower_bound b) && flt v (upper_bound b))
                  rows))),
      if show_plot
      then (log ++ [Print (bounds_line b)])
             ++ [PlotData (s_name s) [upper_bound b; lower_bound b]]
      else log ++ [Print (bounds_line b)])).
Proof.
  intros Hc Hd Hm. unfold clean_data. rewrite Hc, Hm, Hd.
  destruct show_plot; reflexivity.
Qed.



Example clean_value_fixture :
  fst (clean_data (PySeries fixture_S) (PyInt 3) (PyStr true "value") false [])
  = Ok (mkSeries "S" OtherIndex
          (NumericData [(3, Fin 4); (4, Fin 5); (5, Fin 100)])).
Proof. vm_compute. reflexivity. Qed.

Example clean_value_float_threshold :
  raised (fst (clean_data (PySeries fixture_S) (PyFloat (Fin (5 # 2)))
                 (PyStr true "value") false []))
  = Some TypeError.
Proof. reflexivity. Qed.



Lemma insert_sorted_sorted (x : Q) (l : list Q) :
  Sorted Qle l -> Sorted Qle (insert_sorted x l).
Proof.
  induction l as [|y l IH]; simpl; intros H.
  - repeat constructor.
  - destruct (Qle_bool x y) eqn:E.
    + constructor; [exact H|]. constructor. now apply Qle_bool_iff.
    + assert (Hyx : (y <= x)%Q).
      { apply Qlt_le_weak, Qlt_bool_iff. unfold Qlt_bool. now rewrite E. }
      inversion H as [|? ? Hs Hh]; subst.
      constructor; [now apply IH|].
      destruct l as [|z l]; simpl.
      * now constructor.
      * destruct (Qle_bool x z); constructor; [exact Hyx|].
        now inversion Hh.
Qed.

Lemma sort_Q_sorted (l : list Q) : Sorted Qle (sort_Q l).
Proof.
  induction l as [|x l IH]; simpl.
  - constructor.
  - now apply insert_sorted_sorted.
Qed.




Example clean_iqr_fixture :
  clean_data (PySeries fixture_S) (PyFloat (of_Q (15 # 10)))
    (PyStr true "iqr") true []
  = (Ok (series_of "S" [1; 2; 3; 4; 5]%Q),
     [Print "lower_bound: -1.500000 and upper_bound: 8.500000";
      PlotData "S" [Fin (17 # 2); Fin (- (3 # 2))]]).
Proof. vm_compute. reflexivity. Qed.






Example clean_data_tags :
  map (fun tag => fst (clean_data (PySeries fixture_S) (PyInt 2) tag false []))
    [PyStr true "IQR"; PyStr true "foo"; PyStr true "Value"; PyNone]
  = repeat (Ok (series_of "S" [1; 2; 3; 4; 5]%Q)) 4.
Proof. vm_compute. reflexivity. Qed.

(* ================================================================== *)
(** ** decompose_data *)
(* ================================================================== *)

(** C7 (as amended).  On a Series with a DatetimeIndex, a [method] other
    than ['bfill'] and ['ffill'] fails with [TypeError] (the class the
    source raises for it, not [ValueError]); the failure does not depend on
    the decomposition pipeline, which is not reached. *)
Theorem decompose_data_bad_method
    (pipeline : Series -> PyObj -> result DataFrame)
    (s : Series) (method : PyObj) :
  s_index_kind s = DatetimeIndex ->
  py_eq_str method "bfill" = false ->
  py_eq_str method "ffill" = false ->
  decompose_data pipeline (PySeries s) method
  = Raise TypeError "Method needs to be of type either bfill or ffill.".
Proof.
  intros Hk Hb Hf. unfold decompose_data. rewrite Hk.
  assert (Ib : py_is_str method "bfill" = false).
  { destruct method as [| | | |[|] m|]; try reflexivity. exact Hb. }
  assert (If : py_is_str method "ffill" = false).
  { destruct method as [| | | |[|] m|]; try reflexivity. exact Hf. }
  now rewrite Ib, If.
Qed.

Lemma decompose_data_bad_method_witness :
  decompose_data no_decomposition (PySeries fixture_hourly)
    (PyStr true "linear")
  = Raise TypeError "Method needs to be of type either bfill or ffill.".
Proof.
  apply (decompose_data_bad_method no_decomposition fixture_hourly
           (PyStr true "linear")); reflexivity.
Defined.

(** C7, the divergence: the exception for a wrong fill method is a
    [TypeError], not the [ValueError] of a value out of range. *)
Lemma decompose_data_bad_method_not_ValueError :
  raised (decompose_data no_decomposition (PySeries fixture_hourly)
            (PyStr true "linear")) = Some TypeError /\
  raised (decompose_data no_decomposition (PySeries fixture_hourly)
            (PyStr true "linear")) <> Some ValueError.
Proof. split; [reflexivity | discriminate]. Qed.

(** The accepted methods reach the pipeline; the test is an identity test,
    so a string that equals ['bfill'] without being the interned constant is
    rejected as well. *)
Lemma decompose_data_accepts
    (pipeline : Series -> PyObj -> result DataFrame) (s : Series) (m : string) :
  s_index_kind s = DatetimeIndex ->
  m = "bfill"%string \/ m = "ffill"%string ->
  decompose_data pipeline (PySeries s) (PyStr true m)
  = pipeline s (PyStr true m) /\
  decompose_data pipeline (PySeries s) (PyStr false m)
  = Raise TypeError "Method needs to be of type either bfill or ffill.".
Proof.
  intros Hk [-> | ->]; unfold decompose_data; rewrite Hk; split; reflexivity.
Qed.

(* ================================================================== *)
(** ** create_standard_multivariable_df *)
(* ================================================================== *)

(** ** Names *)

Lemma to_int_not_nil (z : Z) :
  Z.to_int z <> Decimal.Pos Decimal.Nil /\ Z.to_int z <> Decimal.Neg Decimal.Nil.
Proof.
  split; intros E; pose proof (DecimalZ.of_to z) as H; rewrite E in H;
    simpl in H; subst z; discriminate E.
Qed.

Lemma str_of_Z_inj (a b : Z) : str_of_Z a = str_of_Z b -> a = b.
Proof.
  unfold str_of_Z. intros E.
  apply DecimalZ.to_int_inj.
  destruct (to_int_not_nil a) as [A1 A2], (to_int_not_nil b) as [B1 B2].
  pose proof (NilZero.isi _ A1 A2) as Ia.
  pose proof (NilZero.isi _ B1 B2) as Ib.
  rewrite E in Ia. congruence.
Qed.

Lemma append_inj_r (p s1 s2 : string) :
  (p ++ s1 = p ++ s2)%string -> s1 = s2.
Proof.
  induction p as [|c p IH]; simpl; intros E; [exact E|].
  inversion E. auto.
Qed.

Lemma name_eqb (p : string) (a b : Z) :
  String.eqb (p ++ str_of_Z a) (p ++ str_of_Z b) = (a =? b).
Proof.
  destruct (Z.eqb_spec a b) as [-> | N].
  - apply String.eqb_refl.
  - apply String.eqb_neq. intros E. apply N.
    now apply str_of_Z_inj, (append_inj_r p).
Qed.

(** ** Columns *)

Lemma lookup_set_col (n m : string) (v : column) (C : list (string * column)) :
  lookup n (set_col m v C) = if String.eqb m n then Some v else lookup n C.
Proof.
  induction C as [|[l c] C IH]; simpl.
  - reflexivity.
  - destruct (String.eqb_spec l m) as [-> | Nlm]; simpl.
    + destruct (String.eqb m n); reflexivity.
    + rewrite IH. destruct (String.eqb_spec l n) as [-> | Nln].
      * destruct (String.eqb_spec m n) as [-> | _]; [now elim Nlm | reflexivity].
      * reflexivity.
Qed.

Lemma lookup_remove_label (n m : string) (C : list (string * column)) :
  lookup n (remove_label m C) = if String.eqb m n then None else lookup n C.
Proof.
  unfold remove_label.
  induction C as [|[l c] C IH]; simpl.
  - now destruct (String.eqb m n).
  - destruct (String.eqb_spec l m) as [-> | Nlm]; simpl.
    + rewrite IH. destruct (String.eqb m n); reflexivity.
    + rewrite IH. destruct (String.eqb_spec l n) as [-> | Nln].
      * destruct (String.eqb_spec m n) as [-> | _]; [now elim Nlm | reflexivity].
      * reflexivity.
Qed.

Lemma lookup_app (n : string) (C D : list (string * column)) :
  lookup n (C ++ D)
  = match lookup n C with Some c => Some c | None => lookup n D end.
Proof.
  induction C as [|[l c] C IH]; simpl; [reflexivity|].
  now destruct (String.eqb l n).
Qed.

Lemma lookup_None (n : string) (C : list (string * column)) :
  lookup n C = None <-> ~ In n (map fst C).
Proof.
  induction C as [|[l c] C IH]; simpl.
  - tauto.
  - destruct (String.eqb_spec l n) as [-> | N].
    + split; [discriminate | intros H; elim H; now left].
    + rewrite IH. tauto.
Qed.

Lemma lookup_map_values (f : column -> column) (n : string)
    (C : list (string * column)) :
  lookup n (map (fun nc => (fst nc, f (snd nc))) C)
  = option_map f (lookup n C).
Proof.
  induction C as [|[l c] C IH]; simpl; [reflexivity|].
  now destruct (String.eqb l n).
Qed.

Lemma labels_set_col (n m : string) (v : column) (C : list (string * column)) :
  In n (map fst (set_col m v C)) <-> n = m \/ In n (map fst C).
Proof.
  induction C as [|[l c] C IH]; simpl.
  - intuition.
  - destruct (String.eqb_spec l m) as [-> | N]; simpl.
    + intuition.
    + rewrite IH. intuition.
Qed.

Lemma NoDup_set_col (m : string) (v : column) (C : list (string * column)) :
  NoDup (map fst C) -> NoDup (map fst (set_col m v C)).
Proof.
  induction C as [|[l c] C IH]; simpl; intros H.
  - repeat constructor. intros [].
  - inversion H as [|? ? Hn Hd]; subst.
    destruct (String.eqb_spec l m) as [-> | N]; simpl.
    + now constructor.
    + constructor; [|now apply IH].
      rewrite labels_set_col. intros [E | I]; [now elim N | now elim Hn].
Qed.

Lemma length_set_col (m : string) (v : column) (C : list (string * column)) :
  (List.length C <= List.length (set_col m v C))%nat.
Proof.
  induction C as [|[l c] C IH]; simpl; [lia|].
  destruct (String.eqb l m); simpl; lia.
Qed.

Lemma has_dup_NoDup (l : list string) : has_dup l = false <-> NoDup l.
Proof.
  induction l as [|x l IH]; simpl.
  - split; [constructor | reflexivity].
  - rewrite orb_false_iff, IH. split.
    + intros [E D]. constructor; [|exact D].
      intros I. assert (X : existsb (String.eqb x) l = true).
      { apply existsb_exists. exists x. split; [exact I | apply String.eqb_refl]. }
      congruence.
    + intros H. inversion H as [|? ? Hn Hd]; subst. split; [|exact Hd].
      destruct (existsb (String.eqb x) l) eqn:E; [|reflexivity].
      apply existsb_exists in E. destruct E as (y & I & E).
      apply String.eqb_eq in E. subst y. now elim Hn.
Qed.

Lemma labels_remove_label (n m : string) (C : list (string * column)) :
  In n (map fst (remove_label m C)) <-> n <> m /\ In n (map fst C).
Proof.
  unfold remove_label.
  induction C as [|[l c] C IH]; simpl.
  - tauto.
  - destruct (String.eqb_spec l m) as [-> | N]; simpl.
    + rewrite IH. intuition congruence.
    + rewrite IH. intuition congruence.
Qed.

Lemma NoDup_remove_label (m : string) (C : list (string * column)) :
  NoDup (map fst C) -> NoDup (map fst (remove_label m C)).
Proof.
  unfold remove_label.
  induction C as [|[l c] C IH]; simpl; intros H; [constructor|].
  inversion H as [|? ? Hn Hd]; subst.
  destruct (negb (String.eqb l m)); simpl; [|now apply IH].
  constructor; [|now apply IH].
  intros I. apply Hn.
  change (filter _ C) with (remove_label m C) in I.
  now apply labels_remove_label in I.
Qed.

(** ** Rows *)

Lemma zip_with_map_self {A} (p : A -> bool) (v : A) (l : list A) :
  zip_with (fun (b : bool) c => if b then v else c) (map p l) l
  = map (fun c => if p c then v else c) l.
Proof. induction l as [|a l IH]; simpl; [reflexivity | now rewrite IH]. Qed.

Lemma keep_rows_map {A B} (f : A -> B) (mask : list bool) (l : list A) :
  keep_rows mask (map f l) = map f (keep_rows mask l).
Proof.
  unfold keep_rows. revert mask.
  induction l as [|a l IH]; intros [|b mask]; simpl; try reflexivity.
  destruct b; simpl; now rewrite IH.
Qed.

(** ** Calendar fields *)

Lemma hour_range (t : Z) : 0 <= Calendar.hour t < 24.
Proof. unfold Calendar.hour. apply Z.mod_pos_bound. lia. Qed.

Lemma weekday_range (t : Z) : 0 <= Calendar.weekday t < 7.
Proof. unfold Calendar.weekday. apply Z.mod_pos_bound. lia. Qed.

Lemma month_of_day_of_era_range (doe : Z) :
  0 <= doe < 146097 -> 1 <= Calendar.month_of_day_of_era doe <= 12.
Proof.
  intros H. unfold Calendar.month_of_day_of_era.
  set (yoe := (doe - doe / 1460 + doe / 36524 - doe / 146096) / 365).
  set (doy := doe - (365 * yoe + yoe / 4 - yoe / 100)).
  assert (Hd : 0 <= doy <= 365).
  { subst doy yoe. Z.to_euclidean_division_equations. lia. }
  set (mp := (5 * doy + 2) / 153).
  assert (Hm : 0 <= mp < 12).
  { subst mp. split; [apply Z.div_pos; lia | apply Z.div_lt_upper_bound; lia]. }
  destruct (mp <? 10) eqn:E; lia.
Qed.

Lemma month_range (t : Z) : 1 <= Calendar.month t < 13.
Proof.
  unfold Calendar.month.
  pose proof (month_of_day_of_era_range ((Calendar.days t + 719468) mod 146097)
                (Z.mod_pos_bound (Calendar.days t + 719468) 146097 ltac:(lia))).
  lia.
Qed.

(** ** Categories *)

Lemma insert_Z_perm (x : Z) (l : list Z) : Permutation (insert_Z x l) (x :: l).
Proof.
  induction l as [|y l IH]; simpl.
  - apply Permutation_refl.
  - destruct (x <=? y).
    + apply Permutation_refl.
    + eapply perm_trans; [apply perm_skip, IH | apply perm_swap].
Qed.

Lemma sort_Z_perm (l : list Z) : Permutation (sort_Z l) l.
Proof.
  induction l as [|x l IH]; simpl.
  - apply perm_nil.
  - eapply perm_trans; [apply insert_Z_perm | now apply perm_skip].
Qed.

Lemma categories_NoDup (col : column) : NoDup (categories col).
Proof.
  unfold categories.
  eapply Permutation_NoDup; [apply Permutation_sym, sort_Z_perm|].
  apply NoDup_nodup.
Qed.

Lemma categories_In (col : column) (k : Z) :
  In k (categories col) <-> exists c, In c col /\ cat_key c = Some k.
Proof.
  unfold categories. split.
  - intros H. apply (Permutation_in _ (sort_Z_perm _)) in H.
    apply nodup_In, in_flat_map in H. destruct H as (c & Hc & Hk).
    exists c. split; [exact Hc|].
    destruct (cat_key c); simpl in Hk; [|contradiction].
    destruct Hk as [-> | []]. reflexivity.
  - intros (c & Hc & Hk).
    apply (Permutation_in _ (Permutation_sym (sort_Z_perm _))).
    apply nodup_In, in_flat_map. exists c. split; [exact Hc|].
    rewrite Hk. now left.
Qed.

Lemma categories_field (f : Z -> Z) (idx : list Z) (k : Z) :
  In k (categories (map (fun t => CInt (f t)) idx))
  <-> exists t, In t idx /\ f t = k.
Proof.
  rewrite categories_In. split.
  - intros (c & Hc & Hk). apply in_map_iff in Hc. destruct Hc as (t & <- & Ht).
    exists t. split; [exact Ht|]. simpl in Hk. congruence.
  - intros (t & Ht & <-). exists (CInt (f t)). split; [|reflexivity].
    apply in_map_iff. now exists t.
Qed.

Lemma dummy_column_field (f : Z -> Z) (idx : list Z) (k : Z) :
  dummy_column (map (fun t => CInt (f t)) idx) k = field_indicator f idx k.
Proof.
  unfold dummy_column, field_indicator. rewrite map_map. reflexivity.
Qed.

Lemma fillna_indicator (f : Z -> Z) (idx : list Z) (k : Z) :
  map (fun c => if cell_isna c then CInt 0 else c) (field_indicator f idx k)
  = field_indicator f idx k.
Proof.
  unfold field_indicator. rewrite map_map. apply map_ext. intros t.
  reflexivity.
Qed.

(** A category that no row has gives the column of zeros either way. *)
Lemma fillna_absent (f : Z -> Z) (idx : list Z) (k : Z) :
  (forall t, In t idx -> f t <> k) ->
  map (fun c => if cell_isna c then CInt 0 else c)
    (repeat (CFloat NaN) (List.length idx))
  = field_indicator f idx k.
Proof.
  intros H. unfold field_indicator.
  induction idx as [|t idx IH]; simpl; [reflexivity|].
  rewrite IH by (intros u Hu; apply H; now right).
  f_equal. unfold indicator.
  destruct (Z.eqb_spec (f t) k) as [E | _]; [|reflexivity].
  elim (H t); [now left | exact E].
Qed.

Lemma lookup_dummies (p : string) (g : Z -> column) (cats : list Z) (j : Z) :
  lookup (p ++ str_of_Z j) (map (fun k => ((p ++ str_of_Z k)%string, g k)) cats)
  = if existsb (Z.eqb j) cats then Some (g j) else None.
Proof.
  induction cats as [|k cats IH]; simpl; [reflexivity|].
  rewrite name_eqb, IH, (Z.eqb_sym k j).
  destruct (Z.eqb_spec j k) as [-> | _]; reflexivity.
Qed.

Lemma remove_label_fresh (n : string) (C : list (string * column)) :
  ~ In n (map fst C) -> remove_label n C = C.
Proof.
  unfold remove_label.
  induction C as [|[l c] C IH]; simpl; intros H; [reflexivity|].
  destruct (String.eqb_spec l n) as [-> | N]; simpl.
  - elim H. now left.
  - rewrite IH; [reflexivity | tauto].
Qed.

Lemma labels_indicator_columns (p : string) (f : Z -> Z) (idx keys : list Z) :
  map fst (indicator_columns p f idx keys)
  = map (fun k => (p ++ str_of_Z k)%string) keys.
Proof. unfold indicator_columns. now rewrite map_map. Qed.

Lemma dummy_frame_field (idx : list Z) (C : list (string * column))
    (name : string) (first count : nat) (f : Z -> Z) :
  lookup name C = Some (map (fun t => CInt (f t)) idx) ->
  NoDup (map fst C) ->
  (forall t, In t idx -> Z.of_nat first <= f t < Z.of_nat (first + S count)) ->
  (forall x, In x (seq first (S count)) ->
             ~ In ((name ++ "_") ++ str_of_Z (Z.of_nat x))%string (map fst C)) ->
  dummy_frame (mkFrame idx C) name
    (map (fun x => ((name ++ "_") ++ str_of_Z (Z.of_nat x))%string)
       (seq first (S count)))
  = Ok (mkFrame idx
          (indicator_columns (name ++ "_") f idx (range (S first) count))).
Proof.
  intros Hl Hnd Hrange Hfresh.
  set (p := (name ++ "_")%string) in *.
  set (col := map (fun t => CInt (f t)) idx) in *.
  unfold dummy_frame, get_dummies. cbn [df_columns df_index].
  rewrite Hl. cbn [rbind]. fold p.
  set (D := map (fun k => ((p ++ str_of_Z k)%string, dummy_column col k))
              (categories col)).
  assert (Hcat : forall k, In k (categories col) ->
                           exists x, In x (seq first (S count)) /\ k = Z.of_nat x).
  { intros k Hk. apply categories_field in Hk. destruct Hk as (t & Ht & <-).
    specialize (Hrange t Ht). exists (Z.to_nat (f t)).
    split; [apply in_seq; lia | lia]. }
  assert (Hdup : has_dup (labels (mkFrame idx (remove_label name C ++ D))) = false).
  { apply has_dup_NoDup. unfold labels. cbn [df_columns].
    rewrite map_app. apply NoDup_app.
    - now apply NoDup_remove_label.
    - subst D. rewrite map_map. cbn [fst].
      apply NoDup_map_NoDup_ForallPairs; [|apply categories_NoDup].
      intros a b _ _ E. now apply str_of_Z_inj, (append_inj_r p).
    - intros l Hl1 Hl2. apply labels_remove_label in Hl1. destruct Hl1 as [_ Hl1].
      subst D. rewrite map_map in Hl2. cbn [fst] in Hl2.
      apply in_map_iff in Hl2. destruct Hl2 as (k & <- & Hk).
      destruct (Hcat k Hk) as (x & Hx & ->).
      now apply (Hfresh x Hx). }
  unfold reindex_columns. rewrite Hdup. cbn [rbind].
  unfold drop_first_column, fillna0. cbn [df_columns df_index nrows].
  rewrite !map_map. cbn [fst snd].
  rewrite (map_ext_in _
             (fun x => ((p ++ str_of_Z (Z.of_nat x))%string,
                        field_indicator f idx (Z.of_nat x)))).
  2:{ intros x Hx. apply f_equal.
      rewrite lookup_app.
      assert (Hn : lookup (p ++ str_of_Z (Z.of_nat x)) (remove_label name C) = None).
      { apply lookup_None. intros I. apply labels_remove_label in I.
        now apply (Hfresh x Hx). }
      rewrite Hn. subst D. rewrite lookup_dummies.
      destruct (existsb (Z.eqb (Z.of_nat x)) (categories col)) eqn:E.
      - subst col. rewrite dummy_column_field. apply fillna_indicator.
      - apply fillna_absent. intros t Ht Ef.
        assert (X : existsb (Z.eqb (Z.of_nat x)) (categories col) = true).
        { apply existsb_exists. exists (Z.of_nat x). split; [|apply Z.eqb_refl].
          apply categories_field. now exists t. }
        congruence. }
  cbn [seq map]. f_equal. f_equal.
  unfold remove_label. cbn [filter fst]. rewrite String.eqb_refl. cbn [negb].
  unfold indicator_columns, range. rewrite map_map.
  fold (remove_label (p ++ str_of_Z (Z.of_nat first))
          (map (fun x => ((p ++ str_of_Z (Z.of_nat x))%string,
                          field_indicator f idx (Z.of_nat x)))
             (seq (S first) count))).
  apply remove_label_fresh.
  rewrite map_map. cbn [fst]. intros I. apply in_map_iff in I.
  destruct I as (x & E & Hx). apply (append_inj_r p), str_of_Z_inj in E.
  apply in_seq in Hx. lia.
Qed.

(** ** Steps of a run *)

Lemma run_entry {B} (b : bool) (g : DataFrame -> DataFrame)
    (k : unit -> ST B) (df : DataFrame) :
  sbind (if b then modify g else sret tt) k df
  = k tt (if b then g df else df).
Proof. destruct b; reflexivity. Qed.

Lemma run_getattr {B} (n : string) (c : column) (k : column -> ST B)
    (df : DataFrame) :
  lookup n (df_columns df) = Some c -> sbind (getattr n) k df = k c df.
Proof. intros H. unfold sbind, getattr, frame_getattr. now rewrite H. Qed.

Lemma run_setitem {B} (n : string) (v : column) (k : unit -> ST B)
    (idx : list Z) (C : list (string * column)) :
  sbind (setitem n v) k (mkFrame idx C) = k tt (mkFrame idx (set_col n v C)).
Proof. reflexivity. Qed.

Lemma run_loc_set {B} (mask : list bool) (n : string) (v : cell) (old : column)
    (k : unit -> ST B) (idx : list Z) (C : list (string * column)) :
  lookup n C = Some old ->
  sbind (loc_set mask n v) k (mkFrame idx C)
  = k tt (mkFrame idx
            (set_col n (zip_with (fun (b : bool) c => if b then v else c)
                          mask old) C)).
Proof.
  intros H. unfold sbind, loc_set, modify, frame_loc_set, frame_setitem.
  cbn [df_columns df_index]. now rewrite H.
Qed.

Lemma run_sget {B} (k : DataFrame -> ST B) (df : DataFrame) :
  sbind sget k df = k df df.
Proof. reflexivity. Qed.

Lemma run_slift {A B} (r : result A) (a : A) (k : A -> ST B) (df : DataFrame) :
  r = Ok a -> sbind (slift r) k df = k a df.
Proof. intros ->. reflexivity. Qed.

Lemma run_index_field {B} (f : Z -> Z) (k : column -> ST B)
    (idx : list Z) (C : list (string * column)) :
  sbind (index_field f) k (mkFrame idx C)
  = k (map (fun t => CInt (f t)) idx) (mkFrame idx C).
Proof. reflexivity. Qed.

Lemma lookup_set_col_same (n : string) (v : column) (C : list (string * column)) :
  lookup n (set_col n v C) = Some v.
Proof. now rewrite lookup_set_col, String.eqb_refl. Qed.

Lemma lookup_set_col_other (n m : string) (v : column)
    (C : list (string * column)) :
  String.eqb m n = false -> lookup n (set_col m v C) = lookup n C.
Proof. intros H. now rewrite lookup_set_col, H. Qed.

(** ** Labels the encoding does not use *)

Lemma Unreserved_set_col (m : string) (v : column) (C : list (string * column)) :
  reserved m = false -> Unreserved C -> Unreserved (set_col m v C).
Proof.
  intros Hm H l I. apply labels_set_col in I. destruct I as [-> | I]; auto.
Qed.

Lemma Unreserved_fresh (n : string) (C : list (string * column)) :
  reserved n = true -> Unreserved C -> ~ In n (map fst C).
Proof. intros Hn H I. apply H in I. congruence. Qed.


(** ** The lag loop *)

Lemma shift_name_prefix (s : string) :
  has_prefix "SHIFT_" ("SHIFT_" ++ s) = true.
Proof. reflexivity. Qed.



(** ** The run of the feature builder *)

Ltac look :=
  cbn [df_columns];
  repeat first [ rewrite lookup_set_col_same
               | rewrite lookup_set_col_other by reflexivity ];
  first [ reflexivity | eassumption ].

Ltac step :=
  first [ rewrite run_setitem
        | erewrite run_getattr by look
        | erewrite run_loc_set by look
        | rewrite run_index_field
        | rewrite run_sget ];
  cbv beta.


Lemma run_seq {A B} (m : ST A) (k : A -> ST B) (df df' : DataFrame) (a : A) :
  m df = (Ok a, df') -> sbind m k df = k a df'.
Proof. intros H. unfold sbind. now rewrite H. Qed.

Lemma length_set_col_le (n : nat) (m : string) (v : column)
    (C : list (string * column)) :
  (n <= List.length C)%nat -> (n <= List.length (set_col m v C))%nat.
Proof. pose proof (length_set_col m v C). lia. Qed.

Lemma degree_day_cells (g : cell -> f64) (oat : column) :
  map cell_round
    (zip_with (fun (b : bool) c => if b then CFloat (Fin 0) else c)
       (map (fun c => flt (to_f64 c) (Fin 0)) (map (fun c => CFloat (g c)) oat))
       (map (fun c => CFloat (g c)) oat))
  = map (fun c => CFloat (fround (clip0 (g c)))) oat.
Proof.
  rewrite zip_with_map_self, !map_map. apply map_ext. intros c.
  unfold clip0. cbn [to_f64]. now destruct (flt (g c) (Fin 0)).
Qed.

Lemma degree_day_squares (g : cell -> f64) (oat : column) :
  map cell_round
    (map (fun c => CFloat (fmul (to_f64 c) (to_f64 c)))
       (zip_with (fun (b : bool) c => if b then CFloat (Fin 0) else c)
          (map (fun c => flt (to_f64 c) (Fin 0))
             (map (fun c => CFloat (g c)) oat))
          (map (fun c => CFloat (g c)) oat)))
  = map (fun c => CFloat (fround (fmul (clip0 (g c)) (clip0 (g c))))) oat.
Proof.
  rewrite zip_with_map_self, !map_map. apply map_ext. intros c.
  unfold clip0. cbn [to_f64]. now destruct (flt (g c) (Fin 0)).
Qed.

Lemma reserved_group (p : string) (first count : nat) (x : nat) :
  forallb (fun y => reserved (p ++ str_of_Z (Z.of_nat y))) (seq first count)
  = true ->
  In x (seq first count) -> reserved (p ++ str_of_Z (Z.of_nat x)) = true.
Proof. intros H I. now apply (proj1 (forallb_forall _ _) H). Qed.

Lemma remove_label_app (n : string) (C D : list (string * column)) :
  remove_label n (C ++ D) = remove_label n C ++ remove_label n D.
Proof. apply filter_app. Qed.

Lemma drop_three (idx : list Z) (C X : list (string * column)) (a b c : column) :
  lookup "MONTH" C = Some a -> lookup "TOD" C = Some b ->
  lookup "DOW" C = Some c ->
  (forall n, In n ["MONTH"; "TOD"; "DOW"]%string -> ~ In n (map fst X)) ->
  drop_labels ["MONTH"; "TOD"; "DOW"]%string (mkFrame idx (C ++ X))
  = Ok (mkFrame idx
          (remove_label "DOW" (remove_label "TOD" (remove_label "MONTH" C))
           ++ X)).
Proof.
  intros Ha Hb Hc HX.
  cbn [drop_labels df_columns df_index].
  rewrite lookup_app, Ha.
  rewrite lookup_remove_label, lookup_app, Hb. cbn [String.eqb Ascii.eqb Bool.eqb].
  rewrite !lookup_remove_label, lookup_app, Hc. cbn [String.eqb Ascii.eqb Bool.eqb].
  rewrite !remove_label_app.
  rewrite (remove_label_fresh "MONTH" X) by (apply HX; simpl; tauto).
  rewrite (remove_label_fresh "TOD" X) by (apply HX; simpl; tauto).
  rewrite (remove_label_fresh "DOW" X) by (apply HX; simpl; tauto).
  reflexivity.
Qed.

(** ** Readiness of a table *)

Lemma features_ready_spec (rename : bool) (df : DataFrame) :
  features_ready rename df = true ->
  exists oat,
    lookup "OAT" (df_columns (entry_frame rename df)) = Some oat /\
    NoDup (map fst (df_columns (entry_frame rename df))) /\
    Unreserved (df_columns (entry_frame rename df)).
Proof.
  unfold features_ready. cbv zeta. rewrite !andb_true_iff.
  intros [[Ho Hd] Hr].
  destruct (lookup "OAT" (df_columns (entry_frame rename df))) as [oat|] eqn:E;
    [|discriminate].
  exists oat. split; [reflexivity|]. split.
  - apply has_dup_NoDup. now apply negb_true_iff.
  - intros l Hl. rewrite forallb_forall in Hr. apply Hr in Hl.
    now apply negb_true_iff.
Qed.

Lemma entry_frame_shape (rename : bool) (df : DataFrame) :
  df_index (entry_frame rename df) = df_index df /\
  List.length (df_columns (entry_frame rename df))
  = List.length (df_columns df).
Proof.
  unfold entry_frame, rename_columns. destruct rename; cbn; [|tauto].
  now rewrite length_map.
Qed.

Lemma lag_ready_spec (pl shift : Z) (df : DataFrame) :
  lag_ready pl shift df = true ->
  shift <= 0 \/
  - Z.of_nat (List.length (df_columns df)) <= pl
    < Z.of_nat (List.length (df_columns df)).
Proof.
  unfold lag_ready. cbv zeta. rewrite orb_true_iff, andb_true_iff. lia.
Qed.

(** ** Rows dropped *)





(** ** Lookups among the indicator columns *)









Lemma lookup_remove_three (n : string) (C : list (string * column)) :
  String.eqb "MONTH" n = false -> String.eqb "TOD" n = false ->
  String.eqb "DOW" n = false ->
  lookup n (remove_label "DOW" (remove_label "TOD" (remove_label "MONTH" C)))
  = lookup n C.
Proof. intros H1 H2 H3. now rewrite !lookup_remove_label, H1, H2, H3. Qed.







Example onehot_fixture_row :
  exists out,
    fst (create_standard_multivariable_df 0 1 true true fixture_table) = Ok out /\
    map (fun n => option_map (fun c => nth 0 c (CInt 0))
                    (lookup n (df_columns out)))
      ["TOD_1"; "TOD_2"; "DOW_2"; "DOW_3"; "MONTH_2"]%string
    = [Some (CInt 1); Some (CInt 0); Some (CInt 1); Some (CInt 0);
       Some (CInt 0)].
Proof. eexists. split; vm_compute; reflexivity. Qed.

(** The condition on the labels matters: a column of the input that is
    named MONTH_3 is picked up by the reindexing in place of the indicator
    of March. *)
Example reserved_label_taken_for_indicator :
  features_ready true table_with_reserved_label = false /\
  exists out,
    fst (create_standard_multivariable_df 0 0 true false
           table_with_reserved_label) = Ok out /\
    nth 8 (df_columns out) (EmptyString, [])
    = ("MONTH_3"%string, repeat (CFloat (Fin (15 # 2))) 2).
Proof.
  split; [reflexivity|]. eexists. split; vm_compute; reflexivity.
Qed.

(** [clip0] is the maximum with zero on a number; NaN passes through. *)
Lemma clip0_Fin (q : Q) : clip0 (Fin q) = Fin (Qmax q 0).
Proof.
  unfold clip0, flt, Qlt_bool, Qmax, GenericMinMax.gmax.
  destruct (Qcompare_spec q 0) as [E | L | G].
  - destruct (Qle_bool 0 q) eqn:B; [reflexivity|].
    exfalso. assert (0 <= q)%Q by (rewrite E; apply Qle_refl).
    apply Qle_bool_iff in H. congruence.
  - destruct (Qle_bool 0 q) eqn:B; [|reflexivity].
    apply Qle_bool_iff in B. lra.
  - destruct (Qle_bool 0 q) eqn:B; [reflexivity|].
    exfalso. assert (0 <= q)%Q by lra.
    apply Qle_bool_iff in H. congruence.
Qed.

Lemma degree_day_cells_Fin (q : Q) :
  cdd_of (CFloat (Fin q))
  = CFloat (Fin (inject_Z (rne (Qmax (fl64 (q - 65)) 0)))) /\
  hdd_of (CFloat (Fin q))
  = CFloat (Fin (inject_Z (rne (Qmax (fl64 (65 - q)) 0)))).
Proof.
  unfold cdd_of, hdd_of. cbn [to_f64 fsub lift2]. now rewrite !clip0_Fin.
Qed.

Example squares_before_rounding :
  cdd_of (CFloat (Fin (133 # 2))) = CFloat (Fin 2) /\
  cdd2_of (CFloat (Fin (133 # 2))) = CFloat (Fin 2).
Proof. split; vm_compute; reflexivity. Qed.




(** ** A table without the base column *)

Lemma rename_without_target (cols : list (string * column)) :
  lookup "OAT"
    (map (fun nc => (if String.eqb (fst nc) "aiTIT4045" then "OAT"%string
                     else fst nc, snd nc)) cols) = None ->
  map (fun nc => (if String.eqb (fst nc) "aiTIT4045" then "OAT"%string
                  else fst nc, snd nc)) cols = cols.
Proof.
  induction cols as [|[l c] cols IH]; cbn [map lookup fst snd];
    [reflexivity|].
  destruct (String.eqb l "aiTIT4045") eqn:E.
  - cbn [String.eqb Ascii.eqb Bool.eqb]. discriminate.
  - destruct (String.eqb l "OAT"); [discriminate|].
    intros H. now rewrite IH.
Qed.

Lemma entry_frame_unchanged (rename : bool) (df : DataFrame) :
  lookup "OAT" (df_columns (entry_frame rename df)) = None ->
  entry_frame rename df = df.
Proof.
  destruct df as [idx cols]. destruct rename; [|reflexivity].
  unfold entry_frame, rename_columns. cbn [df_index df_columns].
  intros H. now rewrite rename_without_target.
Qed.

(** C6 (as amended).  When the table has no column OAT, after the optional
    rename of aiTIT4045, the call fails with [AttributeError] on its first
    reading of [df.OAT]; it produces no output table and the caller's table
    is unchanged. *)
Theorem missing_base_column (df : DataFrame) (pl shift : Z)
    (rename dropna : bool) :
  lookup "OAT" (df_columns (entry_frame rename df)) = None ->
  create_standard_multivariable_df pl shift rename dropna df
  = (Raise AttributeError "'DataFrame' object has no attribute 'OAT'", df).
Proof.
  intros H. unfold create_standard_multivariable_df.
  rewrite run_entry. fold (entry_frame rename df).
  pose proof (entry_frame_unchanged rename df H) as E.
  rewrite E in H |- *.
  unfold sbind at 1. unfold getattr, frame_getattr. now rewrite H.
Qed.

Lemma missing_base_column_witness :
  create_standard_multivariable_df 0 1 true true table_without_base
  = (Raise AttributeError "'DataFrame' object has no attribute 'OAT'",
     table_without_base).
Proof.
  apply (missing_base_column table_without_base 0 1 true true).
  reflexivity.
Defined.

(** C6, the divergence: the exception for the absent base column is an
    [AttributeError], not a [KeyError]; and a [point_location] outside the
    table fails later, with [IndexError], when the caller's table already
    holds the columns added so far. *)
Lemma missing_base_column_not_KeyError :
  raised (fst (create_standard_multivariable_df 0 1 true true
                 table_without_base)) = Some AttributeError /\
  raised (fst (create_standard_multivariable_df 0 1 true true
                 table_without_base)) <> Some KeyError /\
  raised (fst (create_standard_multivariable_df 30 1 true true
                 fixture_table)) = Some IndexError /\
  labels (snd (create_standard_multivariable_df 30 1 true true fixture_table))
  = ["OAT"; "CDD"; "HDD"; "CDD2"; "HDD2"; "MONTH"; "TOD"; "DOW";
     "WEEKEND"]%string /\
  snd (create_standard_multivariable_df 30 1 true true fixture_table)
  <> fixture_table.
Proof.
  split; [reflexivity|]. split; [discriminate|].
  split; [vm_compute; reflexivity|]. split; [vm_compute; reflexivity|].
  intros E. apply (f_equal labels) in E. vm_compute in E. discriminate E.
Qed.

(* ################################################################## *)
(** * Further properties *)
(* ################################################################## *)

(* ================================================================== *)
(** ** More on split_data *)
(* ================================================================== *)

Lemma rne_zero (x : Q) : (0 <= x)%Q -> (x <= 1 # 2)%Q -> rne x = 0.
Proof.
  intros H0 H1. apply Z.le_antisymm; [|now apply rne_ge].
  unfold rne.
  assert (Hf : Qfloor x = 0).
  { apply Z.le_antisymm.
    - pose proof (Qfloor_resp_le _ _ H1) as L.
      change (Qfloor (1 # 2)) with 0 in L. exact L.
    - pose proof (Qfloor_resp_le _ _ H0) as L.
      change (Qfloor 0) with 0 in L. exact L. }
  rewrite Hf. change (inject_Z 0) with 0%Q.
  destruct (Qcompare_spec (x - 0) (1 # 2)) as [E | E | E];
    [cbn; lia | lia | lra].
Qed.

Lemma inject_Z_pred (N : Z) : (inject_Z (N - 1) == inject_Z N - 1)%Q.
Proof. unfold Qeq, Qminus, Qplus, Qopp, inject_Z. cbn. lia. Qed.

Lemma rne_above_half (x : Q) (N : Z) :
  (inject_Z N - (1 # 2) < x)%Q -> N <= rne x.
Proof.
  intros H. unfold rne.
  pose proof (inject_Z_pred N) as P.
  assert (Hf : N - 1 <= Qfloor x).
  { assert (L : (inject_Z (N - 1) <= x)%Q) by lra.
    apply Qfloor_resp_le in L. now rewrite Qfloor_Z in L. }
  destruct (Z.eq_dec (Qfloor x) (N - 1)) as [E | E].
  - rewrite E.
    destruct (Qcompare_spec (x - inject_Z (N - 1)) (1 # 2)) as [C | C | C];
      [exfalso; lra | exfalso; lra | lia].
  - destruct (Qcompare _ _); [destruct (Z.even _)| |]; lia.
Qed.

Lemma py_slice_all {A} (l : list A) :
  py_slice l 0 (Z.of_nat (List.length l)) = l.
Proof.
  rewrite py_slice_suffix.
  assert (E : norm_index (Z.of_nat (List.length l)) 0 = 0)
    by (unfold norm_index; simpl; lia).
  now rewrite E.
Qed.

Lemma py_slice_none_front {A} (l : list A) : py_slice l 0 0 = [].
Proof.
  rewrite py_slice_prefix.
  assert (E : norm_index (Z.of_nat (List.length l)) 0 = 0)
    by (unfold norm_index; simpl; lia).
  now rewrite E.
Qed.

Lemma py_slice_none_back {A} (l : list A) :
  py_slice l (Z.of_nat (List.length l)) (Z.of_nat (List.length l)) = [].
Proof.
  rewrite py_slice_suffix.
  assert (E : norm_index (Z.of_nat (List.length l)) (Z.of_nat (List.length l))
              = Z.of_nat (List.length l)).
  { unfold norm_index. destruct (Z.of_nat (List.length l) <? 0) eqn:H; lia. }
  rewrite E, Nat2Z.id. apply skipn_all.
Qed.

Lemma series_slice_all (S : Series) :
  series_slice S 0 (Z.of_nat (series_len S)) = S.
Proof.
  destruct S as [name kind data]. unfold series_slice, series_len, with_data.
  cbn [s_data s_name s_index_kind].
  destruct data; now rewrite py_slice_all.
Qed.

Lemma series_slice_len_front (S : Series) :
  series_len (series_slice S 0 0) = 0%nat.
Proof.
  unfold series_slice, series_len, with_data. cbn [s_data].
  destruct (s_data S); now rewrite py_slice_none_front.
Qed.

Lemma series_slice_len_back (S : Series) :
  series_len (series_slice S (Z.of_nat (series_len S))
                (Z.of_nat (series_len S))) = 0%nat.
Proof.
  unfold series_slice, series_len, with_data. cbn [s_data].
  destruct (s_data S); now rewrite py_slice_none_back.
Qed.

Lemma split_data_run (S : Series) (f : Q) :
  (0 < f)%Q -> (f < 1)%Q ->
  split_data (PySeries S) (PyFloat (Fin f))
  = let k := rne (fl64 (f * fl64 (inject_Z (Z.of_nat (series_len S))))) in
    Ok (series_slice S 0 k, series_slice S k (Z.of_nat (series_len S))).
Proof.
  intros H0 H1. unfold split_data. simpl as_float. cbv iota.
  rewrite (proj2 (flt_Fin 0 f) H0), (proj2 (flt_Fin f 1) H1).
  simpl negb. cbv iota. rewrite split_point_Fin. reflexivity.
Qed.

(** X1.  A fraction inside (0, 1) can still leave one side empty: the
    training part when the float product [f * len(S)] is at most 0.5, the
    testing part when it is above [len(S) - 0.5]. *)
Theorem split_data_empty_side (S : Series) (f y : Q) :
  (0 < f)%Q -> (f < 1)%Q -> Z.of_nat (series_len S) < 2 ^ 53 ->
  fmul (Fin f) (of_Z (Z.of_nat (series_len S))) = Fin y ->
  exists train test,
    split_data (PySeries S) (PyFloat (Fin f)) = Ok (train, test) /\
    ((y <= 1 # 2)%Q -> series_len train = 0%nat /\ test = S) /\
    ((inject_Z (Z.of_nat (series_len S)) - (1 # 2) < y)%Q ->
     train = S /\ series_len test = 0%nat).
Proof.
  intros H0 H1 Hn Hy.
  rewrite (split_data_run S f H0 H1). cbv zeta.
  eexists. eexists. split; [reflexivity|].
  cbn [fmul lift2 of_Z] in Hy. injection Hy as Hy.
  pose proof (split_point_range f (series_len S) H0 H1 Hn) as R.
  rewrite Hy in R |- *.
  assert (Hy0 : (0 <= y)%Q).
  { rewrite <- Hy.
    rewrite (fl64_Qeq _ (f * inject_Z (Z.of_nat (series_len S))))
      by (rewrite fl64_inject_Z by lia; reflexivity).
    apply (fl64_between _ (Z.of_nat (series_len S))); [| |exact Hn].
    - apply Qmult_le_0_compat; [lra|].
      change 0%Q with (inject_Z 0). rewrite <- Zle_Qle. lia.
    - rewrite <- (Qmult_1_l (inject_Z (Z.of_nat (series_len S)))) at 2.
      apply Qmult_le_compat_r; [lra|].
      change 0%Q with (inject_Z 0). rewrite <- Zle_Qle. lia. }
  split.
  - intros Hs. rewrite (rne_zero y Hy0 Hs).
    split; [apply series_slice_len_front | apply series_slice_all].
  - intros Hb.
    assert (E : rne y = Z.of_nat (series_len S)).
    { apply Z.le_antisymm; [lia | now apply rne_above_half]. }
    rewrite E. split; [apply series_slice_all | apply series_slice_len_back].
Qed.

Lemma split_data_empty_side_witness :
  exists train test,
    split_data (PySeries (series_of "x" [1; 2; 3; 4; 5; 6; 7; 8; 9; 10]%Q))
      (PyFloat (Fin (fl64 (99 # 100)))) = Ok (train, test) /\
    train = series_of "x" [1; 2; 3; 4; 5; 6; 7; 8; 9; 10]%Q /\
    series_len test = 0%nat.
Proof.
  destruct (split_data_empty_side
              (series_of "x" [1; 2; 3; 4; 5; 6; 7; 8; 9; 10]%Q)
              (fl64 (99 # 100)) (5573204538870989 # 562949953421312))
    as (train & test & Hrun & _ & Hfull);
    [vm_compute; reflexivity | vm_compute; reflexivity | vm_compute; reflexivity
    | vm_compute; reflexivity |].
  exists train, test. split; [exact Hrun|].
  apply Hfull. vm_compute. reflexivity.
Defined.

(* ================================================================== *)
(** ** More on clean_data *)
(* ================================================================== *)




Lemma fgt_NaN (v : f64) : fgt NaN v = false.
Proof. now destruct v. Qed.

Lemma filter_rows_no_nan (keep : f64 -> bool) (rows : list (Z * f64)) :
  keep NaN = false ->
  forall r, In r (filter_rows keep rows) -> snd r <> NaN.
Proof.
  intros Hk r Hr E. unfold filter_rows in Hr. apply filter_In in Hr.
  destruct Hr as [_ Hr]. rewrite E in Hr. congruence.
Qed.

Lemma clean_data_value_run_tag (s : Series) (rows : list (Z * f64))
    (threshold clean_type : PyObj) (t : Z) (show_plot : bool)
    (log : list event) :
  py_eq_str clean_type "value" = true ->
  s_data s = NumericData rows -> as_int threshold = Some t ->
  clean_data (PySeries s) threshold clean_type show_plot log
  = (Ok (with_data s
           (NumericData
              (filter_rows (fun v => fgt v (Fin (inject_Z t))) rows))),
     if show_plot then log ++ [PlotData (s_name s) [Fin (inject_Z t)]]
     else log).
Proof.
  intros Hc Hd Ht. unfold clean_data. rewrite Hc, Hd, Ht.
  destruct show_plot; reflexivity.
Qed.

(** A successful [clean_data] filters the rows of a numeric Series with a
    test that NaN does not pass. *)
Lemma clean_data_success_run (data threshold clean_type : PyObj)
    (show_plot : bool) (log : list event) (out : Series) :
  fst (clean_data data threshold clean_type show_plot log) = Ok out ->
  exists s rows keep,
    data = PySeries s /\ s_data s = NumericData rows /\
    keep NaN = false /\
    out = with_data s (NumericData (filter_rows keep rows)).
Proof.
  intros H.
  destruct data as [| | | | |s];
    try (unfold clean_data in H;
         destruct (py_eq_str clean_type "value"); discriminate H).
  destruct (s_data s) as [rows|orows] eqn:Hd.
  2:{ unfold clean_data in H. rewrite Hd in H.
      destruct (py_eq_str clean_type "value"); [discriminate H|].
      destruct (as_number threshold); discriminate H. }
  exists s, rows.
  destruct (py_eq_str clean_type "value") eqn:Hc.
  - destruct (as_int threshold) as [t|] eqn:Ht.
    2:{ unfold clean_data in H. rewrite Hc, Hd, Ht in H. discriminate H. }
    rewrite (clean_data_value_run_tag s rows threshold clean_type t)
      in H by assumption.
    cbn [fst] in H. injection H as <-.
    eexists. split; [reflexivity|]. split; [exact Hd|].
    split; [|reflexivity]. reflexivity.
  - destruct (as_number threshold) as [m|] eqn:Hm.
    2:{ unfold clean_data in H. rewrite Hc, Hm in H. discriminate H. }
    rewrite (clean_data_iqr_run s rows threshold clean_type m)
      in H by assumption.
    cbv zeta in H. cbn [fst] in H. injection H as <-.
    eexists. split; [reflexivity|]. split; [exact Hd|].
    split; [|reflexivity]. cbv beta. now rewrite fgt_NaN.
Qed.



Lemma filter_filter_weaker {A} (p q : A -> bool) (l : list A) :
  (forall a, q a = true -> p a = true) ->
  filter q (filter p l) = filter q l.
Proof.
  intros H. induction l as [|a l IH]; simpl; [reflexivity|].
  destruct (p a) eqn:P; simpl.
  - now rewrite IH.
  - destruct (q a) eqn:Q; [|exact IH]. apply H in Q. congruence.
Qed.

(** X4.  Cleaning with a fixed threshold composes: cleaning the result again
    with a threshold that is not lower gives what that threshold gives on
    the input; with the same threshold a second pass changes nothing. *)
Theorem clean_value_twice (s cleaned : Series) (rows : list (Z * f64))
    (t1 t2 : Z) (i1 i2 p1 p2 : bool) (log1 log2 : list event) :
  s_data s = NumericData rows -> t1 <= t2 ->
  fst (clean_data (PySeries s) (PyInt t1) (PyStr i1 "value") p1 log1)
  = Ok cleaned ->
  fst (clean_data (PySeries cleaned) (PyInt t2) (PyStr i2 "value") p2 log2)
  = fst (clean_data (PySeries s) (PyInt t2) (PyStr i2 "value") p2 log2).
Proof.
  intros Hd Ht H1.
  rewrite (clean_data_value_run s rows (PyInt t1) t1) in H1
    by (assumption || reflexivity).
  cbn [fst] in H1. injection H1 as <-.
  rewrite (clean_data_value_run _
             (filter_rows (fun v => fgt v (Fin (inject_Z t1))) rows)
             (PyInt t2) t2) by reflexivity.
  rewrite (clean_data_value_run s rows (PyInt t2) t2)
    by (assumption || reflexivity).
  cbn [fst]. unfold with_data. cbn [s_name s_index_kind].
  do 2 f_equal. f_equal. unfold filter_rows.
  apply filter_filter_weaker. intros [l v]. cbn [snd].
  rewrite !fgt_iff. intros (q & -> & Hq). exists q. split; [reflexivity|].
  eapply Qle_lt_trans; [|exact Hq]. rewrite <- Zle_Qle. exact Ht.
Qed.

Lemma clean_value_twice_witness :
  fst (clean_data (PySeries (series_of "S" [1; 2; 3; 4; 5; 100]%Q)) (PyInt 2)
         (PyStr true "value") false []) = Ok (mkSeries "S" OtherIndex
          (NumericData [(2, Fin 3); (3, Fin 4); (4, Fin 5); (5, Fin 100)])) /\
  fst (clean_data
         (PySeries (mkSeries "S" OtherIndex
            (NumericData [(2, Fin 3); (3, Fin 4); (4, Fin 5); (5, Fin 100)])))
         (PyInt 4) (PyStr true "value") false [])
  = fst (clean_data (PySeries (series_of "S" [1; 2; 3; 4; 5; 100]%Q))
           (PyInt 4) (PyStr true "value") false []).
Proof.
  split; [vm_compute; reflexivity|].
  apply (clean_value_twice (series_of "S" [1; 2; 3; 4; 5; 100]%Q) _
           (rows_of (series_of "S" [1; 2; 3; 4; 5; 100]%Q)) 2 4
           true true false false [] []);
    [reflexivity | lia | vm_compute; reflexivity].
Defined.













(* ================================================================== *)
(** ** check_kwargs *)
(* ================================================================== *)

Lemma kw_get_Ok (kw : kwargs) (key : string) (v : PyObj) :
  kw_get kw key = Ok v <-> kw_lookup key kw = Some v.
Proof.
  unfold kw_get. destruct (kw_lookup key kw); split; congruence.
Qed.

Lemma Qlt_bool_inject_Z (a b : Z) :
  Qlt_bool (inject_Z a) (inject_Z b) = (a <? b).
Proof.
  unfold Qlt_bool, Qle_bool. cbn [Qnum Qden inject_Z].
  rewrite !Z.mul_1_r. symmetry. apply Z.ltb_antisym.
Qed.

Lemma interval_truth (o : PyObj) (b : bool) :
  py_and (py_compare_float ">" fgt o 0) (py_compare_float "<" flt o 1) = Ok b ->
  b = in_unit_interval o.
Proof.
  unfold py_and, py_compare_float, rbind, in_unit_interval.
  destruct o as [| c | z | x | i s | s]; try discriminate.
  4:{ destruct (s_data s) as [rows | [|row rows]]; discriminate. }
  - destruct c; vm_compute; congruence.
  - unfold fgt, flt.
    change 0%Q with (inject_Z 0). change 1%Q with (inject_Z 1).
    rewrite !Qlt_bool_inject_Z.
    destruct (0 <? z); intros [= <-]; reflexivity.
  - unfold fgt. destruct (flt (Fin 0) x); intros [= <-]; reflexivity.
Qed.

Lemma tag_truth (o : PyObj) (a b : string) (t : bool) :
  py_or (py_eq_truth o a) (py_eq_truth o b) = Ok t -> t = accepted_tag o a b.
Proof.
  destruct o as [| c | z | x | i s | s]; cbn; try congruence.
  destruct (String.eqb s a); cbn; congruence.
Qed.

Lemma interval_truth_total (o : PyObj) :
  in_unit_interval o = true ->
  py_and (py_compare_float ">" fgt o 0) (py_compare_float "<" flt o 1) = Ok true.
Proof.
  intros H.
  destruct o as [| c | z | x | i s | s]; cbn in H; try discriminate.
  - lia.
  - cbn. unfold fgt. apply andb_true_iff in H. destruct H as [-> ->].
    reflexivity.
Qed.

Lemma tag_truth_total (o : PyObj) (a b : string) :
  accepted_tag o a b = true ->
  py_or (py_eq_truth o a) (py_eq_truth o b) = Ok true.
Proof.
  destruct o as [| c | z | x | i s | s]; cbn; try discriminate.
  destruct (String.eqb s a); cbn; congruence.
Qed.

(** An answer of [check_kwargs] is ['Good values!'], given for valid
    entries only. *)
Lemma check_kwargs_answer (kw : kwargs) (answer : string) :
  check_kwargs kw = Ok answer ->
  answer = "Good values!"%string /\ kwargs_valid kw = true.
Proof.
  unfold check_kwargs, kwargs_valid, rbind.
  destruct (kw_get kw "point") as [point|] eqn:G1; [|discriminate].
  apply kw_get_Ok in G1. rewrite G1.
  destruct (is_str point); [|discriminate]. cbn [negb].
  destruct (kw_get kw "training_percent") as [tp|] eqn:G2; [|discriminate].
  apply kw_get_Ok in G2. rewrite G2.
  destruct (py_and _ _) as [inside|] eqn:T2; [|discriminate].
  apply interval_truth in T2. rewrite <- T2.
  destruct inside; [|discriminate]. cbn [negb].
  destruct (kw_get kw "clean_type") as [ct|] eqn:G3; [|discriminate].
  apply kw_get_Ok in G3. rewrite G3.
  destruct (py_or _ _) as [known|] eqn:T3; [|discriminate].
  apply tag_truth in T3. rewrite <- T3.
  destruct known; [|discriminate]. cbn [negb].
  destruct (kw_get kw "threshold") as [th|] eqn:G4; [|discriminate].
  apply kw_get_Ok in G4. rewrite G4.
  destruct (is_int_or_float th); [|discriminate]. cbn [negb].
  destruct (kw_get kw "model_type") as [mt|] eqn:G5; [|discriminate].
  apply kw_get_Ok in G5. rewrite G5.
  destruct (py_or _ _) as [known|] eqn:T5; [|discriminate].
  apply tag_truth in T5. rewrite <- T5.
  destruct known; [|discriminate]. cbn [negb].
  destruct (kw_get kw "train_on_residuals") as [tr|] eqn:G6; [|discriminate].
  apply kw_get_Ok in G6. rewrite G6.
  destruct (is_bool tr); [|discriminate]. cbn [negb].
  destruct (kw_get kw "method") as [me|] eqn:G7; [|discriminate].
  apply kw_get_Ok in G7. rewrite G7.
  destruct (py_or _ _) as [known|] eqn:T7; [|discriminate].
  apply tag_truth in T7. rewrite <- T7.
  destruct known; [|discriminate]. cbn [negb].
  intros [= <-]. split; reflexivity.
Qed.

(** X7.  [check_kwargs] returns ['Good values!'] exactly for a dictionary
    that has the seven entries with valid values, and it returns nothing
    else. *)
Theorem check_kwargs_accepts (kw : kwargs) :
  (check_kwargs kw = Ok "Good values!"%string <-> kwargs_valid kw = true) /\
  (forall answer,
     check_kwargs kw = Ok answer -> answer = "Good values!"%string).
Proof.
  split; [split|].
  - intros H. now apply check_kwargs_answer in H.
  - unfold kwargs_valid, check_kwargs, kw_get, rbind.
    destruct (kw_lookup "point" kw) as [point|]; [|discriminate].
    destruct (kw_lookup "training_percent" kw) as [tp|]; [|discriminate].
    destruct (kw_lookup "clean_type" kw) as [ct|]; [|discriminate].
    destruct (kw_lookup "threshold" kw) as [th|]; [|discriminate].
    destruct (kw_lookup "model_type" kw) as [mt|]; [|discriminate].
    destruct (kw_lookup "train_on_residuals" kw) as [tr|]; [|discriminate].
    destruct (kw_lookup "method" kw) as [me|]; [|discriminate].
    rewrite !andb_true_iff.
    intros [[[[[[H1 H2] H3] H4] H5] H6] H7].
    rewrite H1, (interval_truth_total _ H2), (tag_truth_total _ _ _ H3), H4,
      (tag_truth_total _ _ _ H5), H6, (tag_truth_total _ _ _ H7).
    reflexivity.
  - intros answer H. now apply check_kwargs_answer in H.
Qed.

Lemma check_kwargs_fields (kw : kwargs) (answer : string) :
  check_kwargs kw = Ok answer ->
  exists training_percent clean_type threshold method,
    kw_lookup "training_percent" kw = Some training_percent /\
    in_unit_interval training_percent = true /\
    kw_lookup "clean_type" kw = Some clean_type /\
    accepted_tag clean_type "value" "iqr" = true /\
    kw_lookup "threshold" kw = Some threshold /\
    is_int_or_float threshold = true /\
    kw_lookup "method" kw = Some method /\
    accepted_tag method "bfill" "ffill" = true.
Proof.
  intros H.
  apply check_kwargs_answer in H. destruct H as [-> H].
  unfold kwargs_valid in H.
  destruct (kw_lookup "point" kw) as [point|]; [|discriminate].
  destruct (kw_lookup "training_percent" kw) as [tp|]; [|discriminate].
  destruct (kw_lookup "clean_type" kw) as [ct|]; [|discriminate].
  destruct (kw_lookup "threshold" kw) as [th|]; [|discriminate].
  destruct (kw_lookup "model_type" kw) as [mt|]; [|discriminate].
  destruct (kw_lookup "train_on_residuals" kw) as [tr|]; [|discriminate].
  destruct (kw_lookup "method" kw) as [me|]; [|discriminate].
  rewrite !andb_true_iff in H.
  destruct H as [[[[[[H1 H2] H3] H4] H5] H6] H7].
  exists tp, ct, th, me. repeat split; assumption.
Qed.


(** X9.  [check_kwargs] compares the fill method by value, [decompose_data]
    by identity: an accepted method reaches the decomposition when it is the
    interned constant and is refused with [TypeError] when it is an equal
    string built otherwise. *)
Theorem checked_method_may_be_refused (kw : kwargs) (answer : string)
    (pipeline : Series -> PyObj -> result DataFrame) (s : Series) :
  check_kwargs kw = Ok answer ->
  s_index_kind s = DatetimeIndex ->
  exists interned m,
    kw_lookup "method" kw = Some (PyStr interned m) /\
    decompose_data pipeline (PySeries s) (PyStr interned m)
    = if interned then pipeline s (PyStr interned m)
      else Raise TypeError "Method needs to be of type either bfill or ffill.".
Proof.
  intros H Hk.
  destruct (check_kwargs_fields kw answer H)
    as (_ & _ & _ & me & _ & _ & _ & _ & _ & _ & Hme & Hacc).
  destruct me as [| c | z | x | i m | s']; cbn in Hacc; try discriminate.
  exists i, m. split; [exact Hme|].
  assert (Em : m = "bfill"%string \/ m = "ffill"%string).
  { apply orb_true_iff in Hacc.
    destruct Hacc as [E | E]; apply String.eqb_eq in E; auto. }
  destruct (decompose_data_accepts pipeline s m Hk Em) as [Ht Hf].
  destruct i; assumption.
Qed.


(* ================================================================== *)
(** ** split_and_clean *)
(* ================================================================== *)

Lemma combine_skipn {A B} (l : list A) (l' : list B) (n : nat) :
  skipn n (combine l l') = combine (skipn n l) (skipn n l').
Proof.
  revert l l'. induction n as [|n IH]; intros l l'; [reflexivity|].
  destruct l as [|a l]; [reflexivity|].
  destruct l' as [|b l']; simpl.
  - now destruct (skipn n l).
  - apply IH.
Qed.

Lemma py_slice_map {A B} (f : A -> B) (l : list A) (a b : Z) :
  py_slice (map f l) a b = map f (py_slice l a b).
Proof.
  unfold py_slice. rewrite length_map.
  now rewrite skipn_map, firstn_map.
Qed.

Lemma py_slice_combine {A B} (l : list A) (l' : list B) (a b : Z) :
  List.length l = List.length l' ->
  py_slice (combine l l') a b = combine (py_slice l a b) (py_slice l' a b).
Proof.
  intros H. unfold py_slice. rewrite length_combine, <- H, Nat.min_id.
  now rewrite combine_skipn, combine_firstn.
Qed.

Lemma map_float_cells (c : column) :
  float_column c = true -> map (fun x => CFloat (to_f64 x)) c = c.
Proof.
  induction c as [|x c IH]; simpl; [reflexivity|].
  intros H. apply andb_true_iff in H. destruct H as [Hx Hc].
  destruct x; [|discriminate]. simpl. now rewrite IH.
Qed.

Lemma frame_getitem_slice (df : DataFrame) (name : string) (col : column)
    (a b : Z) :
  lookup name (df_columns df) = Some col ->
  List.length col = nrows df ->
  frame_getitem (frame_slice df a b) name
  = Ok (mkSeries name DatetimeIndex
          (NumericData
             (py_slice (combine (df_index df) (map to_f64 col)) a b))).
Proof.
  intros Hl Hn. unfold frame_getitem, frame_slice. cbn [df_columns df_index].
  rewrite (lookup_map_values (fun c => py_slice c a b)), Hl. cbn [option_map].
  rewrite py_slice_combine by (rewrite length_map; symmetry; exact Hn).
  now rewrite py_slice_map.
Qed.

(** What [split_and_clean] computes once the column is found and the length
    of the training part is known. *)
Lemma split_and_clean_run (df : DataFrame) (kw : split_kwargs) (col : column)
    (k : Z) :
  lookup (kw_point kw) (df_columns df) = Some col ->
  List.length col = nrows df ->
  scaled_length (kw_training_percent kw) (nrows df) = Ok k ->
  split_and_clean df kw
  = let rows := combine (df_index df) (map to_f64 col) in
    let training :=
      mkSeries (kw_point kw) DatetimeIndex (NumericData (py_slice rows 0 k)) in
    let testing :=
      mkSeries (kw_point kw) DatetimeIndex
        (NumericData (py_slice rows k (Z.of_nat (nrows df)))) in
    match
      (if kw_clean_data kw
       then clean_data (PySeries training) (kw_threshold kw)
              (kw_clean_type kw) (kw_show_cutoff_plot kw) []
       else (Ok training, []))
    with
    | (Raise c m, log) => (Raise c m, map Cleaning log)
    | (Ok training, log) =>
      (Ok (to_frame (series_concat training testing)),
       map Cleaning log
       ++ (if kw_show_cleaned_plot kw
           then [CombinedPlot (kw_point kw) (series_len training)
                   (series_len testing)]
           else []))
    end.
Proof.
  intros Hl Hn Hk. unfold split_and_clean. rewrite Hk.
  rewrite !(frame_getitem_slice df _ col) by assumption.
  reflexivity.
Qed.

Lemma rows_length (df : DataFrame) (col : column) :
  List.length col = nrows df ->
  List.length (combine (df_index df) (map to_f64 col)) = nrows df.
Proof.
  intros H. rewrite length_combine, length_map, H. apply Nat.min_id.
Qed.

Lemma map_fst_rows (df : DataFrame) (col : column) :
  List.length col = nrows df ->
  map fst (combine (df_index df) (map to_f64 col)) = df_index df.
Proof.
  intros H. unfold nrows in H. revert col H.
  induction (df_index df) as [|t idx IH]; intros [|c col] H; simpl in *;
    try reflexivity; try discriminate.
  f_equal. apply IH. lia.
Qed.

Lemma map_snd_rows (df : DataFrame) (col : column) :
  List.length col = nrows df ->
  map (fun r => CFloat (snd r)) (combine (df_index df) (map to_f64 col))
  = map (fun x => CFloat (to_f64 x)) col.
Proof.
  intros H. unfold nrows in H. revert col H.
  induction (df_index df) as [|t idx IH]; intros [|c col] H; simpl in *;
    try reflexivity; try discriminate.
  f_equal. apply IH. lia.
Qed.

Lemma py_slice_split_at {A} (l : list A) (k : Z) (n : nat) :
  List.length l = n ->
  py_slice l 0 k ++ py_slice l k (Z.of_nat n) = l.
Proof. intros <-. apply py_slice_split. Qed.


Lemma scaled_length_Fin (f : Q) (n : nat) :
  scaled_length (NFloat (Fin f)) n
  = Ok (Qtrunc (fl64 (f * fl64 (inject_Z (Z.of_nat n))))).
Proof. reflexivity. Qed.

(** X12.  Without cleaning the training share has no effect on the result:
    the frame returned is the one column [point] of the table, all rows in
    their order. *)
Theorem split_and_clean_without_cleaning (df : DataFrame) (kw : split_kwargs)
    (col : column) (f : Q) :
  kw_clean_data kw = false ->
  kw_training_percent kw = NFloat (Fin f) -> (0 < f)%Q -> (f < 1)%Q ->
  lookup (kw_point kw) (df_columns df) = Some col ->
  List.length col = nrows df ->
  float_column col = true ->
  fst (split_and_clean df kw) = Ok (mkFrame (df_index df) [(kw_point kw, col)]).
Proof.
  intros Hc Hf _ _ Hl Hn Hfl.
  rewrite (split_and_clean_run df kw col _ Hl Hn
             (eq_trans (f_equal (fun p => scaled_length p (nrows df)) Hf)
                (scaled_length_Fin f (nrows df)))).
  cbv zeta. rewrite Hc. cbn [fst].
  unfold series_concat, with_data, to_frame.
  cbn [s_data s_name s_index_kind].
  rewrite (py_slice_split_at _ _ _ (rows_length df col Hn)).
  now rewrite map_fst_rows, map_snd_rows, map_float_cells.
Qed.

Lemma split_and_clean_without_cleaning_witness :
  fst (split_and_clean five_rows (five_rows_kwargs false)) = Ok five_rows.
Proof.
  apply (split_and_clean_without_cleaning five_rows (five_rows_kwargs false)
           [CFloat (Fin 10); CFloat (Fin 2000); CFloat NaN; CFloat (Fin 40);
            CFloat NaN]
           (fl64 (3 # 10))); reflexivity.
Defined.

Lemma rows_of_float_column (a : list Z) (b : column) :
  List.length a = List.length b ->
  float_column b = true ->
  map fst (combine a (map to_f64 b)) = a /\
  map (fun r => CFloat (snd r)) (combine a (map to_f64 b)) = b.
Proof.
  revert b. induction a as [|t a IH]; intros [|c b] Hab Hb; simpl in *;
    try (split; reflexivity); try discriminate.
  apply andb_true_iff in Hb. destruct Hb as [Hc Hb].
  destruct c; [|discriminate].
  destruct (IH b ltac:(lia) Hb) as [E1 E2]. simpl. now rewrite E1, E2.
Qed.

Lemma length_py_slice {A B} (l : list A) (l' : list B) (a b : Z) :
  List.length l = List.length l' ->
  List.length (py_slice l a b) = List.length (py_slice l' a b).
Proof.
  intros H. unfold py_slice. rewrite H, !length_firstn, !length_skipn. lia.
Qed.

Lemma float_column_py_slice (c : column) (a b : Z) :
  float_column c = true -> float_column (py_slice c a b) = true.
Proof.
  unfold float_column, py_slice. rewrite !forallb_forall.
  intros H x Hx. apply H.
  set (n := Z.to_nat (norm_index (Z.of_nat (List.length c)) a)) in *.
  set (m := Z.to_nat (norm_index (Z.of_nat (List.length c)) b
                      - norm_index (Z.of_nat (List.length c)) a)) in *.
  rewrite <- (firstn_skipn n c). apply in_or_app. right.
  rewrite <- (firstn_skipn m (skipn n c)). apply in_or_app. now left.
Qed.

(** X13.  With cleaning only the training rows are filtered: the frame
    returned holds the training rows that [clean_data] kept, none of them
    NaN, followed by every testing row as it is in the table. *)
Theorem split_and_clean_keeps_testing (df out : DataFrame)
    (kw : split_kwargs) (col : column) (f : Q) :
  kw_clean_data kw = true ->
  kw_training_percent kw = NFloat (Fin f) -> (0 < f)%Q -> (f < 1)%Q ->
  lookup (kw_point kw) (df_columns df) = Some col ->
  List.length col = nrows df ->
  float_column col = true ->
  fst (split_and_clean df kw) = Ok out ->
  exists k kept,
    scaled_length (kw_training_percent kw) (nrows df) = Ok k /\
    Subseq kept (py_slice (combine (df_index df) (map to_f64 col)) 0 k) /\
    (forall r, In r kept -> snd r <> NaN) /\
    out = mkFrame
            (map fst kept ++ py_slice (df_index df) k (Z.of_nat (nrows df)))
            [(kw_point kw,
              map (fun r => CFloat (snd r)) kept
              ++ py_slice col k (Z.of_nat (nrows df)))].
Proof.
  intros Hc Hf _ _ Hl Hn Hfl H.
  pose proof (eq_trans (f_equal (fun p => scaled_length p (nrows df)) Hf)
                (scaled_length_Fin f (nrows df))) as Hk.
  rewrite (split_and_clean_run df kw col _ Hl Hn Hk) in H.
  cbv zeta in H. rewrite Hc in H.
  match type of H with
  | context [clean_data ?d ?t ?c ?p ?l] =>
    destruct (clean_data d t c p l) as [[cleaned | cls msg] log] eqn:Hrun
  end; [|discriminate H].
  cbn [fst] in H. injection H as <-.
  pose proof (f_equal fst Hrun) as Hfst. cbn [fst] in Hfst.
  apply clean_data_success_run in Hfst.
  destruct Hfst as (s & rows & keep & Hs & Hd & Hkeep & ->).
  injection Hs as <-. cbn [s_data] in Hd. injection Hd as <-.
  eexists.
  match goal with
  | |- context [filter_rows keep ?R] => exists (filter_rows keep R)
  end.
  split; [exact Hk|].
  split; [apply filter_Subseq|].
  split; [now apply filter_rows_no_nan|].
  match goal with
  | |- context [filter_rows keep ?R] =>
    generalize (filter_rows keep R); intros kept
  end.
  unfold series_concat, with_data, to_frame.
  cbn [s_data s_name s_index_kind].
  rewrite !map_app.
  rewrite py_slice_combine by (rewrite length_map; symmetry; exact Hn).
  rewrite py_slice_map.
  destruct (rows_of_float_column
              (py_slice (df_index df)
                 (Qtrunc (fl64 (f * fl64 (inject_Z (Z.of_nat (nrows df))))))
                 (Z.of_nat (nrows df)))
              (py_slice col
                 (Qtrunc (fl64 (f * fl64 (inject_Z (Z.of_nat (nrows df))))))
                 (Z.of_nat (nrows df)))) as [-> ->]; [| |reflexivity].
  - apply length_py_slice. symmetry. exact Hn.
  - now apply float_column_py_slice.
Qed.


Lemma split_and_clean_keeps_testing_witness :
  exists k kept,
    scaled_length (NFloat (of_Q (3 # 10))) 5 = Ok k /\
    Subseq kept
      (py_slice
         (combine (hourly_index 5) [Fin 10; Fin 2000; NaN; Fin 40; NaN])
         0 k) /\
    (forall r, In r kept -> snd r <> NaN) /\
    mkFrame (skipn 1 (hourly_index 5))
      [("load"%string,
        [CFloat (Fin 2000); CFloat NaN; CFloat (Fin 40); CFloat NaN])]
    = mkFrame (map fst kept ++ py_slice (hourly_index 5) k 5)
        [("load"%string,
          map (fun r => CFloat (snd r)) kept
          ++ py_slice
               [CFloat (Fin 10); CFloat (Fin 2000); CFloat NaN;
                CFloat (Fin 40); CFloat NaN] k 5)].
Proof.
  apply (split_and_clean_keeps_testing five_rows _ (five_rows_kwargs true)
           [CFloat (Fin 10); CFloat (Fin 2000); CFloat NaN; CFloat (Fin 40);
            CFloat NaN]
           (fl64 (3 # 10)));
    try reflexivity; vm_compute; reflexivity.
Defined.








(** The two counts do differ: for the share 0.3 and five rows the float
    product is 1.5, the training part of [split_data] has two rows and
    that of [split_and_clean] one. *)
Example split_and_clean_truncates_example :
  snd (split_and_clean five_rows (five_rows_kwargs false))
  = [CombinedPlot "load" 1 4] /\
  option_map (fun p => series_len (fst p))
    (match split_data (PySeries five_rows_series) (PyFloat (of_Q (3 # 10)))
     with Ok p => Some p | Raise _ _ => None end) = Some 2%nat.
Proof. split; vm_compute; reflexivity. Qed.

(* ================================================================== *)
(** ** Witnesses of the checked arguments *)
(* ================================================================== *)


Lemma checked_method_may_be_refused_witness :
  exists interned m,
    kw_lookup "method" fixture_kwargs = Some (PyStr interned m) /\
    decompose_data no_decomposition (PySeries fixture_hourly)
      (PyStr interned m)
    = if interned then no_decomposition fixture_hourly (PyStr interned m)
      else Raise TypeError "Method needs to be of type either bfill or ffill.".
Proof.
  apply (checked_method_may_be_refused fixture_kwargs "Good values!"
           no_decomposition fixture_hourly);
    [vm_compute; reflexivity | reflexivity].
Defined.


(* ================================================================== *)
(** ** More on decompose_data *)
(* ================================================================== *)

(** X11.  The decomposition pipeline is reached only with a Series over a
    DatetimeIndex and a method that is the interned constant ['bfill'] or
    ['ffill']; every other call fails with a [TypeError] that does not
    depend on the pipeline. *)
Theorem decompose_data_gate
    (pipeline : Series -> PyObj -> result DataFrame) (data method : PyObj) :
  (exists s m,
     data = PySeries s /\ s_index_kind s = DatetimeIndex /\
     method = PyStr true m /\ (m = "bfill" \/ m = "ffill")%string /\
     decompose_data pipeline data method = pipeline s method) \/
  (exists msg,
     forall other : Series -> PyObj -> result DataFrame,
       decompose_data other data method = Raise TypeError msg).
Proof.
  destruct data as [| | | | |s];
    try (right; eexists; intros other; reflexivity).
  destruct (s_index_kind s) eqn:Hk.
  2:{ right. eexists. intros other. unfold decompose_data. now rewrite Hk. }
  destruct (negb (py_is_str method "bfill") && negb (py_is_str method "ffill"))
    eqn:E.
  - right. eexists. intros other. unfold decompose_data. now rewrite Hk, E.
  - left. exists s.
    destruct method as [| | | |[|] m|]; try discriminate E.
    exists m. split; [reflexivity|]. split; [exact Hk|].
    split; [reflexivity|]. split.
    + cbn [py_is_str] in E. apply andb_false_iff in E.
      destruct E as [E | E]; apply negb_false_iff, String.eqb_eq in E; auto.
    + unfold decompose_data. now rewrite Hk, E.
Qed.

(* ================================================================== *)
(** ** add_variable_to_df *)
(* ================================================================== *)

Lemma labels_set_col_eq (n : string) (v : column) (C : list (string * column)) :
  map fst (set_col n v C)
  = if existsb (fun l => String.eqb l n) (map fst C)
    then map fst C else map fst C ++ [n].
Proof.
  induction C as [|[l c] C IH]; simpl; [reflexivity|].
  destruct (String.eqb l n) eqn:E; simpl; [reflexivity|].
  rewrite IH. now destruct (existsb _ _).
Qed.

Lemma frame_assign_run (name : string) (values : column) (df : DataFrame) :
  List.length values = nrows df ->
  frame_assign name values df = (Ok tt, frame_setitem name values df).
Proof.
  intros H. unfold frame_assign. cbv zeta. rewrite H, Nat.eqb_refl.
  destruct (nrows df =? 0)%nat eqn:E; reflexivity.
Qed.

(** X16.  [add_variable_to_df] changes the caller's frame and returns that
    same frame: the index is kept, the column [col_name] holds the values of
    [fnc], every other column is as [fnc] left it, and the labels keep their
    order, a new name going to the end. *)
Theorem add_variable_to_df_sets_column (fnc : ST column) (col_name : string)
    (df after : DataFrame) (values : column) :
  fnc df = (Ok values, after) ->
  List.length values = nrows after ->
  exists out,
    add_variable_to_df fnc col_name df = (Ok out, out) /\
    df_index out = df_index after /\
    lookup col_name (df_columns out) = Some values /\
    (forall n, n <> col_name ->
               lookup n (df_columns out) = lookup n (df_columns after)) /\
    labels out
    = if existsb (fun l => String.eqb l col_name) (labels after)
      then labels after else labels after ++ [col_name].
Proof.
  intros Hf Hn. unfold add_variable_to_df, sbind. rewrite Hf.
  rewrite (frame_assign_run col_name values after Hn).
  eexists. split; [reflexivity|].
  unfold frame_setitem, labels. cbn [df_index df_columns].
  split; [reflexivity|]. split; [apply lookup_set_col_same|].
  split; [|apply labels_set_col_eq].
  intros n Hne. apply lookup_set_col_other.
  apply String.eqb_neq. congruence.
Qed.

Lemma add_variable_to_df_sets_column_witness :
  exists out,
    add_variable_to_df doubled_load "twice" five_rows = (Ok out, out) /\
    df_index out = df_index five_rows /\
    lookup "twice" (df_columns out)
    = Some [CFloat (Fin 20); CFloat (Fin 4000); CFloat NaN; CFloat (Fin 80);
            CFloat NaN] /\
    (forall n, n <> "twice"%string ->
               lookup n (df_columns out) = lookup n (df_columns five_rows)) /\
    labels out
    = if existsb (fun l => String.eqb l "twice") (labels five_rows)
      then labels five_rows else labels five_rows ++ ["twice"%string].
Proof.
  apply (add_variable_to_df_sets_column doubled_load "twice" five_rows
           five_rows); vm_compute; reflexivity.
Defined.

(** X17.  When [fnc] fails, or yields values that do not fit the rows of a
    frame that has rows, [add_variable_to_df] fails, with the exception of
    [fnc] or with [ValueError], and adds no column: the caller's frame is as
    [fnc] left it. *)
Theorem add_variable_to_df_failure (fnc : ST column) (col_name : string)
    (df after : DataFrame) (cls : exn_class) :
  (exists msg, fnc df = (Raise cls msg, after)) \/
  (exists values,
     fnc df = (Ok values, after) /\ nrows after <> 0%nat /\
     List.length values <> nrows after /\ cls = ValueError) ->
  snd (add_variable_to_df fnc col_name df) = after /\
  raised (fst (add_variable_to_df fnc col_name df)) = Some cls.
Proof.
  intros [(msg & Hf) | (values & Hf & H0 & Hn & ->)];
    unfold add_variable_to_df, sbind; rewrite Hf.
  - split; reflexivity.
  - unfold frame_assign. cbv zeta.
    apply Nat.eqb_neq in H0, Hn. rewrite H0, Hn. cbn [andb].
    split; reflexivity.
Qed.

Lemma add_variable_to_df_failure_witness :
  snd (add_variable_to_df one_value "flag" five_rows) = five_rows /\
  raised (fst (add_variable_to_df one_value "flag" five_rows))
  = Some ValueError.
Proof.
  apply (add_variable_to_df_failure one_value "flag" five_rows five_rows
           ValueError).
  right. exists [CInt 1]. repeat split; vm_compute; congruence.
Defined.

(* ================================================================== *)
(** ** clean_train_data *)
(* ================================================================== *)

Lemma evaluate_all_trace {value : Type}
    (pd_eval : DataFrame -> list string -> list value -> string
               -> result value)
    (df : DataFrame) (all : list string) (exps : list string) :
  forall (done : list value) (log : list event),
    exists j,
      (j <= List.length exps)%nat /\
      snd (evaluate_all value pd_eval df all done exps log)
      = log ++ map evaluating (firstn j exps) /\
      match fst (evaluate_all value pd_eval df all done exps log) with
      | Ok vs =>
        j = List.length exps /\
        List.length vs = (List.length done + List.length exps)%nat
      | Raise cls msg =>
        (0 < j)%nat /\
        exists seen,
          List.length seen = (List.length done + (j - 1))%nat /\
          pd_eval df all seen (nth (j - 1) exps EmptyString) = Raise cls msg
      end.
Proof.
  induction exps as [|exp rest IH]; intros done log.
  - exists 0%nat. cbn. rewrite app_nil_r. repeat split; lia.
  - cbn [evaluate_all]. unfold mbind, emit, lift.
    destruct (pd_eval df all done exp) as [v | cls msg] eqn:Hv.
    + destruct (IH (done ++ [v]) (log ++ [Print ("Evaluating: " ++ exp)]))
        as (j & Hj & Hlog & Hres).
      exists (S j). split; [cbn; lia|]. split.
      * rewrite Hlog. cbn [firstn map]. now rewrite <- app_assoc.
      * destruct (fst (evaluate_all value pd_eval df all (done ++ [v]) rest
                         (log ++ [Print ("Evaluating: " ++ exp)])))
          as [vs | cls msg].
        -- destruct Hres as [-> Hlen]. rewrite length_app in Hlen.
           cbn in *. split; lia.
        -- destruct Hres as (Hpos & seen & Hlen & Hfail).
           split; [lia|]. exists seen. rewrite length_app in Hlen.
           cbn [List.length] in Hlen. split; [lia|].
           replace (S j - 1)%nat with (S (j - 1)) by lia. exact Hfail.
    + exists 1%nat. cbn [fst snd]. split; [cbn; lia|]. split.
      * cbn [firstn map]. reflexivity.
      * split; [lia|]. exists done. split; [lia|]. exact Hv.
Qed.

(** X18.  [clean_train_data] with expressions prints one line per expression
    it evaluates, in their order and before the evaluation, and stops at the
    first expression that fails: all the lines are printed when it returns,
    and a single value is returned for one expression, a tuple of as many
    values as expressions otherwise; on a failure the lines end with that of
    the failing expression. *)
Theorem clean_train_data_trace {value : Type}
    (pd_eval : DataFrame -> list string -> list value -> string
               -> result value)
    (df : DataFrame) (exps : list string) (log : list event) :
  exps <> [] ->
  exists j,
    (1 <= j <= List.length exps)%nat /\
    snd (clean_train_data value pd_eval df (Some exps) log)
    = log ++ map evaluating (firstn j exps) /\
    match fst (clean_train_data value pd_eval df (Some exps) log) with
    | Ok (TheFrame _ _) => False
    | Ok (OneValue _ _) => j = 1%nat /\ List.length exps = 1%nat
    | Ok (ValueTuple _ vs) =>
      j = List.length exps /\ List.length vs = List.length exps /\
      (1 < List.length exps)%nat
    | Raise cls msg =>
      exists seen,
        List.length seen = (j - 1)%nat /\
        pd_eval df exps seen (nth (j - 1) exps EmptyString) = Raise cls msg
    end.
Proof.
  intros Hne. destruct exps as [|exp rest]; [congruence|].
  destruct (evaluate_all_trace pd_eval df (exp :: rest) (exp :: rest) [] log)
    as (j & Hj & Hlog & Hres).
  exists j. unfold clean_train_data, mbind.
  destruct (evaluate_all value pd_eval df (exp :: rest) [] (exp :: rest) log)
    as [[vs | cls msg] log'] eqn:Hrun; cbn [fst snd] in *.
  - destruct Hres as [-> Hlen]. cbn [List.length plus] in Hlen.
    destruct (1 <? List.length (exp :: rest))%nat eqn:E.
    + apply Nat.ltb_lt in E. cbn [ret fst snd].
      split; [cbn [List.length] in *; lia|]. split; [exact Hlog|].
      repeat split; [exact Hlen | exact E].
    + apply Nat.ltb_ge in E. cbn [List.length] in E, Hlen.
      destruct vs as [|v vs]; [cbn in Hlen; lia|].
      cbn [ret fst snd]. split; [cbn [List.length]; lia|].
      split; [exact Hlog|]. cbn [List.length]. split; lia.
  - destruct Hres as (Hpos & seen & Hlen & Hfail).
    split; [lia|]. split; [exact Hlog|].
    exists seen. split; [exact Hlen | exact Hfail].
Qed.

Lemma clean_train_data_trace_witness :
  exists j,
    (1 <= j <= 3)%nat /\
    snd (clean_train_data nat eval_length five_rows
           (Some ["a + b"; ""; "c"]%string) [])
    = map evaluating (firstn j ["a + b"; ""; "c"]%string) /\
    exists seen,
      List.length seen = (j - 1)%nat /\
      eval_length five_rows ["a + b"; ""; "c"]%string seen
        (nth (j - 1) ["a + b"; ""; "c"]%string EmptyString)
      = Raise ValueError "expr cannot be an empty string".
Proof.
  apply (clean_train_data_trace eval_length five_rows
           ["a + b"; ""; "c"]%string []).
  discriminate.
Defined.

(** Without expressions, and an empty list counts as none,
    [clean_train_data] prints one line and returns the frame it was
    given. *)
Lemma clean_train_data_no_expression {value : Type}
    (pd_eval : DataFrame -> list string -> list value -> string
               -> result value)
    (df : DataFrame) (eval_expression : option (list string))
    (log : list event) :
  eval_expression = None \/ eval_expression = Some [] ->
  clean_train_data value pd_eval df eval_expression log
  = (Ok (TheFrame value df), log ++ [Print "No expression passed"]).
Proof. intros [-> | ->]; reflexivity. Qed.

(* ================================================================== *)
(** ** More on create_standard_multivariable_df *)
(* ================================================================== *)

Lemma weekend_cells (idx : list Z) :
  zip_with (fun (b : bool) c => if b then CInt 1 else c)
    (zip_with orb
       (map (fun c => cell_eq_int c 1) (field_indicator Calendar.weekday idx 5))
       (map (fun c => cell_eq_int c 1) (field_indicator Calendar.weekday idx 6)))
    (repeat (CInt 0) (List.length idx))
  = map weekend_of idx.
Proof.
  induction idx as [|t idx IH]; [reflexivity|].
  cbn [field_indicator map zip_with List.length repeat].
  unfold field_indicator in IH. rewrite IH. f_equal.
  unfold weekend_of, indicator, cell_eq_int.
  destruct (Calendar.weekday t =? 5); destruct (Calendar.weekday t =? 6);
    reflexivity.
Qed.

Lemma positions_set_col (m : string) (v : column)
    (C C' : list (string * column)) :
  (List.length C <= List.length C')%nat /\
  (forall p, (p < List.length C)%nat ->
             fst (nth p C' (EmptyString, [])) = fst (nth p C (EmptyString, []))) ->
  (List.length C <= List.length (set_col m v C'))%nat /\
  (forall p, (p < List.length C)%nat ->
             fst (nth p (set_col m v C') (EmptyString, []))
             = fst (nth p C (EmptyString, []))).
Proof.
  intros [Hlen Hpos]. split; [now apply length_set_col_le|].
  intros p Hp. rewrite <- (Hpos p Hp).
  assert (Hp' : (p < List.length C')%nat) by lia. clear - Hp'.
  revert p Hp'. induction C' as [|[l c] C' IH]; intros p Hp; simpl in *; [lia|].
  destruct (String.eqb l m); destruct p as [|p]; try reflexivity.
  simpl. apply IH. lia.
Qed.

Lemma lookup_None_not (n : string) (C : list (string * column)) :
  lookup n C <> None -> In n (map fst C).
Proof.
  intros H. destruct (in_dec string_dec n (map fst C)) as [I | I]; [exact I|].
  apply lookup_None in I. congruence.
Qed.

Ltac others H :=
  repeat (rewrite lookup_set_col_other
            by (apply String.eqb_neq; intros <-; apply H; cbn; tauto)).

Lemma labels_set_col_add (n : string) (v : column)
    (C : list (string * column)) :
  map fst (set_col n v C) = add_label n (map fst C).
Proof. apply labels_set_col_eq. Qed.

Lemma existsb_label_false (n : string) (L : list string) :
  ~ In n L -> existsb (fun l => String.eqb l n) L = false.
Proof.
  intros H. destruct (existsb (fun l => String.eqb l n) L) eqn:E;
    [|reflexivity].
  exfalso. apply H. apply existsb_exists in E. destruct E as (l & Hl & El).
  apply String.eqb_eq in El. now subst l.
Qed.

Lemma add_label_old (n : string) (L X : list string) :
  In n L -> add_label n (L ++ X) = L ++ X.
Proof.
  intros H. unfold add_label. rewrite existsb_app.
  assert (E : existsb (fun l => String.eqb l n) L = true).
  { apply existsb_exists. exists n. split; [exact H | apply String.eqb_refl]. }
  now rewrite E.
Qed.

Lemma add_label_new (n : string) (L X : list string) :
  ~ In n L -> add_label n (L ++ X) = L ++ add_label n X.
Proof.
  intros H. unfold add_label. rewrite existsb_app, (existsb_label_false n L H).
  cbn [orb]. destruct (existsb _ X); [reflexivity | now rewrite app_assoc].
Qed.

(** The labels after a chain of assignments to a frame whose labels are
    [L]: an assignment to OAT keeps them, one to a generated name adds it
    once. *)
Ltac labels_chain L Hin Hfresh :=
  rewrite ?labels_set_col_add;
  repeat
    match goal with
    | |- context [add_label ?n (L ++ ?X)] =>
      first
        [ rewrite (add_label_old n L X) by exact Hin
        | rewrite (add_label_new n L X)
            by (apply Hfresh; cbn;
                repeat first [left; reflexivity | right]);
          let r := eval vm_compute in (add_label n X) in
          change (add_label n X) with r ]
    end.

Lemma features_prefix (df : DataFrame) (pl shift : Z) (rename dropna : bool)
    (idx : list Z) (C : list (string * column)) (oat : column) :
  entry_frame rename df = mkFrame idx C ->
  lookup "OAT" C = Some oat ->
  NoDup (map fst C) ->
  Unreserved C ->
  exists C5,
    create_standard_multivariable_df pl shift rename dropna df
    = (sfor (seq 0 (Z.to_nat shift))
         (fun i =>
            let shift_col := ("SHIFT_" ++ str_of_Z (Z.of_nat i + 1))%string in
            df <- sget ;;
            base <- slift (frame_iloc df pl) ;;
            setitem shift_col (shift_cells (S i) base)) ;;
       df <- sget ;;
       let df :=
         concat_columns df
           [mkFrame idx
              (indicator_columns "MONTH_" Calendar.month idx (range 2 11));
            mkFrame idx
              (indicator_columns "TOD_" Calendar.hour idx (range 1 23));
            mkFrame idx
              (indicator_columns "DOW_" Calendar.weekday idx (range 1 6))] in
       df <- slift (drop_labels ["MONTH"; "TOD"; "DOW"]%string df) ;;
       let df := if dropna then dropna_rows df else df in
       sret df)%st (mkFrame idx C5) /\
    lookup "OAT" C5 = Some (map cell_round oat) /\
    lookup "CDD" C5 = Some (map cdd_of oat) /\
    lookup "HDD" C5 = Some (map hdd_of oat) /\
    lookup "CDD2" C5 = Some (map cdd2_of oat) /\
    lookup "HDD2" C5 = Some (map hdd2_of oat) /\
    lookup "MONTH" C5 = Some (map (fun t => CInt (Calendar.month t)) idx) /\
    lookup "TOD" C5 = Some (map (fun t => CInt (Calendar.hour t)) idx) /\
    lookup "DOW" C5 = Some (map (fun t => CInt (Calendar.weekday t)) idx) /\
    lookup "WEEKEND" C5 = Some (map weekend_of idx) /\
    (forall n, ~ In n generated_names -> lookup n C5 = lookup n C) /\
    NoDup (map fst C5) /\
    Unreserved C5 /\
    (List.length C <= List.length C5)%nat /\
    (forall p, (p < List.length C)%nat ->
               fst (nth p C5 (EmptyString, []))
               = fst (nth p C (EmptyString, []))) /\
    (forall n, In n (map fst C5) ->
               In n (map fst C) \/ In n (tl generated_names)) /\
    ((forall n, In n (tl generated_names) -> ~ In n (map fst C)) ->
     map fst C5
     = map fst C
       ++ ["CDD"; "HDD"; "CDD2"; "HDD2"; "MONTH"; "TOD"; "DOW"; "WEEKEND"]%string).
Proof.
  intros HE Hoat Hnd Hun.
  unfold create_standard_multivariable_df.
  rewrite run_entry. fold (entry_frame rename df). rewrite HE. cbv beta.
  do 22 step.
  rewrite !degree_day_cells, !degree_day_squares.
  match goal with |- context [sbind _ _ (mkFrame idx ?T)] => set (C1 := T) end.
  assert (Hoat1 : lookup "OAT" C1 = Some (map cell_round oat))
    by (subst C1; look).
  assert (Hcdd : lookup "CDD" C1 = Some (map cdd_of oat)) by (subst C1; look).
  assert (Hhdd : lookup "HDD" C1 = Some (map hdd_of oat)) by (subst C1; look).
  assert (Hcdd2 : lookup "CDD2" C1 = Some (map cdd2_of oat)) by (subst C1; look).
  assert (Hhdd2 : lookup "HDD2" C1 = Some (map hdd2_of oat)) by (subst C1; look).
  assert (Hoth1 : forall n, ~ In n generated_names -> lookup n C1 = lookup n C).
  { intros n Hn. subst C1. others Hn. reflexivity. }
  assert (Hnd1 : NoDup (map fst C1))
    by (subst C1; repeat apply NoDup_set_col; exact Hnd).
  assert (Hun1 : Unreserved C1)
    by (subst C1; repeat (apply Unreserved_set_col; [reflexivity|]); exact Hun).
  assert (Hpos1 :
            (List.length C <= List.length C1)%nat /\
            (forall p, (p < List.length C)%nat ->
                       fst (nth p C1 (EmptyString, []))
                       = fst (nth p C (EmptyString, [])))).
  { subst C1. repeat apply positions_set_col. split; [lia | reflexivity]. }
  assert (Hlab1 : forall n, In n (map fst C1) ->
                            In n (map fst C) \/ In n (tl generated_names)).
  { intros n Hn. subst C1.
    repeat (apply labels_set_col in Hn;
            destruct Hn as [-> | Hn];
            [first [ right; cbn; tauto
                   | left; apply lookup_None_not; now rewrite Hoat ]|]).
    now left. }
  assert (Hin : In "OAT"%string (map fst C))
    by (apply lookup_None_not; now rewrite Hoat).
  assert (Hlabs1 : (forall n, In n (tl generated_names) -> ~ In n (map fst C)) ->
                   map fst C1
                   = map fst C ++ ["CDD"; "HDD"; "CDD2"; "HDD2"]%string).
  { intros Hfresh. subst C1.
    rewrite !labels_set_col_add.
    rewrite <- (app_nil_r (map fst C)).
    labels_chain (map fst C) Hin Hfresh. now rewrite app_nil_r. }
  clearbody C1.
  (* the month group *)
  do 5 step.
  match goal with |- context [sbind _ _ (mkFrame idx ?T)] => set (C2 := T) end.
  assert (HM : dummy_frame (mkFrame idx C2) "MONTH" month_names
               = Ok (mkFrame idx (indicator_columns "MONTH_" Calendar.month idx
                                    (range 2 11)))).
  { apply (dummy_frame_field idx C2 "MONTH" 1 11 Calendar.month).
    - subst C2; look.
    - subst C2; repeat apply NoDup_set_col; exact Hnd1.
    - intros t _. pose proof (month_range t). lia.
    - intros x Hx. apply Unreserved_fresh.
      + apply (reserved_group _ 1 12); [reflexivity | exact Hx].
      + subst C2; repeat (apply Unreserved_set_col; [reflexivity|]); exact Hun1. }
  rewrite (run_slift _ _ _ _ HM). cbv beta. clear HM.
  (* the hour group *)
  do 5 step.
  match goal with |- context [sbind _ _ (mkFrame idx ?T)] => set (C3 := T) end.
  assert (HT : dummy_frame (mkFrame idx C3) "TOD" tod_names
               = Ok (mkFrame idx (indicator_columns "TOD_" Calendar.hour idx
                                    (range 1 23)))).
  { apply (dummy_frame_field idx C3 "TOD" 0 23 Calendar.hour).
    - subst C3; look.
    - subst C3 C2; repeat apply NoDup_set_col; exact Hnd1.
    - intros t _. pose proof (hour_range t). lia.
    - intros x Hx. apply Unreserved_fresh.
      + apply (reserved_group _ 0 24); [reflexivity | exact Hx].
      + subst C3 C2; repeat (apply Unreserved_set_col; [reflexivity|]);
          exact Hun1. }
  rewrite (run_slift _ _ _ _ HT). cbv beta. clear HT.
  (* the weekday group *)
  do 5 step.
  match goal with |- context [sbind _ _ (mkFrame idx ?T)] => set (C4 := T) end.
  assert (HD : dummy_frame (mkFrame idx C4) "DOW" dow_names
               = Ok (mkFrame idx (indicator_columns "DOW_" Calendar.weekday idx
                                    (range 1 6)))).
  { apply (dummy_frame_field idx C4 "DOW" 0 6 Calendar.weekday).
    - subst C4; look.
    - subst C4 C3 C2; repeat apply NoDup_set_col; exact Hnd1.
    - intros t _. pose proof (weekday_range t). lia.
    - intros x Hx. apply Unreserved_fresh.
      + apply (reserved_group _ 0 7); [reflexivity | exact Hx].
      + subst C4 C3 C2; repeat (apply Unreserved_set_col; [reflexivity|]);
          exact Hun1. }
  rewrite (run_slift _ _ _ _ HD). cbv beta. clear HD.
  (* the weekend flag *)
  do 2 step.
  rewrite (run_slift _ (field_indicator Calendar.weekday idx 5))
    by reflexivity.
  cbv beta.
  rewrite (run_slift _ (field_indicator Calendar.weekday idx 6))
    by reflexivity.
  cbv beta.
  step.
  unfold nrows. cbn [df_index]. rewrite weekend_cells.
  match goal with |- context [sbind _ _ (mkFrame idx ?T)] => set (C5 := T) end.
  exists C5. split; [reflexivity|].
  split; [subst C5 C4 C3 C2; look|].
  split; [subst C5 C4 C3 C2; look|].
  split; [subst C5 C4 C3 C2; look|].
  split; [subst C5 C4 C3 C2; look|].
  split; [subst C5 C4 C3 C2; look|].
  split; [subst C5 C4 C3 C2; look|].
  split; [subst C5 C4 C3 C2; look|].
  split; [subst C5 C4 C3 C2; look|].
  split; [subst C5 C4 C3 C2; look|].
  split.
  { intros n Hn. subst C5 C4 C3 C2. others Hn. now apply Hoth1. }
  split; [subst C5 C4 C3 C2; repeat apply NoDup_set_col; exact Hnd1|].
  split.
  { subst C5 C4 C3 C2; repeat (apply Unreserved_set_col; [reflexivity|]);
      exact Hun1. }
  assert (Hpos5 :
            (List.length C <= List.length C5)%nat /\
            (forall p, (p < List.length C)%nat ->
                       fst (nth p C5 (EmptyString, []))
                       = fst (nth p C (EmptyString, []))))
    by (subst C5 C4 C3 C2; repeat apply positions_set_col; exact Hpos1).
  split; [exact (proj1 Hpos5)|]. split; [exact (proj2 Hpos5)|].
  clear Hpos5.
  split.
  { intros n Hn. subst C5 C4 C3 C2.
    repeat (apply labels_set_col in Hn;
            destruct Hn as [-> | Hn]; [right; cbn; tauto|]).
    now apply Hlab1. }
  intros Hfresh. subst C5 C4 C3 C2.
  rewrite !labels_set_col_add, (Hlabs1 Hfresh).
  labels_chain (map fst C) Hin Hfresh. reflexivity.
Qed.

Lemma shift_name_unreserved (s : string) : reserved ("SHIFT_" ++ s) = false.
Proof.
  destruct (reserved ("SHIFT_" ++ s)) eqn:E; [|reflexivity]. exfalso.
  assert (F : forallb (fun n => negb (has_prefix "SHIFT_" n)) reserved_names
              = true) by reflexivity.
  unfold reserved in E. apply existsb_exists in E.
  destruct E as (n & Hn & En). apply String.eqb_eq in En. subst n.
  apply (proj1 (forallb_forall _ _) F) in Hn.
  rewrite shift_name_prefix in Hn. discriminate Hn.
Qed.

Lemma nth_set_col_other (m : string) (v : column) (C : list (string * column))
    (p : nat) :
  (p < List.length C)%nat ->
  fst (nth p C (EmptyString, [])) <> m ->
  nth p (set_col m v C) (EmptyString, []) = nth p C (EmptyString, []).
Proof.
  revert p. induction C as [|[l c] C IH]; intros p Hp Hne; simpl in *; [lia|].
  destruct (String.eqb_spec l m) as [-> | N].
  - destruct p; [simpl in Hne; congruence | reflexivity].
  - destruct p; [reflexivity|]. simpl. apply IH; [lia | exact Hne].
Qed.

Lemma lookup_nth (C : list (string * column)) (p : nat) :
  NoDup (map fst C) -> (p < List.length C)%nat ->
  lookup (fst (nth p C (EmptyString, []))) C
  = Some (snd (nth p C (EmptyString, []))).
Proof.
  revert p. induction C as [|[l c] C IH]; intros p Hnd Hp; simpl in *; [lia|].
  inversion Hnd as [|? ? Hnotin Hnd']; subst.
  destruct p as [|p]; cbn [fst snd].
  - now rewrite String.eqb_refl.
  - destruct (String.eqb_spec l (fst (nth p C (EmptyString, [])))) as [E | _].
    + exfalso. apply Hnotin. rewrite E. apply in_map, nth_In. lia.
    + apply IH; [exact Hnd' | lia].
Qed.

Lemma frame_iloc_nonneg (idx : list Z) (C : list (string * column)) (pl : Z) :
  0 <= pl < Z.of_nat (List.length C) ->
  frame_iloc (mkFrame idx C) pl
  = Ok (snd (nth (Z.to_nat pl) C (EmptyString, []))).
Proof.
  intros H. unfold frame_iloc. cbn [df_columns].
  destruct (- Z.of_nat (List.length C) <=? pl) eqn:E1; [|lia].
  destruct (pl <? Z.of_nat (List.length C)) eqn:E2; [|lia].
  destruct (pl <? 0) eqn:E3; [lia|]. reflexivity.
Qed.

Lemma shift_loop_state (pl : Z) (idx : list Z) (l : list nat) :
  forall C : list (string * column),
    l = [] \/
    - Z.of_nat (List.length C) <= pl < Z.of_nat (List.length C) ->
    exists CF,
      sfor l
        (fun i =>
           let shift_col := ("SHIFT_" ++ str_of_Z (Z.of_nat i + 1))%string in
           sbind sget (fun df =>
           sbind (slift (frame_iloc df pl)) (fun base =>
           setitem shift_col (shift_cells (S i) base))))
        (mkFrame idx C)
      = (Ok tt, mkFrame idx CF) /\
      (forall n,
         (forall j, In j l -> n <> ("SHIFT_" ++ str_of_Z (Z.of_nat j + 1))%string) ->
         lookup n CF = lookup n C) /\
      (NoDup (map fst C) -> NoDup (map fst CF)) /\
      (Unreserved C -> Unreserved CF) /\
      (0 <= pl ->
       has_prefix "SHIFT_" (fst (nth (Z.to_nat pl) C (EmptyString, []))) = false ->
       NoDup l ->
       forall i, In i l ->
         lookup ("SHIFT_" ++ str_of_Z (Z.of_nat i + 1)) CF
         = Some (shift_cells (S i)
                   (snd (nth (Z.to_nat pl) C (EmptyString, []))))) /\
      (NoDup l ->
       (forall j, In j l ->
          ~ In ("SHIFT_" ++ str_of_Z (Z.of_nat j + 1))%string (map fst C)) ->
       map fst CF
       = map fst C
         ++ map (fun j => ("SHIFT_" ++ str_of_Z (Z.of_nat j + 1))%string) l).
Proof.
  induction l as [|i l IH]; intros C Hpl.
  - exists C. repeat split; auto.
    + intros _ _ _ i [].
    + intros _ _. cbn. now rewrite app_nil_r.
  - destruct Hpl as [Hnil | Hpl]; [discriminate|].
    set (name := ("SHIFT_" ++ str_of_Z (Z.of_nat i + 1))%string).
    assert (Hiloc : exists base, frame_iloc (mkFrame idx C) pl = Ok base).
    { unfold frame_iloc. cbn [df_columns].
      destruct ((- Z.of_nat (List.length C) <=? pl)
                && (pl <? Z.of_nat (List.length C))) eqn:E.
      - eexists. reflexivity.
      - apply andb_false_iff in E. destruct E as [E | E]; lia. }
    destruct Hiloc as (base & Hbase).
    destruct (IH (set_col name (shift_cells (S i) base) C))
      as (CF & Hrun & Hlk & Hnd & Hun & Hcols & Hlabs).
    { right. pose proof (length_set_col name (shift_cells (S i) base) C). lia. }
    exists CF. split; [|split; [|split; [|split; [|split]]]].
    + cbn [sfor]. cbv zeta. fold name.
      unfold sbind at 1. rewrite run_sget. rewrite (run_slift _ _ _ _ Hbase).
      unfold setitem, modify, frame_setitem. cbn [df_index df_columns].
      exact Hrun.
    + intros n Hn. rewrite (Hlk n (fun j Hj => Hn j (or_intror Hj))).
      apply lookup_set_col_other. apply String.eqb_neq.
      intros E. apply (Hn i (or_introl eq_refl)). now rewrite <- E.
    + intros H. now apply Hnd, NoDup_set_col.
    + intros H. apply Hun, Unreserved_set_col; [|exact H].
      apply shift_name_unreserved.
    + intros H0 Hpre Hndl i' Hi'.
      inversion Hndl as [|? ? Hnotin Hndl']; subst.
      assert (Hp : (Z.to_nat pl < List.length C)%nat) by lia.
      assert (Hne : fst (nth (Z.to_nat pl) C (EmptyString, [])) <> name).
      { intros E. rewrite E in Hpre. unfold name in Hpre.
        rewrite shift_name_prefix in Hpre. discriminate Hpre. }
      pose proof (nth_set_col_other name (shift_cells (S i) base) C _ Hp Hne)
        as Hnth.
      rewrite frame_iloc_nonneg in Hbase by lia. injection Hbase as Hbase.
      destruct Hi' as [<- | Hi'].
      * fold name. rewrite Hlk.
        -- rewrite lookup_set_col_same. now rewrite Hbase.
        -- intros j Hj E. unfold name in E.
           apply (append_inj_r "SHIFT_"), str_of_Z_inj in E.
           apply Hnotin. replace i with j by lia. exact Hj.
      * rewrite <- Hnth. apply Hcols; [exact H0 | | exact Hndl' | exact Hi'].
        now rewrite Hnth.
    + intros Hndl Hfresh.
      inversion Hndl as [|? ? Hnotin Hndl']; subst.
      assert (Hnew : map fst (set_col name (shift_cells (S i) base) C)
                     = map fst C ++ [name]).
      { rewrite labels_set_col_eq, existsb_label_false; [reflexivity|].
        apply Hfresh. now left. }
      rewrite Hlabs; [| exact Hndl' |].
      * rewrite Hnew, <- app_assoc. reflexivity.
      * intros j Hj I. rewrite Hnew in I. apply in_app_or in I.
        destruct I as [I | [E | []]].
        -- apply (Hfresh j (or_intror Hj) I).
        -- unfold name in E.
           apply (append_inj_r "SHIFT_"), str_of_Z_inj in E.
           apply Hnotin. replace i with j by lia. exact Hj.
Qed.

(** The run of the feature builder on a table it accepts, with the frame of
    the caller at the end. *)
Lemma features_state (df : DataFrame) (pl shift : Z) (rename dropna : bool)
    (idx : list Z) (C : list (string * column)) (oat : column) :
  entry_frame rename df = mkFrame idx C ->
  lookup "OAT" C = Some oat ->
  NoDup (map fst C) ->
  Unreserved C ->
  shift <= 0 \/ - Z.of_nat (List.length C) <= pl < Z.of_nat (List.length C) ->
  exists CF,
    create_standard_multivariable_df pl shift rename dropna df
    = (Ok (let F :=
             mkFrame idx
               (remove_label "DOW" (remove_label "TOD" (remove_label "MONTH" CF))
                ++ indicator_columns "MONTH_" Calendar.month idx (range 2 11)
                ++ indicator_columns "TOD_" Calendar.hour idx (range 1 23)
                ++ indicator_columns "DOW_" Calendar.weekday idx (range 1 6)) in
           if dropna then dropna_rows F else F),
       mkFrame idx CF) /\
    lookup "OAT" CF = Some (map cell_round oat) /\
    lookup "MONTH" CF = Some (map (fun t => CInt (Calendar.month t)) idx) /\
    lookup "TOD" CF = Some (map (fun t => CInt (Calendar.hour t)) idx) /\
    lookup "DOW" CF = Some (map (fun t => CInt (Calendar.weekday t)) idx) /\
    lookup "WEEKEND" CF = Some (map weekend_of idx) /\
    (forall n, ~ In n generated_names -> has_prefix "SHIFT_" n = false ->
               lookup n CF = lookup n C) /\
    (0 <= pl ->
     has_prefix "SHIFT_" (fst (nth (Z.to_nat pl) C (EmptyString, []))) = false ->
     forall i, (i < Z.to_nat shift)%nat ->
       exists base,
         lookup (fst (nth (Z.to_nat pl) C (EmptyString, []))) CF = Some base /\
         lookup ("SHIFT_" ++ str_of_Z (Z.of_nat i + 1)) CF
         = Some (shift_cells (S i) base)) /\
    ((forall n, In n (tl generated_names) -> ~ In n (map fst C)) ->
     (forall n, In n (map fst C) -> has_prefix "SHIFT_" n = false) ->
     map fst CF
     = map fst C
       ++ ["CDD"; "HDD"; "CDD2"; "HDD2"; "MONTH"; "TOD"; "DOW"; "WEEKEND"]%string
       ++ map (fun j => ("SHIFT_" ++ str_of_Z (Z.of_nat j + 1))%string)
            (seq 0 (Z.to_nat shift))) /\
    NoDup (map fst CF) /\
    lookup "CDD" CF = Some (map cdd_of oat) /\
    lookup "HDD" CF = Some (map hdd_of oat) /\
    lookup "CDD2" CF = Some (map cdd2_of oat) /\
    lookup "HDD2" CF = Some (map hdd2_of oat).
Proof.
  intros HE Hoat Hnd Hun Hpl.
  destruct (features_prefix df pl shift rename dropna idx C oat HE Hoat Hnd Hun)
    as (C5 & Hrun & Hoat5 & Hcdd5 & Hhdd5 & Hcdd25 & Hhdd25 & Hmon5 & Htod5
        & Hdow5 & Hwe5 & Hoth5 & Hnd5 & Hun5 & Hlen5 & Hpos5 & _ & Hlabs5).
  rewrite Hrun. clear Hrun.
  destruct (shift_loop_state pl idx (seq 0 (Z.to_nat shift)) C5)
    as (CF & Hloop & Hlk & HndF & HunF & Hcols & HlabsF).
  { destruct Hpl as [Hs | Hp]; [left | right; lia].
    now replace (Z.to_nat shift) with 0%nat by lia. }
  assert (Hkeep : forall n, has_prefix "SHIFT_" n = false ->
                            lookup n CF = lookup n C5).
  { intros n Hn. apply Hlk. intros j _ E. rewrite E in Hn.
    rewrite shift_name_prefix in Hn. discriminate Hn. }
  erewrite run_seq by exact Hloop. cbv beta.
  exists CF.
  rewrite run_sget. cbv beta zeta.
  erewrite run_slift.
  2:{ unfold concat_columns. cbn [flat_map df_columns df_index].
      rewrite app_nil_r.
      apply (drop_three idx CF _
               (map (fun t => CInt (Calendar.month t)) idx)
               (map (fun t => CInt (Calendar.hour t)) idx)
               (map (fun t => CInt (Calendar.weekday t)) idx)).
      - now rewrite Hkeep by reflexivity.
      - now rewrite Hkeep by reflexivity.
      - now rewrite Hkeep by reflexivity.
      - intros n Hn. rewrite !map_app, !labels_indicator_columns.
        cbn in Hn. cbv.
        intuition (subst; discriminate). }
  cbv beta.
  split; [reflexivity|].
  rewrite !Hkeep by reflexivity.
  split; [exact Hoat5|]. split; [exact Hmon5|]. split; [exact Htod5|].
  split; [exact Hdow5|]. split; [exact Hwe5|].
  split.
  { intros n Hn Hp. rewrite (Hkeep n Hp). now apply Hoth5. }
  split.
  { intros H0 Hpre i Hi.
    assert (Hp : (Z.to_nat pl < List.length C)%nat) by lia.
    exists (snd (nth (Z.to_nat pl) C5 (EmptyString, []))).
    split.
    - rewrite (Hkeep _ Hpre), <- (Hpos5 _ Hp).
      apply lookup_nth; [exact Hnd5 | lia].
    - apply Hcols; [exact H0 | | apply seq_NoDup | apply in_seq; lia].
      now rewrite (Hpos5 _ Hp). }
  split.
  { intros Hfresh Hplain.
    rewrite HlabsF, (Hlabs5 Hfresh), <- app_assoc;
      [reflexivity | apply seq_NoDup |].
    intros j _ I. rewrite (Hlabs5 Hfresh) in I. apply in_app_or in I.
    destruct I as [I | I].
    - apply Hplain in I. rewrite shift_name_prefix in I. discriminate I.
    - cbn in I. intuition discriminate. }
  split; [exact (HndF Hnd5)|].
  rewrite ?(Hkeep "CDD"%string), ?(Hkeep "HDD"%string),
    ?(Hkeep "CDD2"%string), ?(Hkeep "HDD2"%string) by reflexivity.
  repeat split; assumption.
Qed.

Lemma output_select (dropna : bool) (F : DataFrame) :
  exists mask,
    df_index (if dropna then dropna_rows F else F)
    = select_rows dropna mask (df_index F) /\
    forall n,
      lookup n (df_columns (if dropna then dropna_rows F else F))
      = option_map (select_rows dropna mask) (lookup n (df_columns F)).
Proof.
  destruct dropna.
  - exists (map (row_complete (df_columns F)) (seq 0 (nrows F))).
    split; [reflexivity|]. intros n. unfold dropna_rows. cbn [df_columns].
    apply lookup_map_values.
  - exists []. split; [reflexivity|]. intros n.
    now destruct (lookup n (df_columns F)).
Qed.

Lemma lookup_temporary (idx : list Z) (n : string) :
  In n ["MONTH"; "TOD"; "DOW"]%string ->
  lookup n
    (indicator_columns "MONTH_" Calendar.month idx (range 2 11)
     ++ indicator_columns "TOD_" Calendar.hour idx (range 1 23)
     ++ indicator_columns "DOW_" Calendar.weekday idx (range 1 6)) = None.
Proof.
  intros Hn. apply lookup_None.
  rewrite !map_app, !labels_indicator_columns.
  cbn in Hn. cbv. intuition (subst; discriminate).
Qed.

Lemma features_ready_frame (rename : bool) (df : DataFrame) :
  features_ready rename df = true ->
  exists C oat,
    entry_frame rename df = mkFrame (df_index df) C /\
    List.length C = List.length (df_columns df) /\
    lookup "OAT" C = Some oat /\ NoDup (map fst C) /\ Unreserved C.
Proof.
  intros Hready.
  destruct (features_ready_spec rename df Hready) as (oat & Hoat & Hnd & Hun).
  destruct (entry_frame_shape rename df) as [Hidx Hlen].
  destruct (entry_frame rename df) as [idx C] eqn:HE.
  cbn [df_index df_columns] in *. subst idx.
  exists C, oat. repeat split; assumption.
Qed.

(** X19.  In the frame returned for a table the builder accepts, WEEKEND is
    1 on the rows whose timestamp falls on a Saturday or a Sunday and 0 on
    every other row. *)
Theorem weekend_flag (df : DataFrame) (pl shift : Z) (rename dropna : bool) :
  features_ready rename df = true -> lag_ready pl shift df = true ->
  exists out,
    fst (create_standard_multivariable_df pl shift rename dropna df) = Ok out /\
    lookup "WEEKEND" (df_columns out) = Some (map weekend_of (df_index out)).
Proof.
  intros Hready Hlag.
  destruct (features_ready_frame rename df Hready)
    as (C & oat & HE & Hlen & Hoat & Hnd & Hun).
  apply lag_ready_spec in Hlag. rewrite <- Hlen in Hlag.
  destruct (features_state df pl shift rename dropna (df_index df) C oat
              HE Hoat Hnd Hun Hlag)
    as (CF & Hrun & _ & _ & _ & _ & Hwe & _).
  rewrite Hrun. cbv zeta. cbn [fst].
  eexists. split; [reflexivity|].
  match goal with
  | |- context [if dropna then dropna_rows ?F else _] =>
    destruct (output_select dropna F) as (mask & Hidx & Hlk)
  end.
  rewrite Hlk, Hidx. cbn [df_columns df_index].
  rewrite lookup_app, lookup_remove_three by reflexivity.
  rewrite Hwe. cbn [option_map]. f_equal.
  unfold select_rows. destruct dropna; [apply keep_rows_map | reflexivity].
Qed.

Lemma weekend_flag_witness :
  exists out,
    fst (create_standard_multivariable_df 0 1 true false weekend_table)
    = Ok out /\
    lookup "WEEKEND" (df_columns out) = Some (map weekend_of (df_index out)).
Proof.
  apply (weekend_flag weekend_table 0 1 true false); vm_compute; reflexivity.
Defined.

Example weekend_flag_fixture :
  option_map (fun out => lookup "WEEKEND" (df_columns out))
    (match fst (create_standard_multivariable_df 0 1 true false weekend_table)
     with Ok out => Some out | Raise _ _ => None end)
  = Some (Some [CInt 0; CInt 1; CInt 1; CInt 1]).
Proof. vm_compute. reflexivity. Qed.

(** X20.  The builder works on the caller's table: after a run on a table it
    accepts, the caller's table still has all its rows (also when the frame
    returned has lost the incomplete ones), its OAT readings are rounded,
    and it holds the columns MONTH, TOD and DOW of the calendar fields,
    which the frame returned does not have; a column that the builder does
    not assign is as it was. *)
Theorem caller_table_after_run (df : DataFrame) (pl shift : Z)
    (rename dropna : bool) :
  features_ready rename df = true -> lag_ready pl shift df = true ->
  exists out state oat,
    create_standard_multivariable_df pl shift rename dropna df
    = (Ok out, state) /\
    lookup "OAT" (df_columns (entry_frame rename df)) = Some oat /\
    df_index state = df_index df /\
    lookup "OAT" (df_columns state) = Some (map cell_round oat) /\
    lookup "MONTH" (df_columns state)
    = Some (map (fun t => CInt (Calendar.month t)) (df_index df)) /\
    lookup "TOD" (df_columns state)
    = Some (map (fun t => CInt (Calendar.hour t)) (df_index df)) /\
    lookup "DOW" (df_columns state)
    = Some (map (fun t => CInt (Calendar.weekday t)) (df_index df)) /\
    (forall n, In n ["MONTH"; "TOD"; "DOW"]%string ->
               lookup n (df_columns out) = None) /\
    (forall n, ~ In n generated_names -> has_prefix "SHIFT_" n = false ->
               lookup n (df_columns state)
               = lookup n (df_columns (entry_frame rename df))).
Proof.
  intros Hready Hlag.
  destruct (features_ready_frame rename df Hready)
    as (C & oat & HE & Hlen & Hoat & Hnd & Hun).
  apply lag_ready_spec in Hlag. rewrite <- Hlen in Hlag.
  destruct (features_state df pl shift rename dropna (df_index df) C oat
              HE Hoat Hnd Hun Hlag)
    as (CF & Hrun & HoatF & Hmon & Htod & Hdow & _ & Hoth & _).
  rewrite Hrun, HE. cbv zeta. cbn [df_columns df_index].
  eexists. exists (mkFrame (df_index df) CF), oat.
  split; [reflexivity|]. cbn [df_columns df_index].
  split; [exact Hoat|]. split; [reflexivity|]. split; [exact HoatF|].
  split; [exact Hmon|]. split; [exact Htod|]. split; [exact Hdow|].
  split; [|exact Hoth].
  intros n Hn.
  match goal with
  | |- context [if dropna then dropna_rows ?F else _] =>
    destruct (output_select dropna F) as (mask & _ & Hlk)
  end.
  rewrite Hlk. cbn [df_columns].
  rewrite lookup_app, (lookup_temporary (df_index df) n Hn).
  rewrite !lookup_remove_label.
  cbn in Hn. destruct Hn as [<- | [<- | [<- | []]]]; reflexivity.
Qed.

Lemma caller_table_after_run_witness :
  exists out state oat,
    create_standard_multivariable_df 0 1 true true weekend_table
    = (Ok out, state) /\
    lookup "OAT" (df_columns (entry_frame true weekend_table)) = Some oat /\
    df_index state = df_index weekend_table /\
    lookup "OAT" (df_columns state) = Some (map cell_round oat) /\
    lookup "MONTH" (df_columns state)
    = Some (map (fun t => CInt (Calendar.month t)) (df_index weekend_table)) /\
    lookup "TOD" (df_columns state)
    = Some (map (fun t => CInt (Calendar.hour t)) (df_index weekend_table)) /\
    lookup "DOW" (df_columns state)
    = Some (map (fun t => CInt (Calendar.weekday t))
              (df_index weekend_table)) /\
    (forall n, In n ["MONTH"; "TOD"; "DOW"]%string ->
               lookup n (df_columns out) = None) /\
    (forall n, ~ In n generated_names -> has_prefix "SHIFT_" n = false ->
               lookup n (df_columns state)
               = lookup n (df_columns (entry_frame true weekend_table))).
Proof.
  apply (caller_table_after_run weekend_table 0 1 true true);
    vm_compute; reflexivity.
Defined.

(** The caller's table of the fixture after a run that drops incomplete
    rows: four rows, the readings rounded half to even, while the frame
    returned has two rows. *)
Example caller_table_fixture :
  (let r := create_standard_multivariable_df 0 1 true true weekend_table in
   (option_map nrows (match fst r with Ok out => Some out | Raise _ _ => None end),
    nrows (snd r), lookup "OAT" (df_columns (snd r))))
  = (Some 2%nat, 4%nat,
     Some [CFloat (Fin 70); CFloat (Fin 72); CFloat NaN; CFloat (Fin 73)]).
Proof. vm_compute. reflexivity. Qed.

(** X21.  The lag columns: for a position [point_location] counted from the
    front whose column is not itself a lag column, SHIFT_i of the frame
    returned is that column moved [i] rows down, for every [i] from 1 to
    [shift]; the column is taken as the builder left it in the caller's
    table, so the lags of OAT are lags of the rounded readings, and the lags
    of a column the builder does not assign are lags of the input. *)
Theorem lag_columns (df : DataFrame) (pl shift : Z) (rename dropna : bool)
    (label : string) (col : column) (i : nat) :
  features_ready rename df = true ->
  0 <= pl < Z.of_nat (List.length (df_columns df)) ->
  nth (Z.to_nat pl) (df_columns (entry_frame rename df)) (EmptyString, [])
  = (label, col) ->
  has_prefix "SHIFT_" label = false ->
  (1 <= i <= Z.to_nat shift)%nat ->
  exists out mask base,
    fst (create_standard_multivariable_df pl shift rename dropna df) = Ok out /\
    df_index out = select_rows dropna mask (df_index df) /\
    lookup ("SHIFT_" ++ str_of_Z (Z.of_nat i)) (df_columns out)
    = Some (select_rows dropna mask (shift_cells i base)) /\
    lookup label
      (df_columns
         (snd (create_standard_multivariable_df pl shift rename dropna df)))
    = Some base /\
    (label = "OAT"%string -> base = map cell_round col) /\
    (~ In label generated_names -> base = col).
Proof.
  intros Hready Hpl Hnth Hpre Hi.
  destruct (features_ready_frame rename df Hready)
    as (C & oat & HE & Hlen & Hoat & Hnd & Hun).
  rewrite HE in Hnth. cbn [df_columns] in Hnth. rewrite <- Hlen in Hpl.
  assert (Hcol : lookup label C = Some col).
  { pose proof (lookup_nth C (Z.to_nat pl) Hnd ltac:(lia)) as L.
    now rewrite Hnth in L. }
  assert (Hrange : shift <= 0 \/
                   - Z.of_nat (List.length C) <= pl < Z.of_nat (List.length C))
    by (right; lia).
  destruct (features_state df pl shift rename dropna (df_index df) C oat
              HE Hoat Hnd Hun Hrange)
    as (CF & Hrun & HoatF & _ & _ & _ & _ & Hoth & Hlags & _).
  rewrite Hnth in Hlags. cbn [fst] in Hlags.
  destruct (Hlags (proj1 Hpl) Hpre (i - 1)%nat ltac:(lia))
    as (base & Hbase & Hshift).
  replace (Z.of_nat (i - 1) + 1) with (Z.of_nat i) in Hshift by lia.
  replace (S (i - 1)) with i in Hshift by lia.
  rewrite Hrun. cbv zeta. cbn [fst snd df_columns].
  match goal with
  | |- context [if dropna then dropna_rows ?F else _] =>
    destruct (output_select dropna F) as (mask & Hidx & Hlk)
  end.
  eexists. exists mask, base. split; [reflexivity|].
  split; [exact Hidx|]. split.
  - rewrite Hlk. cbn [df_columns].
    rewrite lookup_app, lookup_remove_three by reflexivity.
    now rewrite Hshift.
  - split; [exact Hbase|]. split.
    + intros ->. rewrite HoatF in Hbase. rewrite Hoat in Hcol. congruence.
    + intros Hgen. rewrite (Hoth label Hgen Hpre), Hcol in Hbase. congruence.
Qed.

Lemma lag_columns_witness :
  exists out mask base,
    fst (create_standard_multivariable_df 1 2 true false weekend_table)
    = Ok out /\
    df_index out = select_rows false mask (df_index weekend_table) /\
    lookup ("SHIFT_" ++ str_of_Z (Z.of_nat 2)) (df_columns out)
    = Some (select_rows false mask (shift_cells 2 base)) /\
    lookup "OAT"
      (df_columns
         (snd (create_standard_multivariable_df 1 2 true false weekend_table)))
    = Some base /\
    ("OAT"%string = "OAT"%string ->
     base = map cell_round
              [CFloat (Fin (141 # 2)); CFloat (Fin (143 # 2)); CFloat NaN;
               CFloat (Fin (363 # 5))]) /\
    (~ In "OAT"%string generated_names ->
     base = [CFloat (Fin (141 # 2)); CFloat (Fin (143 # 2)); CFloat NaN;
             CFloat (Fin (363 # 5))]).
Proof.
  apply (lag_columns weekend_table 1 2 true false "OAT"
           [CFloat (Fin (141 # 2)); CFloat (Fin (143 # 2)); CFloat NaN;
            CFloat (Fin (363 # 5))] 2);
    try (vm_compute; reflexivity); cbn; lia.
Defined.

(** The lags of the fixture's readings are lags of the rounded readings. *)
Example lag_columns_fixture :
  option_map (fun out => lookup "SHIFT_2" (df_columns out))
    (match fst (create_standard_multivariable_df 1 2 true false weekend_table)
     with Ok out => Some out | Raise _ _ => None end)
  = Some (Some [CFloat NaN; CFloat NaN; CFloat (Fin 70); CFloat (Fin 72)]).
Proof. vm_compute. reflexivity. Qed.

Lemma In_combine_nth {A B} (l : list A) (l' : list B) (a : A) (b : B)
    (da : A) (db : B) :
  In (a, b) (combine l l') ->
  exists i, (i < List.length l)%nat /\ nth i l da = a /\ nth i l' db = b.
Proof.
  revert l'. induction l as [|x l IH]; intros [|y l'] H; simpl in H;
    try contradiction.
  destruct H as [H | H].
  - injection H as -> ->. exists 0%nat. cbn. repeat split. lia.
  - destruct (IH l' H) as (i & Hi & Ha & Hb).
    exists (S i). cbn. repeat split; [lia | exact Ha | exact Hb].
Qed.

Lemma dropna_rows_complete (df : DataFrame) (nc : string * column) (c : cell) :
  In nc (df_columns (dropna_rows df)) -> In c (snd nc) -> cell_isna c = false.
Proof.
  unfold dropna_rows. cbn [df_columns]. intros Hnc Hc.
  apply in_map_iff in Hnc. destruct Hnc as ([l col] & <- & Hin).
  cbn [fst snd] in *. unfold keep_rows in Hc.
  apply in_map_iff in Hc. destruct Hc as ([b c'] & Hsnd & Hc).
  cbn [snd] in Hsnd. subst c'.
  apply filter_In in Hc. destruct Hc as [Hc Hb]. cbn [fst] in Hb. subst b.
  apply (In_combine_nth _ _ _ _ false (CInt 0)) in Hc.
  destruct Hc as (i & Hi & Hmask & Hcell).
  rewrite length_map, length_seq in Hi.
  rewrite (nth_indep _ false (row_complete (df_columns df) 0%nat)) in Hmask
    by (rewrite length_map, length_seq; exact Hi).
  rewrite map_nth, seq_nth in Hmask by exact Hi. cbn [plus] in Hmask.
  unfold row_complete in Hmask. rewrite forallb_forall in Hmask.
  specialize (Hmask (l, col) Hin). cbn [snd] in Hmask.
  rewrite Hcell in Hmask. now apply negb_true_iff.
Qed.

(** X22.  With [dropna] the frame returned for a table the builder accepts
    has no missing cell, in any column. *)
Theorem no_missing_cell_after_dropna (df : DataFrame) (pl shift : Z)
    (rename : bool) :
  features_ready rename df = true -> lag_ready pl shift df = true ->
  exists out,
    fst (create_standard_multivariable_df pl shift rename true df) = Ok out /\
    forall name col c,
      In (name, col) (df_columns out) -> In c col -> cell_isna c = false.
Proof.
  intros Hready Hlag.
  destruct (features_ready_frame rename df Hready)
    as (C & oat & HE & Hlen & Hoat & Hnd & Hun).
  apply lag_ready_spec in Hlag. rewrite <- Hlen in Hlag.
  destruct (features_state df pl shift rename true (df_index df) C oat
              HE Hoat Hnd Hun Hlag) as (CF & Hrun & _).
  rewrite Hrun. cbv zeta. cbn [fst].
  eexists. split; [reflexivity|].
  intros name col c Hin Hc.
  exact (dropna_rows_complete _ (name, col) c Hin Hc).
Qed.

Lemma no_missing_cell_after_dropna_witness :
  exists out,
    fst (create_standard_multivariable_df 1 2 true true weekend_table)
    = Ok out /\
    forall name col c,
      In (name, col) (df_columns out) -> In c col -> cell_isna c = false.
Proof.
  apply (no_missing_cell_after_dropna weekend_table 1 2 true);
    vm_compute; reflexivity.
Defined.

Lemma frame_iloc_out_of_range (idx : list Z) (C : list (string * column))
    (pl : Z) :
  pl < - Z.of_nat (List.length C) \/ Z.of_nat (List.length C) <= pl ->
  frame_iloc (mkFrame idx C) pl
  = Raise IndexError "single positional indexer is out-of-bounds".
Proof.
  intros H. unfold frame_iloc. cbn [df_columns].
  destruct ((- Z.of_nat (List.length C) <=? pl)
            && (pl <? Z.of_nat (List.length C))) eqn:E; [|reflexivity].
  apply andb_true_iff in E. lia.
Qed.

(** X23.  A [point_location] beyond the columns the table has when the lags
    are taken (its own and the eight the builder adds) fails with
    [IndexError] when a lag is asked, and only after the caller's table has
    been modified: the table keeps its rows, has the rounded readings and
    the WEEKEND flag, and no lag column has been added. *)
Theorem lag_position_out_of_range (df : DataFrame) (pl shift : Z)
    (rename dropna : bool) :
  features_ready rename df = true ->
  1 <= shift ->
  pl < - (Z.of_nat (List.length (df_columns df)) + 8) \/
  Z.of_nat (List.length (df_columns df)) + 8 <= pl ->
  exists state oat,
    create_standard_multivariable_df pl shift rename dropna df
    = (Raise IndexError "single positional indexer is out-of-bounds", state) /\
    lookup "OAT" (df_columns (entry_frame rename df)) = Some oat /\
    df_index state = df_index df /\
    lookup "OAT" (df_columns state) = Some (map cell_round oat) /\
    lookup "WEEKEND" (df_columns state)
    = Some (map weekend_of (df_index df)) /\
    lookup "SHIFT_1" (df_columns state)
    = lookup "SHIFT_1" (df_columns (entry_frame rename df)).
Proof.
  intros Hready Hshift Hpl.
  destruct (features_ready_frame rename df Hready)
    as (C & oat & HE & Hlen & Hoat & Hnd & Hun).
  rewrite <- Hlen in Hpl.
  destruct (features_prefix df pl shift rename dropna (df_index df) C oat
              HE Hoat Hnd Hun)
    as (C5 & Hrun & Hoat5 & _ & _ & _ & _ & _ & _ & _ & Hwe5
        & Hoth5 & Hnd5 & _ & Hlen5 & _ & Hlab5 & _).
  assert (Hbound : (List.length C5 <= List.length C + 8)%nat).
  { rewrite <- (length_map fst C5), <- (length_map fst C).
    change 8%nat with (List.length (tl generated_names)).
    rewrite <- length_app. apply NoDup_incl_length; [exact Hnd5|].
    intros n Hn. apply in_or_app. now apply Hlab5. }
  rewrite Hrun, HE. cbn [df_columns].
  exists (mkFrame (df_index df) C5), oat.
  split.
  - destruct (Z.to_nat shift) as [|k] eqn:Ek; [lia|].
    cbn [seq sfor]. cbv zeta.
    unfold sbind at 1. unfold sbind at 1. rewrite run_sget.
    unfold sbind at 1. unfold slift.
    rewrite frame_iloc_out_of_range by lia. reflexivity.
  - cbn [df_index df_columns]. split; [exact Hoat|]. split; [reflexivity|].
    split; [exact Hoat5|]. split; [exact Hwe5|].
    apply Hoth5. cbv. intuition discriminate.
Qed.

Lemma lag_position_out_of_range_witness :
  exists state oat,
    create_standard_multivariable_df 10 1 true true weekend_table
    = (Raise IndexError "single positional indexer is out-of-bounds", state) /\
    lookup "OAT" (df_columns (entry_frame true weekend_table)) = Some oat /\
    df_index state = df_index weekend_table /\
    lookup "OAT" (df_columns state) = Some (map cell_round oat) /\
    lookup "WEEKEND" (df_columns state)
    = Some (map weekend_of (df_index weekend_table)) /\
    lookup "SHIFT_1" (df_columns state)
    = lookup "SHIFT_1" (df_columns (entry_frame true weekend_table)).
Proof.
  apply (lag_position_out_of_range weekend_table 10 1 true true);
    [vm_compute; reflexivity | lia | right; cbn; lia].
Defined.

(** A position past the columns of the input can still name a column the
    builder has added by then: on the fixture of two columns, position 2 is
    the CDD column. *)
Example lag_of_an_added_column :
  option_map (fun out => lookup "SHIFT_1" (df_columns out))
    (match fst (create_standard_multivariable_df 2 1 true false weekend_table)
     with Ok out => Some out | Raise _ _ => None end)
  = Some (Some [CFloat NaN; CFloat (Fin 6); CFloat (Fin 6); CFloat NaN]).
Proof. vm_compute. reflexivity. Qed.

Lemma map_fst_remove_label (m : string) (C : list (string * column)) :
  map fst (remove_label m C)
  = filter (fun l => negb (String.eqb l m)) (map fst C).
Proof.
  unfold remove_label. induction C as [|[l c] C IH]; [reflexivity|].
  cbn [filter map fst]. destruct (String.eqb l m); cbn [negb map fst];
    now rewrite IH.
Qed.

Lemma filter_all {A} (p : A -> bool) (l : list A) :
  (forall x, In x l -> p x = true) -> filter p l = l.
Proof.
  induction l as [|a l IH]; intros H; [reflexivity|].
  cbn [filter]. rewrite (H a (or_introl eq_refl)), IH; [reflexivity|].
  intros x Hx. apply H. now right.
Qed.

Lemma labels_output (dropna : bool) (F : DataFrame) :
  labels (if dropna then dropna_rows F else F) = labels F.
Proof.
  destruct dropna; [|reflexivity].
  unfold labels, dropna_rows. cbn [df_columns]. rewrite map_map.
  reflexivity.
Qed.

Lemma plain_labels_spec (L : list string) :
  plain_labels L = true ->
  (forall n, In n (tl generated_names) -> ~ In n L) /\
  (forall n, In n L -> has_prefix "SHIFT_" n = false).
Proof.
  unfold plain_labels. rewrite forallb_forall. intros H. split.
  - intros n Hn I. specialize (H n I). apply andb_true_iff in H.
    destruct H as [H _]. apply negb_true_iff in H.
    assert (E : existsb (String.eqb n) (tl generated_names) = true).
    { apply existsb_exists. exists n. split; [exact Hn | apply String.eqb_refl]. }
    congruence.
  - intros n I. specialize (H n I). apply andb_true_iff in H.
    destruct H as [_ H]. now apply negb_true_iff.
Qed.

(** X24.  The columns of the frame returned, for a table the builder accepts
    whose labels are not names the builder generates: the columns of the
    table in their order, then CDD, HDD, CDD2, HDD2 and WEEKEND, the lag
    columns SHIFT_1 to SHIFT_shift, and the indicator columns MONTH_2 to
    MONTH_12, TOD_1 to TOD_23 and DOW_1 to DOW_6; that is 45 columns and the
    lags on top of those of the table. *)
Theorem output_columns (df : DataFrame) (pl shift : Z) (rename dropna : bool) :
  features_ready rename df = true -> lag_ready pl shift df = true ->
  plain_labels (labels (entry_frame rename df)) = true ->
  exists out,
    fst (create_standard_multivariable_df pl shift rename dropna df) = Ok out /\
    labels out
    = labels (entry_frame rename df)
      ++ ["CDD"; "HDD"; "CDD2"; "HDD2"; "WEEKEND"]%string
      ++ map (fun i => ("SHIFT_" ++ str_of_Z (Z.of_nat i))%string)
           (seq 1 (Z.to_nat shift))
      ++ group_names "MONTH_" 2 11 ++ group_names "TOD_" 1 23
      ++ group_names "DOW_" 1 6 /\
    List.length (df_columns out)
    = (List.length (df_columns df) + 45 + Z.to_nat shift)%nat.
Proof.
  intros Hready Hlag Hplain.
  destruct (features_ready_frame rename df Hready)
    as (C & oat & HE & Hlen & Hoat & Hnd & Hun).
  apply lag_ready_spec in Hlag. rewrite <- Hlen in Hlag.
  rewrite HE in Hplain |- *. unfold labels in Hplain.
  unfold labels at 2. cbn [df_columns] in Hplain |- *.
  destruct (plain_labels_spec _ Hplain) as [Hfresh Hpre].
  destruct (features_state df pl shift rename dropna (df_index df) C oat
              HE Hoat Hnd Hun Hlag)
    as (CF & Hrun & _ & _ & _ & _ & _ & _ & _ & Hlabs & _).
  specialize (Hlabs Hfresh Hpre).
  rewrite Hrun. cbv zeta. cbn [fst].
  eexists. split; [reflexivity|].
  assert (Hout :
            labels
              (if dropna
               then dropna_rows
                      (mkFrame (df_index df)
                         (remove_label "DOW"
                            (remove_label "TOD" (remove_label "MONTH" CF))
                          ++ indicator_columns "MONTH_" Calendar.month
                               (df_index df) (range 2 11)
                          ++ indicator_columns "TOD_" Calendar.hour
                               (df_index df) (range 1 23)
                          ++ indicator_columns "DOW_" Calendar.weekday
                               (df_index df) (range 1 6)))
               else
                 mkFrame (df_index df)
                   (remove_label "DOW"
                      (remove_label "TOD" (remove_label "MONTH" CF))
                    ++ indicator_columns "MONTH_" Calendar.month
                         (df_index df) (range 2 11)
                    ++ indicator_columns "TOD_" Calendar.hour
                         (df_index df) (range 1 23)
                    ++ indicator_columns "DOW_" Calendar.weekday
                         (df_index df) (range 1 6)))
            = map fst C
              ++ ["CDD"; "HDD"; "CDD2"; "HDD2"; "WEEKEND"]%string
              ++ map (fun i => ("SHIFT_" ++ str_of_Z (Z.of_nat i))%string)
                   (seq 1 (Z.to_nat shift))
              ++ group_names "MONTH_" 2 11 ++ group_names "TOD_" 1 23
              ++ group_names "DOW_" 1 6).
  { rewrite labels_output. unfold labels. cbn [df_columns].
    rewrite !map_app, !labels_indicator_columns, !map_fst_remove_label, Hlabs.
    unfold group_names, range. rewrite !map_map.
    rewrite !filter_app.
    rewrite !(filter_all _ (map fst C)).
    2,3,4: intros x Hx; apply negb_true_iff, String.eqb_neq; intros ->;
           refine (Hfresh _ _ Hx); cbn;
           repeat first [left; reflexivity | right].
    rewrite !(filter_all _ (map _ (seq 0 (Z.to_nat shift)))).
    2,3,4: intros x Hx; apply in_map_iff in Hx; destruct Hx as (j & <- & _);
           reflexivity.
    cbn [filter String.eqb Ascii.eqb Bool.eqb negb app].
    rewrite <- (seq_shift (Z.to_nat shift) 0), (map_map S).
    rewrite (map_ext (fun x => ("SHIFT_" ++ str_of_Z (Z.of_nat (S x)))%string)
               (fun j => ("SHIFT_" ++ str_of_Z (Z.of_nat j + 1))%string))
      by (intros j; do 2 f_equal; lia).
    rewrite <- !app_assoc. reflexivity. }
  split; [exact Hout|].
  apply (f_equal (@List.length string)) in Hout.
  unfold labels in Hout. rewrite length_map in Hout. rewrite Hout.
  rewrite !length_app, !length_map. unfold group_names.
  rewrite !length_map, !length_seq. cbn [List.length]. lia.
Qed.

Lemma output_columns_witness :
  exists out,
    fst (create_standard_multivariable_df 0 2 true true weekend_table) = Ok out /\
    labels out
    = labels (entry_frame true weekend_table)
      ++ ["CDD"; "HDD"; "CDD2"; "HDD2"; "WEEKEND"]%string
      ++ map (fun i => ("SHIFT_" ++ str_of_Z (Z.of_nat i))%string)
           (seq 1 (Z.to_nat 2))
      ++ group_names "MONTH_" 2 11 ++ group_names "TOD_" 1 23
      ++ group_names "DOW_" 1 6 /\
    List.length (df_columns out)
    = (List.length (df_columns weekend_table) + 45 + Z.to_nat 2)%nat.
Proof.
  apply (output_columns weekend_table 0 2 true true); vm_compute; reflexivity.
Defined.

(** With the defaults, a table that has the OAT column only gives 47
    columns. *)
Example output_columns_fixture :
  option_map (fun out => List.length (df_columns out))
    (match fst (create_standard_multivariable_df 0 1 true true fixture_table)
     with Ok out => Some out | Raise _ _ => None end)
  = Some 47%nat.
Proof. vm_compute. reflexivity. Qed.

Lemma lookup_In (n : string) (c : column) (C : list (string * column)) :
  lookup n C = Some c -> In (n, c) C.
Proof.
  induction C as [|[l x] C IH]; simpl; [discriminate|].
  destruct (String.eqb_spec l n) as [-> | N].
  - intros [= ->]. now left.
  - intros H. right. now apply IH.
Qed.

Lemma In_lookup (n : string) (c : column) (C : list (string * column)) :
  NoDup (map fst C) -> In (n, c) C -> lookup n C = Some c.
Proof.
  induction C as [|[l x] C IH]; simpl; intros Hnd H; [contradiction|].
  inversion Hnd as [|? ? Hnotin Hnd']; subst.
  destruct H as [[= -> ->] | H].
  - now rewrite String.eqb_refl.
  - destruct (String.eqb_spec l n) as [-> | N].
    + exfalso. apply Hnotin. apply (in_map fst) in H. exact H.
    + now apply IH.
Qed.

Lemma nth_not_nan (col : column) (r : nat) :
  (forall c, In c col -> cell_isna c = false) ->
  cell_isna (nth r col (CInt 0)) = false.
Proof.
  intros H. destruct (nth_in_or_default r col (CInt 0)) as [I | ->];
    [now apply H | reflexivity].
Qed.

Lemma nth_shift_cells (i : nat) (col : column) (r : nat) :
  (r < List.length col)%nat ->
  nth r (shift_cells i col) (CInt 0)
  = if (r <? i)%nat then CFloat NaN
    else CFloat (to_f64 (nth (r - i) col (CInt 0))).
Proof.
  intros Hr. unfold shift_cells. rewrite nth_firstn.
  destruct (r <? List.length col)%nat eqn:E; [|apply Nat.ltb_ge in E; lia].
  destruct (r <? i)%nat eqn:Ei.
  - apply Nat.ltb_lt in Ei.
    rewrite app_nth1 by (rewrite repeat_length; exact Ei).
    now apply nth_repeat_lt.
  - apply Nat.ltb_ge in Ei.
    rewrite app_nth2 by (rewrite repeat_length; exact Ei).
    rewrite repeat_length.
    rewrite (nth_indep _ (CInt 0) (CFloat (to_f64 (CInt 0))))
      by (rewrite length_map; lia).
    apply (map_nth (fun c => CFloat (to_f64 c))).
Qed.

Lemma keep_rows_from {A} (s : nat) (l : list A) :
  forall a,
    keep_rows (map (fun r => (s <=? r)%nat) (seq a (List.length l))) l
    = skipn (s - a) l.
Proof.
  unfold keep_rows.
  induction l as [|x l IH]; intros a.
  - cbn. now destruct (s - a)%nat.
  - cbn [List.length seq map combine filter fst].
    destruct (s <=? a)%nat eqn:E.
    + apply Nat.leb_le in E. cbn [map snd]. rewrite IH.
      replace (s - S a)%nat with 0%nat by lia.
      replace (s - a)%nat with 0%nat by lia. reflexivity.
    + apply Nat.leb_gt in E. rewrite IH.
      replace (s - a)%nat with (S (s - S a)) by lia. reflexivity.
Qed.

Lemma forallb_false {A} (p : A -> bool) (l : list A) (x : A) :
  In x l -> p x = false -> forallb p l = false.
Proof.
  intros I H. destruct (forallb p l) eqn:E; [|reflexivity].
  rewrite forallb_forall in E. rewrite (E x I) in H. discriminate H.
Qed.

Lemma complete_column_spec (n : nat) (col : column) :
  complete_column n col = true ->
  List.length col = n /\ forall c, In c col -> cell_isna c = false.
Proof.
  unfold complete_column. rewrite andb_true_iff, forallb_forall.
  intros [Hl Hc]. split; [now apply Nat.eqb_eq|].
  intros c I. now apply negb_true_iff, Hc.
Qed.

Lemma to_f64_not_nan (c : cell) :
  cell_isna c = false -> exists q, to_f64 c = Fin q.
Proof.
  destruct c as [[q|]|z]; cbn; intros H; try discriminate; eexists; reflexivity.
Qed.

Lemma derived_not_nan (g : cell -> cell) (oat : column) :
  (forall c, cell_isna c = false -> cell_isna (g c) = false) ->
  (forall c, In c oat -> cell_isna c = false) ->
  forall c, In c (map g oat) -> cell_isna c = false.
Proof.
  intros Hg Hoat c I. apply in_map_iff in I. destruct I as (x & <- & Hx).
  now apply Hg, Hoat.
Qed.

Lemma degree_days_not_nan (c : cell) :
  cell_isna c = false ->
  cell_isna (cdd_of c) = false /\ cell_isna (hdd_of c) = false /\
  cell_isna (cdd2_of c) = false /\ cell_isna (hdd2_of c) = false /\
  cell_isna (cell_round c) = false.
Proof.
  intros H. destruct (to_f64_not_nan c H) as (q & Hq).
  unfold cdd_of, hdd_of, cdd2_of, hdd2_of. cbv zeta. rewrite Hq.
  cbn [fsub lift2]. unfold clip0.
  repeat split;
    try (destruct (flt _ _); reflexivity).
  destruct c as [[x|]|z]; [reflexivity | discriminate H | reflexivity].
Qed.

(** X25.  On a table without a missing value whose labels are not names the
    builder generates, [dropna] removes exactly the first [shift] rows: the
    frame returned has the rows of the table from row [shift] on. *)
Theorem dropna_drops_the_first_rows (df : DataFrame) (pl shift : Z)
    (rename : bool) :
  features_ready rename df = true ->
  plain_labels (labels (entry_frame rename df)) = true ->
  complete_table (entry_frame rename df) = true ->
  0 <= pl < Z.of_nat (List.length (df_columns df)) ->
  exists out,
    fst (create_standard_multivariable_df pl shift rename true df) = Ok out /\
    df_index out = skipn (Z.to_nat shift) (df_index df).
Proof.
  intros Hready Hplain Hcomplete Hpl.
  destruct (features_ready_frame rename df Hready)
    as (C & oat & HE & Hlen & Hoat & Hnd & Hun).
  rewrite <- Hlen in Hpl.
  rewrite HE in Hplain, Hcomplete. unfold labels in Hplain.
  unfold complete_table, nrows in Hcomplete.
  cbn [df_columns df_index] in Hplain, Hcomplete.
  rewrite forallb_forall in Hcomplete.
  destruct (plain_labels_spec _ Hplain) as [Hfresh Hpre].
  assert (Hrange : shift <= 0 \/
                   - Z.of_nat (List.length C) <= pl < Z.of_nat (List.length C))
    by (right; lia).
  destruct (features_state df pl shift rename true (df_index df) C oat
              HE Hoat Hnd Hun Hrange)
    as (CF & Hrun & HoatF & Hmon & Htod & Hdow & Hwe & Hoth & Hlags & Hlabs
        & HndF & Hcdd & Hhdd & Hcdd2 & Hhdd2).
  specialize (Hlabs Hfresh Hpre).
  set (n := List.length (df_index df)) in *.
  set (s := Z.to_nat shift) in *.
  (* the columns of the table are complete in the caller's frame *)
  assert (Hoatc : List.length oat = n /\
                  forall c, In c oat -> cell_isna c = false).
  { apply complete_column_spec.
    apply (Hcomplete ("OAT"%string, oat)). now apply lookup_In. }
  assert (HL : forall name col,
             In name (map fst C) -> lookup name CF = Some col ->
             List.length col = n /\
             forall c, In c col -> cell_isna c = false).
  { intros name col Hname Hcol.
    destruct (String.eqb_spec name "OAT") as [-> | Hne].
    - rewrite HoatF in Hcol. injection Hcol as <-.
      split; [rewrite length_map; exact (proj1 Hoatc)|].
      apply derived_not_nan; [|exact (proj2 Hoatc)].
      intros c Hc. apply (degree_days_not_nan c Hc).
    - rewrite Hoth in Hcol.
      + apply complete_column_spec.
        apply (Hcomplete (name, col)). now apply lookup_In.
      + intros I. cbn in I. destruct I as [E | I]; [congruence|].
        apply (Hfresh name I Hname).
      + now apply Hpre. }
  (* the column of the lags *)
  set (label := fst (nth (Z.to_nat pl) C (EmptyString, []))) in *.
  assert (Hlabel : In label (map fst C)).
  { unfold label. apply in_map, nth_In. lia. }
  specialize (Hlags (proj1 Hpl) (Hpre _ Hlabel)).
  rewrite Hrun. cbv zeta. cbn [fst].
  eexists. split; [reflexivity|].
  unfold dropna_rows, nrows. cbn [df_index df_columns]. fold n.
  match goal with
  | |- keep_rows (map (row_complete ?X) _) _ = _ => set (cols := X)
  end.
  rewrite (map_ext_in (row_complete cols) (fun r => (s <=? r)%nat)).
  { unfold n. rewrite keep_rows_from. now rewrite Nat.sub_0_r. }
  intros r Hr. apply in_seq in Hr. cbn [plus] in Hr.
  destruct (s <=? r)%nat eqn:Esr.
  - (* every cell of a row from [s] on is present *)
    apply Nat.leb_le in Esr.
    unfold row_complete. apply forallb_forall. intros [name col] Hin.
    cbn [snd]. apply negb_true_iff.
    subst cols. apply in_app_or in Hin. destruct Hin as [Hin | Hin].
    + unfold remove_label in Hin.
      apply filter_In in Hin. destruct Hin as [Hin _].
      apply filter_In in Hin. destruct Hin as [Hin _].
      apply filter_In in Hin. destruct Hin as [Hin _].
      pose proof (In_lookup name col CF HndF Hin) as Hcol.
      apply (in_map fst) in Hin. cbn [fst] in Hin. rewrite Hlabs in Hin.
      apply in_app_or in Hin. destruct Hin as [Hin | Hin].
      { apply nth_not_nan. exact (proj2 (HL name col Hin Hcol)). }
      apply in_app_or in Hin. destruct Hin as [Hin | Hin].
      { cbn in Hin.
        destruct Hin as [<- | [<- | [<- | [<- | [<- | [<- | [<- | [<- | []]]]]]]]];
          apply nth_not_nan;
          match goal with
          | H : lookup ?nm CF = Some _ |- _ =>
            rewrite H in Hcol; injection Hcol as <-
          end.
        - apply derived_not_nan; [|exact (proj2 Hoatc)].
          intros c Hc. apply (degree_days_not_nan c Hc).
        - apply derived_not_nan; [|exact (proj2 Hoatc)].
          intros c Hc. apply (degree_days_not_nan c Hc).
        - apply derived_not_nan; [|exact (proj2 Hoatc)].
          intros c Hc. apply (degree_days_not_nan c Hc).
        - apply derived_not_nan; [|exact (proj2 Hoatc)].
          intros c Hc. apply (degree_days_not_nan c Hc).
        - intros c I. apply in_map_iff in I. now destruct I as (t & <- & _).
        - intros c I. apply in_map_iff in I. now destruct I as (t & <- & _).
        - intros c I. apply in_map_iff in I. now destruct I as (t & <- & _).
        - intros c I. apply in_map_iff in I. now destruct I as (t & <- & _). }
      apply in_map_iff in Hin. destruct Hin as (j & <- & Hj).
      apply in_seq in Hj.
      destruct (Hlags j ltac:(lia)) as (base & Hbase & Hshift).
      rewrite Hshift in Hcol. injection Hcol as <-.
      destruct (HL label base Hlabel Hbase) as [Hblen Hbnan].
      rewrite nth_shift_cells by lia.
      destruct (r <? S j)%nat eqn:E; [apply Nat.ltb_lt in E; lia|].
      destruct (to_f64_not_nan (nth (r - S j) base (CInt 0))
                  (nth_not_nan base _ Hbnan)) as (q & ->).
      reflexivity.
    + apply nth_not_nan. intros c Hc.
      repeat (apply in_app_or in Hin; destruct Hin as [Hin | Hin]);
        unfold indicator_columns in Hin; apply in_map_iff in Hin;
        destruct Hin as (k & [= <- <-] & _);
        unfold field_indicator in Hc; apply in_map_iff in Hc;
        now destruct Hc as (t & <- & _).
  - (* a row before [s] lacks the last lag *)
    apply Nat.leb_gt in Esr.
    destruct (Hlags (s - 1)%nat ltac:(lia)) as (base & Hbase & Hshift).
    destruct (HL label base Hlabel Hbase) as [Hblen Hbnan].
    unfold row_complete.
    apply (forallb_false _ _
             (("SHIFT_" ++ str_of_Z (Z.of_nat (s - 1) + 1))%string,
              shift_cells (S (s - 1)) base)).
    + subst cols. apply in_or_app. left.
      unfold remove_label.
      repeat (apply filter_In; split; [|reflexivity]).
      now apply lookup_In.
    + cbn [snd]. rewrite nth_shift_cells by lia.
      destruct (r <? S (s - 1))%nat eqn:E; [reflexivity|].
      apply Nat.ltb_ge in E. lia.
Qed.

Lemma dropna_drops_the_first_rows_witness :
  exists out,
    fst (create_standard_multivariable_df 0 3 true true fixture_table) = Ok out /\
    df_index out = skipn (Z.to_nat 3) (df_index fixture_table).
Proof.
  apply (dropna_drops_the_first_rows fixture_table 0 3 true);
    [vm_compute; reflexivity | vm_compute; reflexivity
    | vm_compute; reflexivity | cbn; lia].
Defined.
